(** * LaCoupole back end: order admission, pricing and the stock ledger

    A shallow embedding of [routes/orderRoutes.js].  The relational store is
    a record of tables, each table a list of rows in storage order.  A
    [SELECT ... WHERE] is a [filter] over the table, [rows[0]] is the head of
    the result, an [UPDATE ... WHERE] maps over every matching row and an
    [INSERT] appends a row.  A connection transaction works on a copy of the
    store: [commit] installs the copy, [rollback] drops it.

    Numbers that JavaScript holds as doubles and MySQL as DECIMAL are exact
    rationals ([Q]) in the handlers below; equalities between computed
    amounts are therefore stated with [==], and the statements about these
    handlers are frames, invariants and bookkeeping that do not hinge on how
    a comparison falls at its threshold.  The menu-line price check, whose
    tolerance is decided by binary64 rounding, is embedded a second time on
    binary64 itself (modules [Double] and [PricingDouble]).  Strings are the
    UTF-8 bytes of the JavaScript strings.  Request handlers run one at a
    time in this model; the realtime emits and the log calls have no effect
    on the store and are left out. *)

From Stdlib Require Import ZArith QArith Qabs List String Ascii Bool Lia Permutation.
From Stdlib Require DecimalString.
From Stdlib Require PrimFloat SpecFloat FloatOps.
Import ListNotations.
Local Open Scope string_scope.
Local Open Scope list_scope.
Local Open Scope Z_scope.

(** ** JavaScript idioms used by the handlers *)

Module Js.

(** Truthiness of a nullable integer column or field: [null], [undefined]
    and [0] are falsy. *)
Definition truthy (v : option Z) : bool :=
  match v with
  | Some z => negb (z =? 0)
  | None => false
  end.

(** [v || 0] on a possibly-undefined number. *)
Definition or_zero (v : option Q) : Q :=
  match v with
  | Some q => if Qeq_bool q 0 then 0%Q else q
  | None => 0%Q
  end.

(** [a < b] on numbers. *)
Definition lt (a b : Q) : bool := negb (Qle_bool b a).

(** [Math.abs(a - b) > 0.01] on exact amounts; [Double.differs] is the same
    test on binary64. *)
Definition differs (a b : Q) : bool := lt (1 # 100) (Qabs (a - b)).

Definition opt_eqb (a : option Z) (b : Z) : bool :=
  match a with
  | Some z => z =? b
  | None => false
  end.

Definition mem (x : Z) (l : list Z) : bool := existsb (Z.eqb x) l.

End Js.

(** ** Tables *)

Inductive OrderStatus := pending | preparing | ready | delivered | cancelled.

Inductive OrderType := local | delivery | takeaway | imported.

Inductive TransactionType := addition | deduction.

Definition status_eqb (a b : OrderStatus) : bool :=
  match a, b with
  | pending, pending | preparing, preparing | ready, ready
  | delivered, delivered | cancelled, cancelled => true
  | _, _ => false
  end.

Definition type_eqb (a b : TransactionType) : bool :=
  match a, b with
  | addition, addition | deduction, deduction => true
  | _, _ => false
  end.

Record User := { usr_id : Z; usr_role : string }.

Record Order := {
  o_id : Z;
  o_total_price : Q;
  o_order_type : OrderType;
  o_delivery_address : option string;
  o_promotion_id : option Z;
  o_table_id : option Z;
  o_session_id : string;
  o_notes : option string;
  o_status : OrderStatus;
  o_approved : bool }.

Record OrderItem := {
  oi_id : Z;
  oi_order_id : Z;
  oi_item_id : option Z;
  oi_breakfast_id : option Z;
  oi_quantity : Z;
  oi_unit_price : Q;
  oi_supplement_id : option Z }.

Record BreakfastOrderOption := {
  boo_order_item_id : Z;
  boo_breakfast_option_id : Z }.

Record Ingredient := {
  ing_id : Z;
  ing_name : string;
  quantity_in_stock : Q }.

Record StockTransaction := {
  st_ingredient_id : Z;
  st_quantity : Q;
  st_transaction_type : TransactionType;
  st_order_id : option Z;
  st_reason : string }.

(** A row of one of the four consumption tables ([menu_item_ingredients],
    [supplement_ingredients], [breakfast_ingredients],
    [breakfast_option_ingredients]): owner id, ingredient id, quantity. *)
Record Consumption := {
  c_owner : Z;
  c_ingredient_id : Z;
  c_quantity : Q }.

Record MenuItem := {
  mi_id : Z;
  mi_availability : bool;
  mi_regular_price : Q;
  mi_sale_price : option Q }.

Record MenuItemSupplement := {
  mis_menu_item_id : Z;
  mis_supplement_id : Z;
  mis_additional_price : option Q }.

Record Breakfast := {
  b_id : Z;
  b_availability : bool;
  b_price : Q }.

Record OptionGroup := {
  bog_id : Z;
  bog_breakfast_id : option Z;
  bog_is_required : bool;
  bog_title : string }.

Record GroupMapping := {
  bogm_breakfast_id : Z;
  bogm_option_group_id : Z }.

Record BreakfastOption := {
  bo_id : Z;
  bo_group_id : Z;
  bo_breakfast_id : option Z;
  bo_additional_price : option Q }.

Inductive TableStatus := available | occupied | reserved.

Record DiningTable := {
  t_id : Z;
  t_table_number : Z;
  t_status : TableStatus }.

Record Promotion := {
  p_id : Z;
  p_discount_percentage : Q;
  p_item_id : option Z;
  p_active : bool;
  p_start_date : Z;
  p_end_date : Z }.

Record DeviceOrderLimit := {
  dol_device_fingerprint : string;
  dol_order_timestamp : Z;
  dol_device_id : string }.

Record Notification := {
  n_reference_id : Z;
  n_message : string }.

Record Store := {
  users : list User;
  orders : list Order;
  order_items : list OrderItem;
  breakfast_order_options : list BreakfastOrderOption;
  ingredients : list Ingredient;
  stock_transactions : list StockTransaction;
  menu_item_ingredients : list Consumption;
  supplement_ingredients : list Consumption;
  breakfast_ingredients : list Consumption;
  breakfast_option_ingredients : list Consumption;
  menu_items : list MenuItem;
  menu_item_supplements : list MenuItemSupplement;
  breakfasts : list Breakfast;
  breakfast_option_groups : list OptionGroup;
  breakfast_option_group_mappings : list GroupMapping;
  breakfast_options : list BreakfastOption;
  tables : list DiningTable;
  promotions : list Promotion;
  device_order_limits : list DeviceOrderLimit;
  notifications : list Notification }.

Definition with_orders (s : Store) (v : list Order) : Store :=
  {| users := users s; orders := v; order_items := order_items s;
     breakfast_order_options := breakfast_order_options s;
     ingredients := ingredients s; stock_transactions := stock_transactions s;
     menu_item_ingredients := menu_item_ingredients s;
     supplement_ingredients := supplement_ingredients s;
     breakfast_ingredients := breakfast_ingredients s;
     breakfast_option_ingredients := breakfast_option_ingredients s;
     menu_items := menu_items s; menu_item_supplements := menu_item_supplements s;
     breakfasts := breakfasts s;
     breakfast_option_groups := breakfast_option_groups s;
     breakfast_option_group_mappings := breakfast_option_group_mappings s;
     breakfast_options := breakfast_options s; tables := tables s;
     promotions := promotions s; device_order_limits := device_order_limits s;
     notifications := notifications s |}.

Definition with_order_items (s : Store) (v : list OrderItem) : Store :=
  {| users := users s; orders := orders s; order_items := v;
     breakfast_order_options := breakfast_order_options s;
     ingredients := ingredients s; stock_transactions := stock_transactions s;
     menu_item_ingredients := menu_item_ingredients s;
     supplement_ingredients := supplement_ingredients s;
     breakfast_ingredients := breakfast_ingredients s;
     breakfast_option_ingredients := breakfast_option_ingredients s;
     menu_items := menu_items s; menu_item_supplements := menu_item_supplements s;
     breakfasts := breakfasts s;
     breakfast_option_groups := breakfast_option_groups s;
     breakfast_option_group_mappings := breakfast_option_group_mappings s;
     breakfast_options := breakfast_options s; tables := tables s;
     promotions := promotions s; device_order_limits := device_order_limits s;
     notifications := notifications s |}.

Definition with_breakfast_order_options (s : Store)
    (v : list BreakfastOrderOption) : Store :=
  {| users := users s; orders := orders s; order_items := order_items s;
     breakfast_order_options := v;
     ingredients := ingredients s; stock_transactions := stock_transactions s;
     menu_item_ingredients := menu_item_ingredients s;
     supplement_ingredients := supplement_ingredients s;
     breakfast_ingredients := breakfast_ingredients s;
     breakfast_option_ingredients := breakfast_option_ingredients s;
     menu_items := menu_items s; menu_item_supplements := menu_item_supplements s;
     breakfasts := breakfasts s;
     breakfast_option_groups := breakfast_option_groups s;
     breakfast_option_group_mappings := breakfast_option_group_mappings s;
     breakfast_options := breakfast_options s; tables := tables s;
     promotions := promotions s; device_order_limits := device_order_limits s;
     notifications := notifications s |}.

Definition with_ingredients (s : Store) (v : list Ingredient) : Store :=
  {| users := users s; orders := orders s; order_items := order_items s;
     breakfast_order_options := breakfast_order_options s;
     ingredients := v; stock_transactions := stock_transactions s;
     menu_item_ingredients := menu_item_ingredients s;
     supplement_ingredients := supplement_ingredients s;
     breakfast_ingredients := breakfast_ingredients s;
     breakfast_option_ingredients := breakfast_option_ingredients s;
     menu_items := menu_items s; menu_item_supplements := menu_item_supplements s;
     breakfasts := breakfasts s;
     breakfast_option_groups := breakfast_option_groups s;
     breakfast_option_group_mappings := breakfast_option_group_mappings s;
     breakfast_options := breakfast_options s; tables := tables s;
     promotions := promotions s; device_order_limits := device_order_limits s;
     notifications := notifications s |}.

Definition with_stock_transactions (s : Store)
    (v : list StockTransaction) : Store :=
  {| users := users s; orders := orders s; order_items := order_items s;
     breakfast_order_options := breakfast_order_options s;
     ingredients := ingredients s; stock_transactions := v;
     menu_item_ingredients := menu_item_ingredients s;
     supplement_ingredients := supplement_ingredients s;
     breakfast_ingredients := breakfast_ingredients s;
     breakfast_option_ingredients := breakfast_option_ingredients s;
     menu_items := menu_items s; menu_item_supplements := menu_item_supplements s;
     breakfasts := breakfasts s;
     breakfast_option_groups := breakfast_option_groups s;
     breakfast_option_group_mappings := breakfast_option_group_mappings s;
     breakfast_options := breakfast_options s; tables := tables s;
     promotions := promotions s; device_order_limits := device_order_limits s;
     notifications := notifications s |}.

Definition with_tables (s : Store) (v : list DiningTable) : Store :=
  {| users := users s; orders := orders s; order_items := order_items s;
     breakfast_order_options := breakfast_order_options s;
     ingredients := ingredients s; stock_transactions := stock_transactions s;
     menu_item_ingredients := menu_item_ingredients s;
     supplement_ingredients := supplement_ingredients s;
     breakfast_ingredients := breakfast_ingredients s;
     breakfast_option_ingredients := breakfast_option_ingredients s;
     menu_items := menu_items s; menu_item_supplements := menu_item_supplements s;
     breakfasts := breakfasts s;
     breakfast_option_groups := breakfast_option_groups s;
     breakfast_option_group_mappings := breakfast_option_group_mappings s;
     breakfast_options := breakfast_options s; tables := v;
     promotions := promotions s; device_order_limits := device_order_limits s;
     notifications := notifications s |}.

Definition with_device_order_limits (s : Store)
    (v : list DeviceOrderLimit) : Store :=
  {| users := users s; orders := orders s; order_items := order_items s;
     breakfast_order_options := breakfast_order_options s;
     ingredients := ingredients s; stock_transactions := stock_transactions s;
     menu_item_ingredients := menu_item_ingredients s;
     supplement_ingredients := supplement_ingredients s;
     breakfast_ingredients := breakfast_ingredients s;
     breakfast_option_ingredients := breakfast_option_ingredients s;
     menu_items := menu_items s; menu_item_supplements := menu_item_supplements s;
     breakfasts := breakfasts s;
     breakfast_option_groups := breakfast_option_groups s;
     breakfast_option_group_mappings := breakfast_option_group_mappings s;
     breakfast_options := breakfast_options s; tables := tables s;
     promotions := promotions s; device_order_limits := v;
     notifications := notifications s |}.

Definition with_notifications (s : Store) (v : list Notification) : Store :=
  {| users := users s; orders := orders s; order_items := order_items s;
     breakfast_order_options := breakfast_order_options s;
     ingredients := ingredients s; stock_transactions := stock_transactions s;
     menu_item_ingredients := menu_item_ingredients s;
     supplement_ingredients := supplement_ingredients s;
     breakfast_ingredients := breakfast_ingredients s;
     breakfast_option_ingredients := breakfast_option_ingredients s;
     menu_items := menu_items s; menu_item_supplements := menu_item_supplements s;
     breakfasts := breakfasts s;
     breakfast_option_groups := breakfast_option_groups s;
     breakfast_option_group_mappings := breakfast_option_group_mappings s;
     breakfast_options := breakfast_options s; tables := tables s;
     promotions := promotions s; device_order_limits := device_order_limits s;
     notifications := v |}.

(** ** Connections and transactions *)

Record Connection := { snapshot : Store; work : Store }.

Definition beginTransaction (s : Store) : Connection :=
  {| snapshot := s; work := s |}.

Definition on_work (c : Connection) (f : Store -> Store) : Connection :=
  {| snapshot := snapshot c; work := f (work c) |}.

Definition commit (c : Connection) : Store := work c.

Definition rollback (c : Connection) : Store := snapshot c.

(** [s'] is [s] up to the [ingredients] and [stock_transactions] tables. *)
Definition sameButStock (s s' : Store) : Prop :=
  with_stock_transactions (with_ingredients s' (ingredients s)) (stock_transactions s) = s.

(** ** Stock ledger: the ingredient requirement map

    The block that builds [ingredientUsage] occurs three times in the source
    (auto-approval inside [POST /orders], [POST /orders/:id/approve] and the
    restoration branch of [POST /orders/:id/cancel]); the three texts differ
    only in indentation, so one definition embeds them.  A JavaScript [Map]
    iterates in insertion order and [set] on a present key keeps its place:
    the map is an association list with exactly that behaviour. *)

Module StockLedger.

Definition UsageMap := list (Z * Q).

Fixpoint get (m : UsageMap) (k : Z) : option Q :=
  match m with
  | [] => None
  | (k', v) :: m' => if k' =? k then Some v else get m' k
  end.

Fixpoint set (m : UsageMap) (k : Z) (v : Q) : UsageMap :=
  match m with
  | [] => [(k, v)]
  | (k', v') :: m' => if k' =? k then (k, v) :: m' else (k', v') :: set m' k v
  end.

(** [ingredientUsage.set(id, (ingredientUsage.get(id) || 0) + totalQuantity)] *)
Definition accumulate (m : UsageMap) (id : Z) (totalQuantity : Q) : UsageMap :=
  set m id (Js.or_zero (get m id) + totalQuantity)%Q.

(** [SELECT ingredient_id, quantity FROM <table> WHERE <owner column> = ?] *)
Definition consumptionOf (table : list Consumption) (owner : Z) : list Consumption :=
  filter (fun c => c_owner c =? owner) table.

(** [totalQuantity = parseFloat(ing.ingredient_quantity) * quantity] *)
Definition addPerUnit (quantity : Z) (rows : list Consumption) (m : UsageMap) : UsageMap :=
  fold_left
    (fun m ing => accumulate m (c_ingredient_id ing) (c_quantity ing * inject_Z quantity)%Q)
    rows m.

(** [totalQuantity = parseFloat(ing.ingredient_quantity)] *)
Definition addOnce (rows : list Consumption) (m : UsageMap) : UsageMap :=
  fold_left (fun m ing => accumulate m (c_ingredient_id ing) (c_quantity ing)) rows m.

(** [if (id) { ... }] on a nullable id column. *)
Definition whenId (v : option Z) (f : Z -> UsageMap -> UsageMap) (m : UsageMap) : UsageMap :=
  match v with
  | Some id => if Js.truthy v then f id m else m
  | None => m
  end.

Definition addItem (s : Store) (m : UsageMap) (item : OrderItem) : UsageMap :=
  let quantity := oi_quantity item in
  let m1 := whenId (oi_item_id item)
              (fun id => addPerUnit quantity (consumptionOf (menu_item_ingredients s) id)) m in
  let m2 := whenId (oi_supplement_id item)
              (fun id => addPerUnit quantity (consumptionOf (supplement_ingredients s) id)) m1 in
  whenId (oi_breakfast_id item)
    (fun id => addPerUnit quantity (consumptionOf (breakfast_ingredients s) id)) m2.

(** [SELECT item_id, breakfast_id, quantity, supplement_id FROM order_items
     WHERE order_id = ?] *)
Definition selectOrderItems (s : Store) (orderId : Z) : list OrderItem :=
  filter (fun oi => oi_order_id oi =? orderId) (order_items s).

(** [SELECT boo.breakfast_option_id FROM breakfast_order_options boo
     JOIN order_items oi ON boo.order_item_id = oi.id WHERE oi.order_id = ?] *)
Definition selectBreakfastOptions (s : Store) (orderId : Z) : list Z :=
  flat_map
    (fun boo =>
       map (fun _ => boo_breakfast_option_id boo)
         (filter (fun oi => (oi_id oi =? boo_order_item_id boo) && (oi_order_id oi =? orderId))
            (order_items s)))
    (breakfast_order_options s).

Definition addOption (s : Store) (m : UsageMap) (option : Z) : UsageMap :=
  addOnce (consumptionOf (breakfast_option_ingredients s) option) m.

Definition ingredientUsage (s : Store) (orderId : Z) : UsageMap :=
  let orderItems := selectOrderItems s orderId in
  let breakfastOptions := selectBreakfastOptions s orderId in
  fold_left (addOption s) breakfastOptions (fold_left (addItem s) orderItems []).

(** *** The requirement of one ingredient, as the specification words it *)

Definition sumQ (l : list Q) : Q := fold_right Qplus 0%Q l.

(** Quantity of ingredient [i] that one unit of [owner] consumes according
    to [table]; nothing when the owner column is null. *)
Definition perUnit (table : list Consumption) (owner : option Z) (i : Z) : Q :=
  match owner with
  | Some id =>
      if Js.truthy owner
      then sumQ (map c_quantity
                   (filter (fun c => c_ingredient_id c =? i) (consumptionOf table id)))
      else 0%Q
  | None => 0%Q
  end.

Definition lineRequirement (s : Store) (i : Z) (item : OrderItem) : Q :=
  ((perUnit (menu_item_ingredients s) (oi_item_id item) i
    + perUnit (supplement_ingredients s) (oi_supplement_id item) i
    + perUnit (breakfast_ingredients s) (oi_breakfast_id item) i)
   * inject_Z (oi_quantity item))%Q.

Definition optionRequirement (s : Store) (i : Z) (option : Z) : Q :=
  sumQ (map c_quantity
          (filter (fun c => c_ingredient_id c =? i)
             (consumptionOf (breakfast_option_ingredients s) option))).

Definition totalRequired (s : Store) (orderId : Z) (i : Z) : Q :=
  (sumQ (map (lineRequirement s i) (selectOrderItems s orderId))
   + sumQ (map (optionRequirement s i) (selectBreakfastOptions s orderId)))%Q.

(** Ingredients that some consumption row of the order mentions. *)
Definition mentionedBy (table : list Consumption) (owner : option Z) (i : Z) : Prop :=
  exists id c, owner = Some id /\ id <> 0 /\ In c (consumptionOf table id)
               /\ c_ingredient_id c = i.

Definition mentioned (s : Store) (orderId : Z) (i : Z) : Prop :=
  (exists item, In item (selectOrderItems s orderId) /\
     (mentionedBy (menu_item_ingredients s) (oi_item_id item) i
      \/ mentionedBy (supplement_ingredients s) (oi_supplement_id item) i
      \/ mentionedBy (breakfast_ingredients s) (oi_breakfast_id item) i))
  \/ (exists option c, In option (selectBreakfastOptions s orderId)
        /\ In c (consumptionOf (breakfast_option_ingredients s) option)
        /\ c_ingredient_id c = i).

(** The amount the map holds for [i], zero when [i] is not a key. *)
Definition required (m : UsageMap) (i : Z) : Q :=
  match get m i with
  | Some q => q
  | None => 0%Q
  end.

Definition keys (m : UsageMap) : list Z := map fst m.

(** *** The map as the replay of a list of contributions

    Every [set] call of the three loops adds one (ingredient, amount) pair;
    the pairs in program order determine the map. *)

Definition applyAll (l : list (Z * Q)) (m : UsageMap) : UsageMap :=
  fold_left (fun m kq => accumulate m (fst kq) (snd kq)) l m.

Definition perUnitContribs (quantity : Z) (rows : list Consumption) : list (Z * Q) :=
  map (fun c => (c_ingredient_id c, (c_quantity c * inject_Z quantity)%Q)) rows.

Definition onceContribs (rows : list Consumption) : list (Z * Q) :=
  map (fun c => (c_ingredient_id c, c_quantity c)) rows.

Definition whenContribs (v : option Z) (f : Z -> list (Z * Q)) : list (Z * Q) :=
  match v with
  | Some id => if Js.truthy v then f id else []
  | None => []
  end.

Definition itemContribs (s : Store) (item : OrderItem) : list (Z * Q) :=
  let quantity := oi_quantity item in
  whenContribs (oi_item_id item)
    (fun id => perUnitContribs quantity (consumptionOf (menu_item_ingredients s) id))
  ++ whenContribs (oi_supplement_id item)
       (fun id => perUnitContribs quantity (consumptionOf (supplement_ingredients s) id))
  ++ whenContribs (oi_breakfast_id item)
       (fun id => perUnitContribs quantity (consumptionOf (breakfast_ingredients s) id)).

Definition optionContribs (s : Store) (option : Z) : list (Z * Q) :=
  onceContribs (consumptionOf (breakfast_option_ingredients s) option).

Definition contributions (s : Store) (orderId : Z) : list (Z * Q) :=
  flat_map (itemContribs s) (selectOrderItems s orderId)
  ++ flat_map (optionContribs s) (selectBreakfastOptions s orderId).

Definition contribSum (i : Z) (l : list (Z * Q)) : Q :=
  sumQ (map snd (filter (fun kq => fst kq =? i) l)).

End StockLedger.

(** ** Responses *)

Inductive Error :=
| Forbidden                       (* 403 Admin or server access required *)
| InvalidOrderId                  (* 400 Valid order ID required *)
| InvalidApprovedValue            (* 400 Invalid approved value *)
| OrderNotFound                   (* 404 Order not found *)
| AlreadyApproved                 (* 400 Order already approved *)
| AlreadyDeducted                 (* 400 Stock already deducted for this order *)
| IngredientNotFound (ingredientId : Z)
| InsufficientStock (name : string) (required available : Q)
| AlreadyCancelled                (* 400 Order already cancelled *)
| AlreadyRestored                 (* 400 Stock already restored for this order *)
| IngredientNotFoundDuringRestoration (ingredientId : Z)
| InvalidDeviceId                 (* 400 Valid device ID is required *)
| RateLimitExceeded               (* 429 Order limit exceeded *)
| InvalidSessionId                (* 400 Valid session ID is required *)
| DuplicateOrder                  (* 429 Duplicate order detected *)
| EmptyCart                       (* 400 Items or breakfast items array is required *)
| InvalidOrderType
| TableIdRequired
| DeliveryAddressRequired
| InvalidItemId (item_id : Z)
| InvalidItemQuantity (item_id : Z)
| InvalidItemUnitPrice (item_id : Z)
| ItemUnavailable (item_id : Z)
| InvalidSupplement (item_id : Z) (provided found : list Z)
| PriceMismatch (item_id : Z) (expected got : Q)
| InvalidBreakfastId (breakfast_id : Z)
| InvalidBreakfastQuantity (breakfast_id : Z)
| InvalidBreakfastUnitPrice (breakfast_id : Z)
| BreakfastUnavailable (breakfast_id : Z)
| InvalidOption (breakfast_id : Z) (provided found : list Z)
(* "Must select one option from each required option group for breakfast
   ... Missing groups: [...]" *)
| MissingRequiredGroup (breakfast_id : Z) (missingGroupTitles : list string)
(* "Must select one option from each of the N required option groups for
   breakfast ... Required groups: [...]" *)
| RequiredGroupsUnselected (breakfast_id : Z) (count : nat) (requiredGroupTitles : list string)
| BreakfastPriceBelow (breakfast_id : Z) (expected got : Q)
| TableDoesNotExist
| TableIsReserved
| TotalPriceMismatch (expected got : Q)
| InternalError.                  (* 500 *)

Inductive Response :=
| Ok200 (message : string)
| Created201 (orderId : Z)
| Failed (e : Error).

Definition statusCode (r : Response) : Z :=
  match r with
  | Ok200 _ => 200
  | Created201 _ => 201
  | Failed Forbidden => 403
  | Failed OrderNotFound => 404
  | Failed RateLimitExceeded | Failed DuplicateOrder => 429
  | Failed InternalError => 500
  | Failed _ => 400
  end.

Record RequestUser := { ru_id : Z; ru_role : string }.

(** ** Order lifecycle: [PUT /orders/:id], approve, cancel *)

Module Orders.

Import StockLedger.

Definition isStaffRole (role : string) : bool :=
  String.eqb role "admin" || String.eqb role "server".

Definition checkAdminOrServer (s : Store) (userId : Z) : bool :=
  if userId =? 0 then false
  else
    match filter (fun u => usr_id u =? userId) (users s) with
    | [] => false
    | row :: _ => isStaffRole (usr_role row)
    end.

(** [!req.user || !await checkAdminOrServer(req.user.id)] *)
Definition unauthorised (s : Store) (user : option RequestUser) : bool :=
  match user with
  | None => true
  | Some u => negb (checkAdminOrServer s (ru_id u))
  end.

Definition selectOrder (s : Store) (orderId : Z) : list Order :=
  filter (fun o => o_id o =? orderId) (orders s).

Definition setApproval (approved : bool) (status : OrderStatus) (o : Order) : Order :=
  {| o_id := o_id o; o_total_price := o_total_price o; o_order_type := o_order_type o;
     o_delivery_address := o_delivery_address o; o_promotion_id := o_promotion_id o;
     o_table_id := o_table_id o; o_session_id := o_session_id o; o_notes := o_notes o;
     o_status := status; o_approved := approved |}.

(** [UPDATE orders SET approved = ?, status = ? WHERE id = ?] *)
Definition updateOrder (orderId : Z) (approved : bool) (status : OrderStatus) (s : Store) : Store :=
  with_orders s
    (map (fun o => if o_id o =? orderId then setApproval approved status o else o) (orders s)).

(** [PUT /orders/:id] with body [{approved}]; [approved] is the JSON number. *)
Definition putOrder (s : Store) (user : option RequestUser) (orderId : Z) (approved : Z)
  : Response * Store :=
  if unauthorised s user then (Failed Forbidden, s)
  else if orderId <=? 0 then (Failed InvalidOrderId, s)
  else if negb (approved =? 1) && negb (approved =? 0) then (Failed InvalidApprovedValue, s)
  else
    match selectOrder s orderId with
    | [] => (Failed OrderNotFound, s)
    | row :: _ =>
        (Ok200 "Order status updated",
         updateOrder orderId (negb (approved =? 0))
           (if negb (approved =? 0) then preparing else o_status row) s)
    end.

Definition hasDeduction (s : Store) (orderId : Z) : bool :=
  existsb (fun t => Js.opt_eqb (st_order_id t) orderId
                    && type_eqb (st_transaction_type t) deduction)
    (stock_transactions s).

Definition restorationReason : string := "Order cancellation stock restoration".

Definition hasRestoration (s : Store) (orderId : Z) : bool :=
  existsb (fun t => Js.opt_eqb (st_order_id t) orderId
                    && String.eqb (st_reason t) restorationReason)
    (stock_transactions s).

(** [SELECT name, quantity_in_stock FROM ingredients WHERE id = ? FOR UPDATE] *)
Definition selectIngredient (s : Store) (ingredientId : Z) : list Ingredient :=
  filter (fun g => ing_id g =? ingredientId) (ingredients s).

(** [UPDATE ingredients SET quantity_in_stock = ? WHERE id = ?] *)
Definition updateStock (ingredientId : Z) (newQuantity : Q) (s : Store) : Store :=
  with_ingredients s
    (map (fun g => if ing_id g =? ingredientId
                   then {| ing_id := ing_id g; ing_name := ing_name g;
                           quantity_in_stock := newQuantity |}
                   else g)
       (ingredients s)).

Definition insertTransaction (t : StockTransaction) (s : Store) : Store :=
  with_stock_transactions s (stock_transactions s ++ [t]).

Definition deductionRow (orderId ingredientId : Z) (requiredQuantity : Q) : StockTransaction :=
  {| st_ingredient_id := ingredientId; st_quantity := (- requiredQuantity)%Q;
     st_transaction_type := deduction; st_order_id := Some orderId;
     st_reason := "Order approval" |}.

Definition restorationRow (orderId ingredientId : Z) (qtyToRestore : Q) : StockTransaction :=
  {| st_ingredient_id := ingredientId; st_quantity := qtyToRestore;
     st_transaction_type := addition; st_order_id := Some orderId;
     st_reason := restorationReason |}.

(** The check-and-deduct loop over the requirement map, in map order; the
    same loop closes auto-approval in [POST /orders].  An error leaves the
    loop at once; the caller rolls the transaction back. *)
Fixpoint deductStock (orderId : Z) (usage : UsageMap) (c : Connection) : Error + Connection :=
  match usage with
  | [] => inr c
  | (ingredientId, requiredQuantity) :: rest =>
      match selectIngredient (work c) ingredientId with
      | [] => inl (IngredientNotFound ingredientId)
      | stock :: _ =>
          let availableStock := quantity_in_stock stock in
          if Js.lt availableStock requiredQuantity
          then inl (InsufficientStock (ing_name stock) requiredQuantity availableStock)
          else
            let newQuantity := (availableStock - requiredQuantity)%Q in
            let c1 := on_work c (updateStock ingredientId newQuantity) in
            let c2 := on_work c1 (insertTransaction (deductionRow orderId ingredientId requiredQuantity)) in
            deductStock orderId rest c2
      end
  end.

Fixpoint restoreStockLoop (orderId : Z) (usage : UsageMap) (c : Connection) : Error + Connection :=
  match usage with
  | [] => inr c
  | (ingredientId, qtyToRestore) :: rest =>
      match selectIngredient (work c) ingredientId with
      | [] => inl (IngredientNotFoundDuringRestoration ingredientId)
      | row :: _ =>
          let currentQty := quantity_in_stock row in
          let newQty := (currentQty + qtyToRestore)%Q in
          let c1 := on_work c (updateStock ingredientId newQty) in
          let c2 := on_work c1 (insertTransaction (restorationRow orderId ingredientId qtyToRestore)) in
          restoreStockLoop orderId rest c2
      end
  end.

(** [POST /orders/:id/approve] *)
Definition approve (s : Store) (user : option RequestUser) (orderId : Z) : Response * Store :=
  if unauthorised s user then (Failed Forbidden, s)
  else if orderId <=? 0 then (Failed InvalidOrderId, s)
  else
    let c := beginTransaction s in
    match selectOrder (work c) orderId with
    | [] => (Failed OrderNotFound, rollback c)
    | order :: _ =>
        if o_approved order && negb (status_eqb (o_status order) cancelled)
        then (Failed AlreadyApproved, rollback c)
        else if hasDeduction (work c) orderId
        then (Failed AlreadyDeducted, rollback c)
        else
          let usage := ingredientUsage (work c) orderId in
          match deductStock orderId usage c with
          | inl e => (Failed e, rollback c)
          | inr c1 =>
              let c2 := on_work c1 (updateOrder orderId true preparing) in
              (Ok200 "Order approved", commit c2)
          end
    end.

(** [POST /orders/:id/cancel] with body [{restoreStock}] *)
Definition cancel (s : Store) (user : option RequestUser) (orderId : Z) (restoreStock : bool)
  : Response * Store :=
  if unauthorised s user then (Failed Forbidden, s)
  else if orderId <=? 0 then (Failed InvalidOrderId, s)
  else
    let c := beginTransaction s in
    match selectOrder (work c) orderId with
    | [] => (Failed OrderNotFound, rollback c)
    | order :: _ =>
        if status_eqb (o_status order) cancelled
        then (Failed AlreadyCancelled, rollback c)
        else
          let restored :=
            if restoreStock && o_approved order then
              if hasRestoration (work c) orderId then inl AlreadyRestored
              else if negb (hasDeduction (work c) orderId) then inr c
              else restoreStockLoop orderId (ingredientUsage (work c) orderId) c
            else inr c in
          match restored with
          | inl e => (Failed e, rollback c)
          | inr c1 =>
              let c2 := on_work c1 (updateOrder orderId false cancelled) in
              (Ok200 "Order cancelled", commit c2)
          end
    end.

(** Stock on hand of an ingredient id, as the handlers read it. *)
Definition stockOf (s : Store) (ingredientId : Z) : Q :=
  match selectIngredient s ingredientId with
  | [] => 0%Q
  | row :: _ => quantity_in_stock row
  end.

Definition approveAll (user : option RequestUser) (s : Store) (orderIds : list Z) : Store :=
  fold_left (fun s orderId => snd (approve s user orderId)) orderIds s.

Definition stockNonNegative (s : Store) : Prop :=
  Forall (fun g => (0 <= quantity_in_stock g)%Q) (ingredients s).

End Orders.

(** ** Price verification of a cart ([POST /orders], before the transaction) *)

Record CartItem := {
  ci_item_id : Z;
  ci_quantity : Z;
  ci_unit_price : Q;
  ci_supplement_ids : list Z;          (* [] when absent or not an array *)
  ci_supplement_id : option Z }.

Record BreakfastCartItem := {
  bi_breakfast_id : Z;
  bi_quantity : Z;
  bi_unit_price : Q;
  bi_option_ids : option (list Z) }.   (* None when absent or not an array *)

(** An entry of [breakfastMap]. *)
Record BreakfastEntry := {
  be_breakfast_id : Z;
  be_quantity : Z;
  be_unit_price : Q;
  be_option_ids : list Z }.

Module Pricing.

(** [parseFloat(row.additional_price || 0)] *)
Definition priceOrZero (v : option Q) : Q :=
  match v with
  | Some q => q
  | None => 0%Q
  end.

(** The requested supplement ids of a cart line: the [supplement_ids] array
    followed by the legacy [supplement_id] when it is set and not listed. *)
Definition supplementIdsOf (item : CartItem) : list Z :=
  let supplementIds := ci_supplement_ids item in
  match ci_supplement_id item with
  | Some sid =>
      if Js.truthy (Some sid) && negb (Js.mem sid supplementIds)
      then supplementIds ++ [sid]
      else supplementIds
  | None => supplementIds
  end.

Definition selectMenuItem (s : Store) (item_id : Z) : list MenuItem :=
  filter (fun m => mi_id m =? item_id) (menu_items s).

(** [sale_price !== null ? sale_price : regular_price] *)
Definition basePrice (m : MenuItem) : Q :=
  match mi_sale_price m with
  | Some sale => sale
  | None => mi_regular_price m
  end.

(** [SELECT supplement_id, additional_price FROM menu_item_supplements
     WHERE menu_item_id = ? AND supplement_id IN (?)] *)
Definition selectSupplements (s : Store) (item_id : Z) (supplementIds : list Z)
  : list MenuItemSupplement :=
  filter (fun r => (mis_menu_item_id r =? item_id) && Js.mem (mis_supplement_id r) supplementIds)
    (menu_item_supplements s).

Definition supplementPrice (supplements : list MenuItemSupplement) : Q :=
  fold_left (fun sum supp => (sum + priceOrZero (mis_additional_price supp))%Q) supplements 0%Q.

(** One round of the loop over [items]: the new running total, or the
    rejection. *)
Definition verifyItem (s : Store) (calculatedTotal : Q) (item : CartItem) : Error + Q :=
  let item_id := ci_item_id item in
  let quantity := ci_quantity item in
  let unit_price := ci_unit_price item in
  let supplementIds := supplementIdsOf item in
  if item_id <=? 0 then inl (InvalidItemId item_id)
  else if quantity <=? 0 then inl (InvalidItemQuantity item_id)
  else if Qle_bool unit_price 0 then inl (InvalidItemUnitPrice item_id)
  else
    match selectMenuItem s item_id with
    | [] => inl (ItemUnavailable item_id)
    | menuItem :: _ =>
        if negb (mi_availability menuItem) then inl (ItemUnavailable item_id)
        else
          let expectedPrice := basePrice menuItem in
          let checked :=
            match supplementIds with
            | [] => inr expectedPrice
            | _ :: _ =>
                let supplements := selectSupplements s item_id supplementIds in
                if negb (List.length supplements =? List.length supplementIds)%nat
                then inl (InvalidSupplement item_id supplementIds
                            (map mis_supplement_id supplements))
                else inr (expectedPrice + supplementPrice supplements)%Q
            end in
          match checked with
          | inl e => inl e
          | inr itemTotal =>
              if Js.differs unit_price itemTotal
              then inl (PriceMismatch item_id itemTotal unit_price)
              else inr (calculatedTotal + itemTotal * inject_Z quantity)%Q
          end
    end.

Fixpoint verifyItems (s : Store) (items : list CartItem) (calculatedTotal : Q) : Error + Q :=
  match items with
  | [] => inr calculatedTotal
  | item :: rest =>
      match verifyItem s calculatedTotal item with
      | inl e => inl e
      | inr total => verifyItems s rest total
      end
  end.

(** *** Breakfast lines *)

Definition selectBreakfast (s : Store) (breakfast_id : Z) : list Breakfast :=
  filter (fun b => b_id b =? breakfast_id) (breakfasts s).

Definition hasOptions (s : Store) (g : OptionGroup) : bool :=
  existsb (fun bo => bo_group_id bo =? bog_id g) (breakfast_options s).

Definition isMapped (s : Store) (breakfast_id : Z) (g : OptionGroup) : bool :=
  existsb (fun m => (bogm_breakfast_id m =? breakfast_id)
                    && (bogm_option_group_id m =? bog_id g))
    (breakfast_option_group_mappings s).

(** The columns [id, is_required, title] that the group query projects. *)
Definition GroupRow := (Z * bool * string)%type.

Definition groupRow (g : OptionGroup) : GroupRow :=
  (bog_id g, bog_is_required g, bog_title g).

Definition g_id (g : GroupRow) : Z := fst (fst g).
Definition g_is_required (g : GroupRow) : bool := snd (fst g).
Definition g_title (g : GroupRow) : string := snd g.

Definition GroupRow_eq_dec (a b : GroupRow) : {a = b} + {a <> b}.
Proof.
  repeat decide equality.
Defined.

(** The [UNION] of the breakfast's own groups and the reusable groups mapped
    to it, each kept only when it has at least one option; [DISTINCT] and
    [UNION] drop repeated rows. *)
Definition selectGroups (s : Store) (breakfast_id : Z) : list GroupRow :=
  let own :=
    filter (fun g => Js.opt_eqb (bog_breakfast_id g) breakfast_id && hasOptions s g)
      (breakfast_option_groups s) in
  let reusable :=
    filter (fun g => match bog_breakfast_id g with
                     | None => isMapped s breakfast_id g && hasOptions s g
                     | Some _ => false
                     end)
      (breakfast_option_groups s) in
  nodup GroupRow_eq_dec (map groupRow own ++ map groupRow reusable).

(** [SELECT bo.id, bo.group_id, bo.additional_price FROM breakfast_options bo
     JOIN breakfast_option_groups bog ON bo.group_id = bog.id
     WHERE (bo.breakfast_id = ? OR bo.breakfast_id IS NULL) AND bo.id IN (?)] *)
Definition selectOptions (s : Store) (breakfast_id : Z) (option_ids : list Z)
  : list BreakfastOption :=
  flat_map
    (fun bo =>
       map (fun _ => bo)
         (filter (fun g => bog_id g =? bo_group_id bo) (breakfast_option_groups s)))
    (filter (fun bo => (match bo_breakfast_id bo with
                        | Some b => b =? breakfast_id
                        | None => true
                        end)
                       && Js.mem (bo_id bo) option_ids)
       (breakfast_options s)).

Definition optionPrice (options : list BreakfastOption) : Q :=
  fold_left (fun sum opt => (sum + priceOrZero (bo_additional_price opt))%Q) options 0%Q.

Definition string_of_Z (z : Z) : string :=
  DecimalString.NilZero.string_of_int (Z.to_int z).

(** [g.title || `Group ${g.id}`] *)
Definition titleOf (g : GroupRow) : string :=
  if String.eqb (g_title g) "" then ("Group " ++ string_of_Z (g_id g))%string else g_title g.

(** The option-group obligation of one breakfast line: the price the
    selected options add, or the rejection. *)
Definition checkOptionGroups (s : Store) (breakfast_id : Z) (option_ids : option (list Z))
  : Error + Q :=
  let groups := selectGroups s breakfast_id in
  match option_ids with
  | Some (id0 :: ids) =>
      let option_ids := id0 :: ids in
      let options := selectOptions s breakfast_id option_ids in
      if negb (List.length options =? List.length option_ids)%nat
      then inl (InvalidOption breakfast_id option_ids (map bo_id options))
      else
        let selectedGroups := map bo_group_id options in
        let requiredGroups := map g_id (filter g_is_required groups) in
        let missingRequiredGroups :=
          filter (fun g => negb (Js.mem g selectedGroups)) requiredGroups in
        match missingRequiredGroups with
        | _ :: _ =>
            let missingGroupTitles :=
              map titleOf (filter (fun g => Js.mem (g_id g) missingRequiredGroups) groups) in
            inl (MissingRequiredGroup breakfast_id missingGroupTitles)
        | [] => inr (optionPrice options)
        end
  | _ =>
      match groups with
      | _ :: _ =>
          let requiredGroups := filter g_is_required groups in
          match requiredGroups with
          | _ :: _ =>
              inl (RequiredGroupsUnselected breakfast_id (List.length requiredGroups)
                     (map titleOf requiredGroups))
          | [] => inr 0%Q
          end
      | [] => inr 0%Q
      end
  end.

(** *** [breakfastMap]: a JavaScript [Map] keyed by [breakfast_id] *)

Definition mapHas (m : list BreakfastEntry) (breakfast_id : Z) : bool :=
  existsb (fun e => be_breakfast_id e =? breakfast_id) m.

(** [breakfastMap.get(id)] followed by in-place mutation of the entry. *)
Fixpoint mapModify (m : list BreakfastEntry) (breakfast_id : Z)
    (f : BreakfastEntry -> BreakfastEntry) : list BreakfastEntry :=
  match m with
  | [] => []
  | e :: m' =>
      if be_breakfast_id e =? breakfast_id then f e :: m'
      else e :: mapModify m' breakfast_id f
  end.

Definition mergeLine (quantity : Z) (option_ids : option (list Z)) (e : BreakfastEntry)
  : BreakfastEntry :=
  {| be_breakfast_id := be_breakfast_id e;
     be_quantity := be_quantity e + quantity;
     be_unit_price := be_unit_price e;
     be_option_ids :=
       match option_ids with
       | Some ids =>
           be_option_ids e
             ++ filter (fun id => negb (Js.mem id (be_option_ids e))) ids
       | None => be_option_ids e
       end |}.

Definition coalesce (breakfastMap : list BreakfastEntry) (item : BreakfastCartItem)
    (expectedPrice : Q) : list BreakfastEntry :=
  let breakfast_id := bi_breakfast_id item in
  let m :=
    if negb (mapHas breakfastMap breakfast_id)
    then breakfastMap
           ++ [{| be_breakfast_id := breakfast_id; be_quantity := 0;
                  be_unit_price := expectedPrice; be_option_ids := [] |}]
    else breakfastMap in
  mapModify m breakfast_id (mergeLine (bi_quantity item) (bi_option_ids item)).

(** One round of the loop over [breakfastItems]. *)
Definition verifyBreakfast (s : Store) (acc : list BreakfastEntry * Q)
    (item : BreakfastCartItem) : Error + (list BreakfastEntry * Q) :=
  let '(breakfastMap, calculatedTotal) := acc in
  let breakfast_id := bi_breakfast_id item in
  let quantity := bi_quantity item in
  let unit_price := bi_unit_price item in
  if breakfast_id <=? 0 then inl (InvalidBreakfastId breakfast_id)
  else if quantity <=? 0 then inl (InvalidBreakfastQuantity breakfast_id)
  else if Qle_bool unit_price 0 then inl (InvalidBreakfastUnitPrice breakfast_id)
  else
    match selectBreakfast s breakfast_id with
    | [] => inl (BreakfastUnavailable breakfast_id)
    | breakfast :: _ =>
        if negb (b_availability breakfast) then inl (BreakfastUnavailable breakfast_id)
        else
          match checkOptionGroups s breakfast_id (bi_option_ids item) with
          | inl e => inl e
          | inr optionPrice =>
              let expectedPrice := (b_price breakfast + optionPrice)%Q in
              let providedPrice := unit_price in
              if Qle_bool providedPrice 0 then inl (InvalidBreakfastUnitPrice breakfast_id)
              else if Js.lt (providedPrice + (1 # 100)) expectedPrice
              then inl (BreakfastPriceBelow breakfast_id expectedPrice unit_price)
              else
                let expectedPrice :=
                  if Js.lt expectedPrice providedPrice then providedPrice else expectedPrice in
                inr (coalesce breakfastMap item expectedPrice,
                     (calculatedTotal + expectedPrice * inject_Z quantity)%Q)
          end
    end.

Fixpoint verifyBreakfasts (s : Store) (items : list BreakfastCartItem)
    (acc : list BreakfastEntry * Q) : Error + (list BreakfastEntry * Q) :=
  match items with
  | [] => inr acc
  | item :: rest =>
      match verifyBreakfast s acc item with
      | inl e => inl e
      | inr acc' => verifyBreakfasts s rest acc'
      end
  end.

(** *** Promotion overlay *)

(** [SELECT discount_percentage, item_id FROM promotions WHERE id = ?
     AND active = TRUE AND NOW() BETWEEN start_date AND end_date] *)
Definition selectActivePromotion (s : Store) (now : Z) (promotion_id : Z) : list Promotion :=
  filter (fun p => (p_id p =? promotion_id) && p_active p
                   && (p_start_date p <=? now) && (now <=? p_end_date p))
    (promotions s).

(** [!promo.item_id || item.item_id === promo.item_id] *)
Definition promotionApplies (promo : Promotion) (item : CartItem) : bool :=
  negb (Js.truthy (p_item_id promo)) || Js.opt_eqb (p_item_id promo) (ci_item_id item).

Definition promoItem (s : Store) (promo : Promotion) (promoCalculatedPrice : Q)
    (item : CartItem) : Error + Q :=
  let discount := (p_discount_percentage promo / 100)%Q in
  match selectMenuItem s (ci_item_id item) with
  | [] => inl InternalError            (* [menuItem[0]] is undefined: TypeError *)
  | menuItem :: _ =>
      let itemPrice := (basePrice menuItem * inject_Z (ci_quantity item))%Q in
      let promoSupplementIds := supplementIdsOf item in
      let itemPrice :=
        match promoSupplementIds with
        | [] => itemPrice
        | _ :: _ =>
            let supplements := selectSupplements s (ci_item_id item) promoSupplementIds in
            let suppPrice := (supplementPrice supplements * inject_Z (ci_quantity item))%Q in
            (itemPrice + suppPrice)%Q
        end in
      inr (promoCalculatedPrice
           + (if promotionApplies promo item then itemPrice * (1 - discount) else itemPrice))%Q
  end.

(** [SELECT additional_price FROM breakfast_options WHERE breakfast_id = ?
     AND id IN (?)] *)
Definition selectOwnOptions (s : Store) (breakfast_id : Z) (option_ids : list Z)
  : list BreakfastOption :=
  filter (fun bo => Js.opt_eqb (bo_breakfast_id bo) breakfast_id && Js.mem (bo_id bo) option_ids)
    (breakfast_options s).

Definition promoBreakfast (s : Store) (promoCalculatedPrice : Q) (item : BreakfastCartItem)
  : Error + Q :=
  match selectBreakfast s (bi_breakfast_id item) with
  | [] => inl InternalError            (* [breakfast[0]] is undefined: TypeError *)
  | breakfast :: _ =>
      let itemPrice := (b_price breakfast * inject_Z (bi_quantity item))%Q in
      match bi_option_ids item with
      | Some [] => inl InternalError   (* [IN ()] is rejected by the SQL parser *)
      | Some option_ids =>
          let options := selectOwnOptions s (bi_breakfast_id item) option_ids in
          let optionPrice := (optionPrice options * inject_Z (bi_quantity item))%Q in
          inr (promoCalculatedPrice + (itemPrice + optionPrice))%Q
      | None => inr (promoCalculatedPrice + itemPrice)%Q
      end
  end.

Fixpoint promoItems (s : Store) (promo : Promotion) (items : list CartItem) (acc : Q)
  : Error + Q :=
  match items with
  | [] => inr acc
  | item :: rest =>
      match promoItem s promo acc item with
      | inl e => inl e
      | inr acc' => promoItems s promo rest acc'
      end
  end.

Fixpoint promoBreakfasts (s : Store) (items : list BreakfastCartItem) (acc : Q) : Error + Q :=
  match items with
  | [] => inr acc
  | item :: rest =>
      match promoBreakfast s acc item with
      | inl e => inl e
      | inr acc' => promoBreakfasts s rest acc'
      end
  end.

(** The total after the promotion stage: the recomputed total when
    [promotion_id] names a promotion active at [now], else the total the
    line loops produced. *)
Definition applyPromotion (s : Store) (now : Z) (promotion_id : option Z)
    (items : list CartItem) (breakfastItems : list BreakfastCartItem) (calculatedTotal : Q)
  : Error + Q :=
  match promotion_id with
  | Some pid =>
      if Js.truthy (Some pid) then
        match selectActivePromotion s now pid with
        | promo :: _ =>
            match promoItems s promo items 0%Q with
            | inl e => inl e
            | inr afterItems => promoBreakfasts s breakfastItems afterItems
            end
        | [] => inr calculatedTotal
        end
      else inr calculatedTotal
  | None => inr calculatedTotal
  end.

(** *** Reference quantities for the statements about pricing *)

(** Primary keys: [(menu_item_id, supplement_id)] of
    [menu_item_supplements], [id] of [breakfast_option_groups] and of
    [breakfast_options]. *)
Definition supplementKeysUnique (s : Store) : Prop :=
  NoDup (map (fun r => (mis_menu_item_id r, mis_supplement_id r)) (menu_item_supplements s)).

Definition groupKeysUnique (s : Store) : Prop :=
  NoDup (map bog_id (breakfast_option_groups s)).

Definition optionKeysUnique (s : Store) : Prop :=
  NoDup (map bo_id (breakfast_options s)).

(** The supplement rows of one menu item. *)
Definition supplementsOfItem (s : Store) (item_id : Z) : list MenuItemSupplement :=
  filter (fun r => mis_menu_item_id r =? item_id) (menu_item_supplements s).

(** The additional price of supplement [sid] on menu item [item_id]. *)
Definition additionalPrice (s : Store) (item_id sid : Z) : Q :=
  match filter (fun r => (mis_menu_item_id r =? item_id) && (mis_supplement_id r =? sid))
          (menu_item_supplements s) with
  | r :: _ => priceOrZero (mis_additional_price r)
  | [] => 0%Q
  end.

Definition requestedSupplementsPrice (s : Store) (item : CartItem) : Q :=
  StockLedger.sumQ (map (additionalPrice s (ci_item_id item)) (supplementIdsOf item)).

(** The required groups that no selected option touches. *)
Definition untouchedRequired (groups : list GroupRow) (options : list BreakfastOption)
  : list GroupRow :=
  filter (fun g => g_is_required g && negb (Js.mem (g_id g) (map bo_group_id options))) groups.

(** The cart lines of one breakfast, their summed quantity and the option
    ids they request. *)
Definition linesOf (breakfast_id : Z) (lines : list BreakfastCartItem) : list BreakfastCartItem :=
  filter (fun l => bi_breakfast_id l =? breakfast_id) lines.

Definition totalQuantity (breakfast_id : Z) (lines : list BreakfastCartItem) : Z :=
  fold_right Z.add 0 (map bi_quantity (linesOf breakfast_id lines)).

Definition optionIdsOf (l : BreakfastCartItem) : list Z :=
  match bi_option_ids l with
  | Some ids => ids
  | None => []
  end.

Definition requestedOptions (breakfast_id : Z) (lines : list BreakfastCartItem) : list Z :=
  flat_map optionIdsOf (linesOf breakfast_id lines).

(** What [breakfastMap] holds once the cart lines [lines] have been merged:
    one entry per breakfast id of the lines, carrying the summed quantity
    and, without repetition, the option ids the lines request. *)
Definition entryOf (lines : list BreakfastCartItem) (e : BreakfastEntry) : Prop :=
  be_quantity e = totalQuantity (be_breakfast_id e) lines
  /\ NoDup (be_option_ids e)
  /\ (forall o, In o (be_option_ids e) <-> In o (requestedOptions (be_breakfast_id e) lines)).

Definition coalesced (lines : list BreakfastCartItem) (m : list BreakfastEntry) : Prop :=
  NoDup (map be_breakfast_id m)
  /\ (forall b, In b (map be_breakfast_id m) <-> In b (map bi_breakfast_id lines))
  /\ Forall (entryOf lines) m.






End Pricing.

(** ** Order admission: [POST /orders] *)

(** The request as the handler sees it after destructuring.  The SHA-256
    digests ([deviceFingerprint], [ipFingerprint], [orderHash]) and the
    resolved session id are inputs; [now] is the clock in seconds. *)
Record OrderRequest := {
  items : list CartItem;
  breakfastItems : list BreakfastCartItem;
  total_price : Q;
  order_type : option OrderType;       (* None: missing or not one of the four *)
  delivery_address : option string;
  promotion_id : option Z;
  table_id : option Z;
  notes : option string;
  sessionId : option string;
  user : option RequestUser;
  source : string;
  deviceIdHeader : option string;
  deviceFingerprint : string;
  ipFingerprint : string;
  orderHash : string;
  now : Z }.

(** The process: the store and the in-memory [recentRequests] map. *)
Record Server := {
  store : Store;
  recentRequests : list string }.

Module Admission.

Import StockLedger Orders Pricing.

Definition isStaffRequest (r : OrderRequest) : bool :=
  match user r with
  | Some u => isStaffRole (ru_role u) && String.eqb (source r) "staff-console"
  | None => false
  end.

(** [req.headers['x-device-id'] ||
     (isStaffRequest ? `staff-device-${req.user.id}` : 'unknown')] *)
Definition deviceIdOf (r : OrderRequest) : string :=
  let fallback :=
    match user r with
    | Some u => if isStaffRequest r
                then ("staff-device-" ++ string_of_Z (ru_id u))%string
                else "unknown"
    | None => "unknown"
    end in
  match deviceIdHeader r with
  | Some h => if String.eqb h "" then fallback else h
  | None => fallback
  end.

Definition isHex (c : ascii) : bool :=
  let n := nat_of_ascii c in
  ((48 <=? n) && (n <=? 57) || (97 <=? n) && (n <=? 102) || (65 <=? n) && (n <=? 70))%nat.

Fixpoint uuidShape (i : nat) (cs : list ascii) : bool :=
  match cs with
  | [] => (i =? 36)%nat
  | c :: cs' =>
      (if (i =? 8)%nat || (i =? 13)%nat || (i =? 18)%nat || (i =? 23)%nat
       then Ascii.eqb c "-"%char else isHex c)
      && uuidShape (S i) cs'
  end.

(** [/^[0-9a-f]{8}-[0-9a-f]{4}-[0-9a-f]{4}-[0-9a-f]{4}-[0-9a-f]{12}$/i] *)
Definition uuidRegex (deviceId : string) : bool :=
  uuidShape 0 (list_ascii_of_string deviceId).

Definition isSpace (c : ascii) : bool :=
  let n := nat_of_ascii c in
  ((n =? 32) || (9 <=? n) && (n <=? 13))%nat.

(** The white space and line terminators [String.prototype.trim] strips
    beyond ASCII, in UTF-8: U+00A0; U+1680; U+2000 to U+200A, U+2028,
    U+2029, U+202F; U+205F; U+3000; U+FEFF. *)
Definition isSpace2 (c1 c2 : ascii) : bool :=
  ((nat_of_ascii c1 =? 194) && (nat_of_ascii c2 =? 160))%nat.

Definition isSpace3 (c1 c2 c3 : ascii) : bool :=
  let n1 := nat_of_ascii c1 in
  let n2 := nat_of_ascii c2 in
  let n3 := nat_of_ascii c3 in
  ((n1 =? 225) && (n2 =? 154) && (n3 =? 128)
   || (n1 =? 226) && (n2 =? 128)
      && ((128 <=? n3) && (n3 <=? 138) || (n3 =? 168) || (n3 =? 169) || (n3 =? 175))
   || (n1 =? 226) && (n2 =? 129) && (n3 =? 159)
   || (n1 =? 227) && (n2 =? 128) && (n3 =? 128)
   || (n1 =? 239) && (n2 =? 187) && (n3 =? 191))%nat.

(** [text.trim() === ''] on the bytes of [text]. *)
Fixpoint onlySpace (cs : list ascii) : bool :=
  match cs with
  | [] => true
  | c1 :: rest1 =>
      if isSpace c1 then onlySpace rest1
      else
        match rest1 with
        | [] => false
        | c2 :: rest2 =>
            if isSpace2 c1 c2 then onlySpace rest2
            else
              match rest2 with
              | [] => false
              | c3 :: rest3 => if isSpace3 c1 c2 c3 then onlySpace rest3 else false
              end
        end
  end.

(** [!text || !text.trim()] on a possibly-missing string. *)
Definition blank (text : option string) : bool :=
  match text with
  | Some t => onlySpace (list_ascii_of_string t)
  | None => true
  end.

(** [Array.from(new Set([deviceFingerprint, ipFingerprint]))] *)
Definition fingerprintsOf (r : OrderRequest) : list string :=
  if String.eqb (deviceFingerprint r) (ipFingerprint r)
  then [deviceFingerprint r]
  else [deviceFingerprint r; ipFingerprint r].

(** [DELETE FROM device_order_limits WHERE order_timestamp < NOW() - INTERVAL 1 HOUR] *)
Definition purgeLimits (now : Z) (s : Store) : Store :=
  with_device_order_limits s
    (filter (fun l => negb (dol_order_timestamp l <? now - 3600)) (device_order_limits s)).

Definition orderCount (r : OrderRequest) (s : Store) : nat :=
  List.length
    (filter (fun l => existsb (String.eqb (dol_device_fingerprint l)) (fingerprintsOf r)
                      && (now r - 3600 <=? dol_order_timestamp l))
       (device_order_limits s)).

(** [UPDATE tables SET status = 'occupied' WHERE id = ?] *)
Definition markOccupied (tableId : Z) (rows : list DiningTable) : list DiningTable :=
  map (fun t => if t_id t =? tableId
                then {| t_id := t_id t; t_table_number := t_table_number t;
                        t_status := occupied |}
                else t)
    rows.

(** The table stage.  It runs on the pool ([db.query]), outside any
    transaction: its [UPDATE] is in the store as soon as it is issued.
    Result: the store after the stage and [effectiveTableId], or the
    rejection. *)
Definition resolveTable (s : Store) (r : OrderRequest) : Error + (Store * option Z) :=
  match order_type r, table_id r with
  | Some local, Some tid =>
      if Js.truthy (Some tid) then
        match filter (fun t => (t_id t =? tid) || (t_table_number t =? tid)) (tables s) with
        | [] => inl TableDoesNotExist
        | tableRecord :: _ =>
            match t_status tableRecord with
            | reserved => inl TableIsReserved
            | occupied => inr (s, Some (t_id tableRecord))
            | available =>
                inr (with_tables s (markOccupied (t_id tableRecord) (tables s)),
                     Some (t_id tableRecord))
            end
        end
      else inr (s, table_id r)
  | _, _ => inr (s, table_id r)
  end.

(** A fresh AUTO_INCREMENT key. *)
Definition nextId (ids : list Z) : Z := 1 + fold_right Z.max 0 ids.

Definition nonEmpty (v : option string) : option string :=
  match v with
  | Some t => if String.eqb t "" then None else Some t
  | None => None
  end.

Definition nonZero (v : option Z) : option Z :=
  if Js.truthy v then v else None.

Definition insertOrder (r : OrderRequest) (orderId : Z) (calculatedTotal : Q)
    (effectiveTableId : option Z) (order_type : OrderType) (session : string) (s : Store)
  : Store :=
  with_orders s
    (orders s ++
     [{| o_id := orderId; o_total_price := calculatedTotal; o_order_type := order_type;
         o_delivery_address := nonEmpty (delivery_address r);
         o_promotion_id := nonZero (promotion_id r);
         o_table_id := match order_type with local => effectiveTableId | _ => None end;
         o_session_id := session; o_notes := nonEmpty (notes r);
         o_status := if isStaffRequest r then preparing else pending;
         o_approved := false |}]).

Definition insertLimits (r : OrderRequest) (s : Store) : Store :=
  if isStaffRequest r then s
  else
    with_device_order_limits s
      (device_order_limits s ++
       map (fun fp => {| dol_device_fingerprint := fp; dol_order_timestamp := now r;
                         dol_device_id := deviceIdOf r |})
         (fingerprintsOf r)).

Definition insertItem (orderId : Z) (s : Store) (item : CartItem) : Store :=
  let primarySupplementId := hd_error (supplementIdsOf item) in
  with_order_items s
    (order_items s ++
     [{| oi_id := nextId (map oi_id (order_items s)); oi_order_id := orderId;
         oi_item_id := Some (ci_item_id item); oi_breakfast_id := None;
         oi_quantity := ci_quantity item; oi_unit_price := ci_unit_price item;
         oi_supplement_id := primarySupplementId |}]).

Definition insertBreakfast (orderId : Z) (s : Store) (e : BreakfastEntry) : Store :=
  let orderItemId := nextId (map oi_id (order_items s)) in
  let s1 :=
    with_order_items s
      (order_items s ++
       [{| oi_id := orderItemId; oi_order_id := orderId;
           oi_item_id := None; oi_breakfast_id := Some (be_breakfast_id e);
           oi_quantity := be_quantity e; oi_unit_price := be_unit_price e;
           oi_supplement_id := None |}]) in
  with_breakfast_order_options s1
    (breakfast_order_options s1 ++
     map (fun optionId => {| boo_order_item_id := orderItemId;
                             boo_breakfast_option_id := optionId |})
       (be_option_ids e)).

Definition notificationMessage (s : Store) (r : OrderRequest) (orderId : Z)
    (order_type : OrderType) (effectiveTableId : option Z) : string :=
  match order_type with
  | local =>
      let table_number :=
        match effectiveTableId with
        | Some tid => nonZero (option_map t_table_number
                                 (hd_error (filter (fun t => t_id t =? tid) (tables s))))
        | None => None
        end in
      ("New order #" ++ string_of_Z orderId ++ " for Table " ++
       match table_number, nonZero effectiveTableId with
       | Some n, _ => string_of_Z n
       | None, Some tid => string_of_Z tid
       | None, None => "N/A"
       end)%string
  | delivery =>
      ("New delivery order #" ++ string_of_Z orderId ++ " for " ++
       match delivery_address r with Some a => a | None => "undefined" end)%string
  | _ => ("New imported order #" ++ string_of_Z orderId)%string
  end.

Definition insertNotification (r : OrderRequest) (orderId : Z) (order_type : OrderType)
    (effectiveTableId : option Z) (s : Store) : Store :=
  with_notifications s
    (notifications s ++
     [{| n_reference_id := orderId;
         n_message := notificationMessage s r orderId order_type effectiveTableId |}]).

(** The transaction of [POST /orders]: order row, rate-limit rows, order
    items, coalesced breakfast rows, stock deduction when auto-approved,
    notification; then commit. *)
Definition persistOrder (s : Store) (r : OrderRequest) (session : string)
    (order_type : OrderType) (calculatedTotal : Q) (effectiveTableId : option Z)
    (breakfastMap : list BreakfastEntry) : Response * Store :=
  let c := beginTransaction s in
  let orderId := nextId (map o_id (orders (work c))) in   (* [orderResult.insertId] *)
  let c1 := on_work c (insertOrder r orderId calculatedTotal effectiveTableId order_type session) in
  let c2 := on_work c1 (insertLimits r) in
  let c3 := on_work c2 (fun w => fold_left (insertItem orderId) (items r) w) in
  let c4 := on_work c3 (fun w => fold_left (insertBreakfast orderId) breakfastMap w) in
  let approved :=
    if isStaffRequest r then
      match deductStock orderId (ingredientUsage (work c4) orderId) c4 with
      | inl e => inl e
      | inr c5 => inr (on_work c5 (updateOrder orderId true preparing))
      end
    else inr c4 in
  match approved with
  | inl e => (Failed e, rollback c)
  | inr c6 =>
      let c7 :=
        if isStaffRequest r then c6
        else on_work c6 (insertNotification r orderId order_type effectiveTableId) in
      (Created201 orderId, commit c7)
  end.

Definition postOrders (sv : Server) (r : OrderRequest) : Response * Server :=
  let reject e s rr := (Failed e, {| store := s; recentRequests := rr |}) in
  let s0 := store sv in
  let deviceId := deviceIdOf r in
  if negb (isStaffRequest r)
     && (String.eqb deviceId "" || String.eqb deviceId "unknown" || negb (uuidRegex deviceId))
  then reject InvalidDeviceId s0 (recentRequests sv)
  else
    let s1 := if isStaffRequest r then s0 else purgeLimits (now r) s0 in
    if negb (isStaffRequest r) && (3 <=? orderCount r s1)%nat
    then reject RateLimitExceeded s1 (recentRequests sv)
    else
      match sessionId r with
      | None => reject InvalidSessionId s1 (recentRequests sv)
      | Some session =>
          if blank (Some session) then reject InvalidSessionId s1 (recentRequests sv)
          else if existsb (String.eqb (orderHash r)) (recentRequests sv)
          then reject DuplicateOrder s1 (recentRequests sv)
          else
            let rr := recentRequests sv ++ [orderHash r] in
            match items r, breakfastItems r, order_type r with
            | [], [], _ => reject EmptyCart s1 rr
            | _, _, None => reject InvalidOrderType s1 rr
            | _, _, Some ot =>
                if (match ot with local => negb (Js.truthy (table_id r)) | _ => false end)
                then reject TableIdRequired s1 rr
                else if (match ot with delivery => blank (delivery_address r) | _ => false end)
                then reject DeliveryAddressRequired s1 rr
                else
                  match verifyItems s1 (items r) 0%Q with
                  | inl e => reject e s1 rr
                  | inr afterItems =>
                      match verifyBreakfasts s1 (breakfastItems r) ([], afterItems) with
                      | inl e => reject e s1 rr
                      | inr (breakfastMap, calculatedTotal) =>
                          match resolveTable s1 r with
                          | inl e => reject e s1 rr
                          | inr (s2, effectiveTableId) =>
                              match applyPromotion s2 (now r) (promotion_id r)
                                      (items r) (breakfastItems r) calculatedTotal with
                              | inl e => reject e s2 rr
                              | inr calculatedTotal =>
                                  let providedPrice := total_price r in
                                  if Js.differs providedPrice calculatedTotal
                                  then reject (TotalPriceMismatch calculatedTotal providedPrice) s2 rr
                                  else
                                    let '(response, s3) :=
                                      persistOrder s2 r session ot calculatedTotal
                                        effectiveTableId breakfastMap in
                                    (response, {| store := s3; recentRequests := rr |})
                              end
                          end
                      end
                  end
            end
      end.

(** The rejections that are issued after the table stage has run. *)
Definition afterTableStage (e : Error) : bool :=
  match e with
  | TotalPriceMismatch _ _ | InternalError
  | IngredientNotFound _ | InsufficientStock _ _ _ => true
  | _ => false
  end.

End Admission.

(** ** The router as a whole: sequences of requests

    The four state-changing routes of [routes/orderRoutes.js], applied one
    after the other to the process state. *)

Module Router.

Import StockLedger Orders Pricing Admission.

Inductive Call :=
| CallPost (r : OrderRequest)
| CallPut (user : option RequestUser) (orderId approved : Z)
| CallApprove (user : option RequestUser) (orderId : Z)
| CallCancel (user : option RequestUser) (orderId : Z) (restoreStock : bool).

Definition perform (sv : Server) (c : Call) : Response * Server :=
  let lifted (out : Response * Store) : Response * Server :=
    (fst out, {| store := snd out; recentRequests := recentRequests sv |}) in
  match c with
  | CallPost r => postOrders sv r
  | CallPut user orderId approved => lifted (putOrder (store sv) user orderId approved)
  | CallApprove user orderId => lifted (approve (store sv) user orderId)
  | CallCancel user orderId restoreStock =>
      lifted (cancel (store sv) user orderId restoreStock)
  end.

Definition performAll (sv : Server) (calls : list Call) : Server :=
  fold_left (fun sv c => snd (perform sv c)) calls sv.

(** The ledger rows the idempotency guards look for: the [deduction] rows of
    an order, and its rows with the restoration reason. *)
Definition deductionsOf (s : Store) (orderId : Z) : list StockTransaction :=
  filter (fun t => Js.opt_eqb (st_order_id t) orderId
                   && type_eqb (st_transaction_type t) deduction)
    (stock_transactions s).

Definition restorationsOf (s : Store) (orderId : Z) : list StockTransaction :=
  filter (fun t => Js.opt_eqb (st_order_id t) orderId
                   && String.eqb (st_reason t) restorationReason)
    (stock_transactions s).

(** The signed quantity the ledger records for one ingredient. *)
Definition ledgerSum (s : Store) (ingredientId : Z) : Q :=
  sumQ (map st_quantity
          (filter (fun t => st_ingredient_id t =? ingredientId) (stock_transactions s))).

(** Foreign key of [stock_transactions.order_id]. *)
Definition ledgerRefersToOrders (s : Store) : Prop :=
  forall t k, In t (stock_transactions s) -> st_order_id t = Some k ->
              In k (map o_id (orders s)).

(** What one request appends to the ledger, together with what it does to
    the stock: nothing, the deduction rows of one order, or the restoration
    rows of one order. *)
Inductive Batch (s s' : Store) : list StockTransaction -> Prop :=
| NoBatch :
    ingredients s' = ingredients s -> Batch s s' []
| DeductionBatch (orderId : Z) (usage : UsageMap) :
    NoDup (keys usage) ->
    (ledgerRefersToOrders s -> hasDeduction s orderId = false) ->
    In orderId (map o_id (orders s')) ->
    (forall i, (stockOf s' i == stockOf s i - required usage i)%Q) ->
    Batch s s' (map (fun kq => deductionRow orderId (fst kq) (snd kq)) usage)
| RestorationBatch (orderId : Z) (usage : UsageMap) :
    NoDup (keys usage) ->
    hasRestoration s orderId = false ->
    In orderId (map o_id (orders s')) ->
    (forall i, (stockOf s' i == stockOf s i + required usage i)%Q) ->
    Batch s s' (map (fun kq => restorationRow orderId (fst kq) (snd kq)) usage).

(** The three admission checks of [POST /orders] that precede the duplicate
    guard, as the handler evaluates them. *)
Definition deviceRejected (r : OrderRequest) : bool :=
  negb (isStaffRequest r)
  && (String.eqb (deviceIdOf r) "" || String.eqb (deviceIdOf r) "unknown"
      || negb (uuidRegex (deviceIdOf r))).

Definition afterPurge (r : OrderRequest) (s : Store) : Store :=
  if isStaffRequest r then s else purgeLimits (now r) s.

Definition rateLimited (r : OrderRequest) (s : Store) : bool :=
  negb (isStaffRequest r) && (3 <=? orderCount r (afterPurge r s))%nat.

(** The rows of [device_order_limits] an admitted guest order books. *)
Definition limitRows (r : OrderRequest) : list DeviceOrderLimit :=
  map (fun fp => {| dol_device_fingerprint := fp; dol_order_timestamp := now r;
                    dol_device_id := deviceIdOf r |})
    (fingerprintsOf r).

(** The two rejections of the device and rate-limit checks. *)
Definition admissionError (e : Error) : bool :=
  match e with
  | InvalidDeviceId | RateLimitExceeded => true
  | _ => false
  end.


(** The price a verified breakfast line is charged at: the catalogue price
    with the selected options, or the client's price when that is higher. *)
Definition expectedBreakfastPrice (s : Store) (item : BreakfastCartItem) : Q :=
  (match selectBreakfast s (bi_breakfast_id item) with
   | b :: _ => b_price b
   | [] => 0
   end
   + match checkOptionGroups s (bi_breakfast_id item) (bi_option_ids item) with
     | inr optionPrice => optionPrice
     | inl _ => 0
     end)%Q.

Definition chargedPrice (s : Store) (item : BreakfastCartItem) : Q :=
  if Js.lt (expectedBreakfastPrice s item) (bi_unit_price item)
  then bi_unit_price item
  else expectedBreakfastPrice s item.

(** The entries of [breakfastMap] after the lines [pre]: every breakfast of
    [pre] has an entry, and every entry carries the price charged for the
    first line of its breakfast. *)
Definition pricedByFirstLine (s : Store) (pre : list BreakfastCartItem)
    (m : list BreakfastEntry) : Prop :=
  (forall b, In b (map bi_breakfast_id pre) -> In b (map be_breakfast_id m))
  /\ (forall e, In e m ->
        exists item,
          find (fun l => bi_breakfast_id l =? be_breakfast_id e) pre = Some item
          /\ be_unit_price e = chargedPrice s item).

End Router.

(** ** The menu-line price check on JavaScript numbers

    [parseFloat], [Math.abs], [-], [+], [*] and [>] of the menu-item loop of
    [POST /orders] work on IEEE 754 binary64 values.  Whether a unit price
    is within the tolerance of the expected one is decided by the rounding
    of these operations, so this loop is embedded here on binary64 itself,
    over the same store and the same cart lines: a DECIMAL column and a
    number of the request body are decimals, hence rationals, and the
    handler sees the binary64 value nearest to each. *)

Module Double.

Import PrimFloat SpecFloat FloatOps.

(** The number of an integer, rounded to nearest, ties to even. *)
Definition ofInt (z : Z) : float := SF2Prim (binary_normalize prec emax z 0 false).

(** [parseFloat] of the text of a DECIMAL column and [JSON.parse] of a number
    of the request body: the binary64 value nearest to the decimal, obtained
    as the correctly rounded quotient of its numerator and denominator (both
    are below 2^53 for every DECIMAL(10,2) and every price of a menu, and
    are then exact). *)
Definition parse (q : Q) : float := div (ofInt (Qnum q)) (ofInt (Zpos (Qden q))).

(** The literal [0.01]. *)
Definition cent : float := parse (1 # 100).

(** [Math.abs(a - b) > 0.01] *)
Definition differs (a b : float) : bool := ltb cent (abs (sub a b)).

(** [!x || isNaN(x) || x <= 0] *)
Definition notPositive (x : float) : bool := is_nan x || leb x zero.

End Double.

Module PricingDouble.

Import PrimFloat.

(** What one round of the loop over [items] ends in: a rejection that
    carries no amount, the PriceMismatch rejection naming the item, the
    expected price and the price received, or the new running total. *)
Inductive LineResult :=
| Refused (e : Error)
| Mismatch (item_id : Z) (expected : float) (got : Q)
| Accumulated (calculatedTotal : float).

(** [sale_price !== null ? parseFloat(sale_price) : parseFloat(regular_price)] *)
Definition basePrice (m : MenuItem) : float :=
  match mi_sale_price m with
  | Some sale => Double.parse sale
  | None => Double.parse (mi_regular_price m)
  end.

(** [supplements.reduce((sum, supp) => sum + parseFloat(supp.additional_price || 0), 0)] *)
Definition supplementPrice (supplements : list MenuItemSupplement) : float :=
  fold_left
    (fun sum supp => add sum (Double.parse (Pricing.priceOrZero (mis_additional_price supp))))
    supplements zero.

(** One round of the loop over [items]. *)
Definition verifyItem (s : Store) (calculatedTotal : float) (item : CartItem) : LineResult :=
  let item_id := ci_item_id item in
  let quantity := ci_quantity item in
  let unit_price := ci_unit_price item in
  let supplementIds := Pricing.supplementIdsOf item in
  if item_id <=? 0 then Refused (InvalidItemId item_id)
  else if quantity <=? 0 then Refused (InvalidItemQuantity item_id)
  else if Double.notPositive (Double.parse unit_price) then Refused (InvalidItemUnitPrice item_id)
  else
    match Pricing.selectMenuItem s item_id with
    | [] => Refused (ItemUnavailable item_id)
    | menuItem :: _ =>
        if negb (mi_availability menuItem) then Refused (ItemUnavailable item_id)
        else
          let expectedPrice := basePrice menuItem in
          let checked :=
            match supplementIds with
            | [] => inr expectedPrice
            | _ :: _ =>
                let supplements := Pricing.selectSupplements s item_id supplementIds in
                if negb (List.length supplements =? List.length supplementIds)%nat
                then inl (InvalidSupplement item_id supplementIds
                            (map mis_supplement_id supplements))
                else inr (add expectedPrice (supplementPrice supplements))
            end in
          match checked with
          | inl e => Refused e
          | inr itemTotal =>
              if Double.differs (Double.parse unit_price) itemTotal
              then Mismatch item_id itemTotal unit_price
              else Accumulated (add calculatedTotal (mul itemTotal (Double.ofInt quantity)))
          end
    end.

(** The loop: it stops at the first line that is not accumulated. *)
Fixpoint verifyItems (s : Store) (items : list CartItem) (calculatedTotal : float)
  : LineResult :=
  match items with
  | [] => Accumulated calculatedTotal
  | item :: rest =>
      match verifyItem s calculatedTotal item with
      | Accumulated total => verifyItems s rest total
      | stopped => stopped
      end
  end.

(** The expected unit price of a line whose item is [menuItem] and whose
    requested supplement ids [ids] found the rows [found]: the base price,
    and when supplements were requested the additional prices of the found
    rows, added up from 0 in row order and then added to the base price. *)
Definition expectedPrice (menuItem : MenuItem) (ids : list Z)
    (found : list MenuItemSupplement) : float :=
  match ids with
  | [] => basePrice menuItem
  | _ :: _ => add (basePrice menuItem) (supplementPrice found)
  end.

End PricingDouble.

(** ** A small restaurant, used to run the handlers on concrete input *)

Module Sample.

Definition admin : option RequestUser := Some {| ru_id := 1; ru_role := "admin" |}.

Definition order (id : Z) (total : Q) : Order :=
  {| o_id := id; o_total_price := total; o_order_type := takeaway;
     o_delivery_address := None; o_promotion_id := None; o_table_id := None;
     o_session_id := "guest-session"; o_notes := None;
     o_status := pending; o_approved := false |}.

Definition line (id orderId item quantity : Z) (price : Q) : OrderItem :=
  {| oi_id := id; oi_order_id := orderId; oi_item_id := Some item;
     oi_breakfast_id := None; oi_quantity := quantity; oi_unit_price := price;
     oi_supplement_id := None |}.

(** Item 5 (espresso, 9.00) uses one unit of coffee; item 6 (latte, 4.00)
    uses one unit of milk.  Order 1 is two espressos, order 2 three lattes;
    there are five units of coffee and one of milk.  Breakfast 1 (10.00) has
    a required group (option 1) and an optional group (option 2, +2.00).
    Promotion 1 is store-wide, 50%, active from 0 to 1000. *)
Definition restaurant : Store :=
  {| users := [{| usr_id := 1; usr_role := "admin" |}];
     orders := [order 1 18; order 2 12];
     order_items := [line 1 1 5 2 9; line 2 2 6 3 4];
     breakfast_order_options := [];
     ingredients := [{| ing_id := 1; ing_name := "coffee"; quantity_in_stock := 5 |};
                     {| ing_id := 2; ing_name := "milk"; quantity_in_stock := 1 |}];
     stock_transactions := [];
     menu_item_ingredients := [{| c_owner := 5; c_ingredient_id := 1; c_quantity := 1 |};
                               {| c_owner := 6; c_ingredient_id := 2; c_quantity := 1 |}];
     supplement_ingredients := [];
     breakfast_ingredients := [];
     breakfast_option_ingredients := [];
     menu_items := [{| mi_id := 5; mi_availability := true; mi_regular_price := 9;
                       mi_sale_price := None |};
                    {| mi_id := 6; mi_availability := true; mi_regular_price := 4;
                       mi_sale_price := None |}];
     menu_item_supplements := [{| mis_menu_item_id := 5; mis_supplement_id := 3;
                                  mis_additional_price := Some (1 # 2) |}];
     breakfasts := [{| b_id := 1; b_availability := true; b_price := 10 |}];
     breakfast_option_groups :=
       [{| bog_id := 1; bog_breakfast_id := Some 1; bog_is_required := true;
           bog_title := "Drink" |};
        {| bog_id := 2; bog_breakfast_id := Some 1; bog_is_required := false;
           bog_title := "Extra" |}];
     breakfast_option_group_mappings := [];
     breakfast_options :=
       [{| bo_id := 1; bo_group_id := 1; bo_breakfast_id := Some 1;
           bo_additional_price := None |};
        {| bo_id := 2; bo_group_id := 2; bo_breakfast_id := Some 1;
           bo_additional_price := Some 2%Q |}];
     tables := [{| t_id := 1; t_table_number := 1; t_status := available |}];
     promotions := [{| p_id := 1; p_discount_percentage := 50; p_item_id := None;
                       p_active := true; p_start_date := 0; p_end_date := 1000 |}];
     device_order_limits := [];
     notifications := [] |}.

(** The store after order 1 has been approved, and after it has then been
    cancelled with stock restoration. *)
Definition approved1 : Store := snd (Orders.approve restaurant admin 1).
Definition cancelled1 : Store := snd (Orders.cancel approved1 admin 1 true).

(** Order 1 marked approved again through [PUT /orders/1]. *)
Definition reapproved1 : Store := snd (Orders.putOrder cancelled1 admin 1 1).


(** Breakfast 1 ordered on two cart lines: once with option 1, twice with
    options 1 and 2 (+2.00). *)
Definition breakfastLines : list BreakfastCartItem :=
  [{| bi_breakfast_id := 1; bi_quantity := 1; bi_unit_price := 10;
      bi_option_ids := Some [1] |};
   {| bi_breakfast_id := 1; bi_quantity := 2; bi_unit_price := 12;
      bi_option_ids := Some [1; 2] |}].


(** A guest at table 1 orders two espressos at 9.00 each and claims a total
    of 17.00. *)
Definition underpaid : OrderRequest :=
  {| items := [{| ci_item_id := 5; ci_quantity := 2; ci_unit_price := 9;
                  ci_supplement_ids := []; ci_supplement_id := None |}];
     breakfastItems := [];
     total_price := 17;
     order_type := Some local;
     delivery_address := None;
     promotion_id := None;
     table_id := Some 1;
     notes := None;
     sessionId := Some "guest-session";
     user := None;
     source := "";
     deviceIdHeader := Some "123e4567-e89b-12d3-a456-426614174000";
     deviceFingerprint := "fp-device";
     ipFingerprint := "fp-network";
     orderHash := "hash-1";
     now := 500 |}.

(** A guest takes away breakfast 1 on two cart lines, 34.00 in all. *)
Definition breakfastOrder : OrderRequest :=
  {| items := [];
     breakfastItems := breakfastLines;
     total_price := 34;
     order_type := Some takeaway;
     delivery_address := None;
     promotion_id := None;
     table_id := None;
     notes := None;
     sessionId := Some "guest-session";
     user := None;
     source := "";
     deviceIdHeader := Some "123e4567-e89b-12d3-a456-426614174000";
     deviceFingerprint := "fp-device";
     ipFingerprint := "fp-network";
     orderHash := "hash-2";
     now := 500 |}.

Definition server : Server := {| store := restaurant; recentRequests := [] |}.

End Sample.

(** ** Requests against the small restaurant *)

Module SampleRequests.

(** The admin takes two espressos at the staff console, to take away. *)
Definition staffOrder : OrderRequest :=
  {| items := [{| ci_item_id := 5; ci_quantity := 2; ci_unit_price := 9;
                  ci_supplement_ids := []; ci_supplement_id := None |}];
     breakfastItems := [];
     total_price := 18;
     order_type := Some takeaway;
     delivery_address := None;
     promotion_id := None;
     table_id := None;
     notes := None;
     sessionId := Some "staff-1-session";
     user := Sample.admin;
     source := "staff-console";
     deviceIdHeader := None;
     deviceFingerprint := "fp-staff";
     ipFingerprint := "fp-desk";
     orderHash := "hash-3";
     now := 500 |}.

(** The guest of [Sample.breakfastOrder] orders the same breakfast again
    with a note, hence under another hash. *)
Definition breakfastOrderAgain : OrderRequest :=
  {| items := [];
     breakfastItems := Sample.breakfastLines;
     total_price := 34;
     order_type := Some takeaway;
     delivery_address := None;
     promotion_id := None;
     table_id := None;
     notes := Some "no sugar";
     sessionId := Some "guest-session";
     user := None;
     source := "";
     deviceIdHeader := Some "123e4567-e89b-12d3-a456-426614174000";
     deviceFingerprint := "fp-device";
     ipFingerprint := "fp-network";
     orderHash := "hash-4";
     now := 600 |}.

(** The same guest, a quarter of an hour later, at table 1: two espressos
    for 18.00. *)
Definition tableOrder : OrderRequest :=
  {| items := [{| ci_item_id := 5; ci_quantity := 2; ci_unit_price := 9;
                  ci_supplement_ids := []; ci_supplement_id := None |}];
     breakfastItems := [];
     total_price := 18;
     order_type := Some local;
     delivery_address := None;
     promotion_id := None;
     table_id := Some 1;
     notes := None;
     sessionId := Some "guest-session";
     user := None;
     source := "";
     deviceIdHeader := Some "123e4567-e89b-12d3-a456-426614174000";
     deviceFingerprint := "fp-device";
     ipFingerprint := "fp-network";
     orderHash := "hash-5";
     now := 1500 |}.

(** The catalogue of a store replaced: menu items, their supplement rows and
    recipes, the ingredient rows and the breakfasts. *)
Definition withCatalogue (s : Store) (menuItems : list MenuItem)
    (supplements : list MenuItemSupplement) (recipes : list Consumption)
    (ingredientRows : list Ingredient) (breakfastRows : list Breakfast) : Store :=
  {| users := users s; orders := orders s; order_items := order_items s;
     breakfast_order_options := breakfast_order_options s;
     ingredients := ingredientRows; stock_transactions := stock_transactions s;
     menu_item_ingredients := recipes;
     supplement_ingredients := supplement_ingredients s;
     breakfast_ingredients := breakfast_ingredients s;
     breakfast_option_ingredients := breakfast_option_ingredients s;
     menu_items := menuItems; menu_item_supplements := supplements;
     breakfasts := breakfastRows;
     breakfast_option_groups := breakfast_option_groups s;
     breakfast_option_group_mappings := breakfast_option_group_mappings s;
     breakfast_options := breakfast_options s; tables := tables s;
     promotions := promotions s; device_order_limits := device_order_limits s;
     notifications := notifications s |}.







(** After order 1 has been approved (two units of coffee deducted), the
    recipe of the espresso is changed to three units of coffee. *)
Definition recipeChanged : Store :=
  withCatalogue Sample.approved1 (menu_items Sample.approved1)
    (menu_item_supplements Sample.approved1)
    [{| c_owner := 5; c_ingredient_id := 1; c_quantity := 3 |};
     {| c_owner := 6; c_ingredient_id := 2; c_quantity := 1 |}]
    (ingredients Sample.approved1) (breakfasts Sample.approved1).

(** After order 1 has been approved, the coffee row is deleted. *)
Definition coffeeDeleted : Store :=
  withCatalogue Sample.approved1 (menu_items Sample.approved1)
    (menu_item_supplements Sample.approved1) (menu_item_ingredients Sample.approved1)
    (filter (fun g => negb (ing_id g =? 1)) (ingredients Sample.approved1))
    (breakfasts Sample.approved1).




End SampleRequests.

(** * Facts *)

(** ** Rational sums *)

Lemma sumQ_app (l1 l2 : list Q) :
  (StockLedger.sumQ (l1 ++ l2) == StockLedger.sumQ l1 + StockLedger.sumQ l2)%Q.
Proof.
  induction l1 as [|x l1 IH]; simpl.
  - ring.
  - rewrite IH. ring.
Qed.

Lemma sumQ_scale (f : Consumption -> Q) (k : Q) (l : list Consumption) :
  (StockLedger.sumQ (map (fun c => f c * k) l) == StockLedger.sumQ (map f l) * k)%Q.
Proof.
  induction l as [|x l IH]; simpl.
  - ring.
  - rewrite IH. ring.
Qed.

Lemma fold_left_sum {A : Type} (f : A -> Q) (l : list A) (a : Q) :
  (fold_left (fun sum x => sum + f x) l a == a + StockLedger.sumQ (map f l))%Q.
Proof.
  revert a. induction l as [|x l IH]; intros a; simpl.
  - ring.
  - rewrite IH. ring.
Qed.

Lemma sumQ_perm (l1 l2 : list Q) :
  Permutation l1 l2 -> (StockLedger.sumQ l1 == StockLedger.sumQ l2)%Q.
Proof.
  induction 1; simpl.
  - reflexivity.
  - rewrite IHPermutation. reflexivity.
  - ring.
  - etransitivity; eassumption.
Qed.

Lemma lt_false_le (a b : Q) : Js.lt a b = false -> (b <= a)%Q.
Proof.
  unfold Js.lt. intros H. apply negb_false_iff in H. now apply Qle_bool_iff.
Qed.

Lemma lt_true_lt (a b : Q) : Js.lt a b = true -> (a < b)%Q.
Proof.
  unfold Js.lt. intros H. apply negb_true_iff in H.
  apply Qnot_le_lt. intros Hle. apply Qle_bool_iff in Hle. congruence.
Qed.

Lemma lt_true_iff (a b : Q) : Js.lt a b = true <-> (a < b)%Q.
Proof.
  split; [apply lt_true_lt|].
  intros H. destruct (Js.lt a b) eqn:E; [reflexivity|].
  apply lt_false_le in E. exfalso. exact (Qlt_not_le _ _ H E).
Qed.

Lemma or_zero_eq (v : option Q) :
  (Js.or_zero v == match v with Some q => q | None => 0 end)%Q.
Proof.
  destruct v as [q|]; simpl; [|reflexivity].
  destruct (Qeq_bool q 0) eqn:E; [|reflexivity].
  apply Qeq_bool_iff in E. now rewrite E.
Qed.

(** ** The requirement map *)

Section UsageMapFacts.
Import StockLedger.

Lemma get_set_same (m : UsageMap) (k : Z) (v : Q) : get (set m k v) k = Some v.
Proof.
  induction m as [|[k' v'] m IH]; simpl.
  - now rewrite Z.eqb_refl.
  - destruct (k' =? k) eqn:E; simpl.
    + now rewrite Z.eqb_refl.
    + now rewrite E.
Qed.

Lemma get_set_other (m : UsageMap) (k k' : Z) (v : Q) :
  k <> k' -> get (set m k v) k' = get m k'.
Proof.
  intros Hne. induction m as [|[k0 v0] m IH]; simpl.
  - destruct (k =? k') eqn:E; [apply Z.eqb_eq in E; contradiction | reflexivity].
  - destruct (k0 =? k) eqn:E; simpl.
    + apply Z.eqb_eq in E. subst k0.
      destruct (k =? k') eqn:E'; [apply Z.eqb_eq in E'; contradiction | reflexivity].
    + destruct (k0 =? k'); [reflexivity | exact IH].
Qed.

Lemma in_keys_set (m : UsageMap) (k i : Z) (v : Q) :
  In i (keys (set m k v)) <-> i = k \/ In i (keys m).
Proof.
  unfold keys. induction m as [|[k0 v0] m IH]; simpl.
  - intuition.
  - destruct (k0 =? k) eqn:E; simpl.
    + apply Z.eqb_eq in E. subst. intuition.
    + rewrite IH. intuition.
Qed.

Lemma NoDup_keys_set (m : UsageMap) (k : Z) (v : Q) :
  NoDup (keys m) -> NoDup (keys (set m k v)).
Proof.
  unfold keys. induction m as [|[k0 v0] m IH]; simpl; intros H.
  - constructor; [intros [] | constructor].
  - inversion H as [|? ? Hnin Hnd]; subst.
    destruct (k0 =? k) eqn:E; simpl.
    + apply Z.eqb_eq in E. subst. now constructor.
    + constructor; [|now apply IH].
      intros Hin. apply (in_keys_set m k k0 v) in Hin.
      destruct Hin as [->|Hin]; [now rewrite Z.eqb_refl in E | contradiction].
Qed.

Lemma get_None_keys (m : UsageMap) (i : Z) : get m i = None <-> ~ In i (keys m).
Proof.
  unfold keys. induction m as [|[k v] m IH]; simpl.
  - intuition.
  - destruct (k =? i) eqn:E.
    + apply Z.eqb_eq in E. subst. split; [discriminate | intros H; exfalso; apply H; now left].
    + rewrite IH. apply Z.eqb_neq in E. intuition.
Qed.

Lemma required_accumulate (m : UsageMap) (k i : Z) (q : Q) :
  (required (accumulate m k q) i == required m i + (if k =? i then q else 0))%Q.
Proof.
  unfold required, accumulate.
  destruct (k =? i) eqn:E.
  - apply Z.eqb_eq in E. subst i. rewrite get_set_same.
    rewrite or_zero_eq. reflexivity.
  - apply Z.eqb_neq in E. rewrite get_set_other by assumption. ring.
Qed.

Lemma required_applyAll (l : list (Z * Q)) (m : UsageMap) (i : Z) :
  (required (applyAll l m) i == required m i + contribSum i l)%Q.
Proof.
  revert m. induction l as [|[k q] l IH]; intros m; simpl.
  - unfold contribSum. simpl. ring.
  - unfold applyAll in *. simpl. rewrite IH, required_accumulate.
    unfold contribSum. simpl. destruct (k =? i); simpl; ring.
Qed.

Lemma in_keys_applyAll (l : list (Z * Q)) (m : UsageMap) (i : Z) :
  In i (keys (applyAll l m)) <-> In i (keys m) \/ In i (map fst l).
Proof.
  revert m. induction l as [|[k q] l IH]; intros m; simpl.
  - intuition.
  - unfold applyAll in *. simpl. rewrite IH. unfold accumulate.
    rewrite in_keys_set. intuition.
Qed.

Lemma NoDup_keys_applyAll (l : list (Z * Q)) (m : UsageMap) :
  NoDup (keys m) -> NoDup (keys (applyAll l m)).
Proof.
  revert m. induction l as [|[k q] l IH]; intros m H; simpl.
  - exact H.
  - unfold applyAll in *. simpl. apply IH. now apply NoDup_keys_set.
Qed.

Lemma applyAll_app (l1 l2 : list (Z * Q)) (m : UsageMap) :
  applyAll (l1 ++ l2) m = applyAll l2 (applyAll l1 m).
Proof.
  unfold applyAll. apply fold_left_app.
Qed.

Lemma addPerUnit_applyAll (quantity : Z) (rows : list Consumption) (m : UsageMap) :
  addPerUnit quantity rows m = applyAll (perUnitContribs quantity rows) m.
Proof.
  revert m. induction rows as [|c rows IH]; intros m; simpl.
  - reflexivity.
  - unfold addPerUnit, applyAll in *. simpl. apply IH.
Qed.

Lemma addOnce_applyAll (rows : list Consumption) (m : UsageMap) :
  addOnce rows m = applyAll (onceContribs rows) m.
Proof.
  revert m. induction rows as [|c rows IH]; intros m; simpl.
  - reflexivity.
  - unfold addOnce, applyAll in *. simpl. apply IH.
Qed.

Lemma whenId_applyAll (v : option Z) (quantity : Z) (table : list Consumption) (m : UsageMap) :
  whenId v (fun id => addPerUnit quantity (consumptionOf table id)) m
  = applyAll (whenContribs v (fun id => perUnitContribs quantity (consumptionOf table id))) m.
Proof.
  unfold whenId, whenContribs. destruct v as [id|]; [|reflexivity].
  destruct (Js.truthy (Some id)); [apply addPerUnit_applyAll | reflexivity].
Qed.

Lemma addItem_applyAll (s : Store) (m : UsageMap) (item : OrderItem) :
  addItem s m item = applyAll (itemContribs s item) m.
Proof.
  unfold addItem, itemContribs. rewrite !applyAll_app, !whenId_applyAll. reflexivity.
Qed.

Lemma fold_addItem_applyAll (s : Store) (l : list OrderItem) (m : UsageMap) :
  fold_left (addItem s) l m = applyAll (flat_map (itemContribs s) l) m.
Proof.
  revert m. induction l as [|item l IH]; intros m; simpl.
  - reflexivity.
  - rewrite applyAll_app, IH, addItem_applyAll. reflexivity.
Qed.

Lemma fold_addOption_applyAll (s : Store) (l : list Z) (m : UsageMap) :
  fold_left (addOption s) l m = applyAll (flat_map (optionContribs s) l) m.
Proof.
  revert m. induction l as [|o l IH]; intros m; simpl.
  - reflexivity.
  - rewrite applyAll_app, IH. unfold addOption, optionContribs.
    now rewrite addOnce_applyAll.
Qed.

Lemma ingredientUsage_replay (s : Store) (orderId : Z) :
  ingredientUsage s orderId = applyAll (contributions s orderId) [].
Proof.
  unfold ingredientUsage, contributions.
  now rewrite applyAll_app, fold_addOption_applyAll, fold_addItem_applyAll.
Qed.

Lemma NoDup_keys_ingredientUsage (s : Store) (orderId : Z) :
  NoDup (keys (ingredientUsage s orderId)).
Proof.
  rewrite ingredientUsage_replay. apply NoDup_keys_applyAll. constructor.
Qed.

Lemma contribSum_app (i : Z) (l1 l2 : list (Z * Q)) :
  (contribSum i (l1 ++ l2) == contribSum i l1 + contribSum i l2)%Q.
Proof.
  unfold contribSum. rewrite filter_app, map_app. apply sumQ_app.
Qed.

Lemma contribSum_flat_map {A : Type} (i : Z) (f : A -> list (Z * Q)) (l : list A) :
  (contribSum i (flat_map f l) == sumQ (map (fun a => contribSum i (f a)) l))%Q.
Proof.
  induction l as [|a l IH]; simpl.
  - reflexivity.
  - rewrite contribSum_app, IH. reflexivity.
Qed.

Lemma contribSum_perUnit (i quantity : Z) (rows : list Consumption) :
  (contribSum i (perUnitContribs quantity rows)
   == sumQ (map c_quantity (filter (fun c => c_ingredient_id c =? i) rows))
      * inject_Z quantity)%Q.
Proof.
  unfold contribSum, perUnitContribs.
  induction rows as [|c rows IH]; simpl.
  - ring.
  - destruct (c_ingredient_id c =? i); simpl; rewrite IH; ring.
Qed.

Lemma contribSum_once (i : Z) (rows : list Consumption) :
  (contribSum i (onceContribs rows)
   == sumQ (map c_quantity (filter (fun c => c_ingredient_id c =? i) rows)))%Q.
Proof.
  unfold contribSum, onceContribs.
  induction rows as [|c rows IH]; simpl.
  - reflexivity.
  - destruct (c_ingredient_id c =? i); simpl; rewrite IH; reflexivity.
Qed.

Lemma contribSum_when (i quantity : Z) (v : option Z) (table : list Consumption) :
  (contribSum i (whenContribs v (fun id => perUnitContribs quantity (consumptionOf table id)))
   == perUnit table v i * inject_Z quantity)%Q.
Proof.
  unfold whenContribs, perUnit. destruct v as [id|].
  - destruct (Js.truthy (Some id)).
    + apply contribSum_perUnit.
    + unfold contribSum. simpl. ring.
  - unfold contribSum. simpl. ring.
Qed.

Lemma contribSum_item (s : Store) (i : Z) (item : OrderItem) :
  (contribSum i (itemContribs s item) == lineRequirement s i item)%Q.
Proof.
  unfold itemContribs, lineRequirement.
  rewrite !contribSum_app, !contribSum_when. ring.
Qed.

Lemma sumQ_map_ext {A : Type} (f g : A -> Q) (l : list A) :
  (forall a, (f a == g a)%Q) -> (sumQ (map f l) == sumQ (map g l))%Q.
Proof.
  intros H. induction l as [|a l IH]; simpl.
  - reflexivity.
  - rewrite IH, H. reflexivity.
Qed.

Lemma contribSum_contributions (s : Store) (orderId i : Z) :
  (contribSum i (contributions s orderId) == totalRequired s orderId i)%Q.
Proof.
  unfold contributions, totalRequired.
  rewrite contribSum_app, !contribSum_flat_map.
  rewrite (sumQ_map_ext _ (lineRequirement s i)) by (intros; apply contribSum_item).
  rewrite (sumQ_map_ext (fun a => contribSum i (optionContribs s a)) (optionRequirement s i))
    by (intros; apply contribSum_once).
  reflexivity.
Qed.

Lemma in_whenContribs (i quantity : Z) (v : option Z) (table : list Consumption) :
  In i (map fst (whenContribs v (fun id => perUnitContribs quantity (consumptionOf table id))))
  <-> mentionedBy table v i.
Proof.
  unfold whenContribs, mentionedBy, perUnitContribs. destruct v as [id|].
  - simpl. destruct (id =? 0) eqn:E; simpl.
    + apply Z.eqb_eq in E. split; [intros [] |].
      intros (id' & c & Heq & Hne & _). congruence.
    + apply Z.eqb_neq in E. rewrite map_map. simpl. rewrite in_map_iff. split.
      * intros (c & Hc & Hin). exists id, c. auto.
      * intros (id' & c & Heq & _ & Hin & Hc). inversion Heq; subst. eauto.
  - simpl. split; [intros [] |]. intros (id' & c & Heq & _). discriminate.
Qed.

Lemma in_contributions (s : Store) (orderId i : Z) :
  In i (map fst (contributions s orderId)) <-> mentioned s orderId i.
Proof.
  unfold contributions, mentioned. rewrite map_app, in_app_iff.
  apply Morphisms_Prop.or_iff_morphism.
  - rewrite in_map_iff. split.
    + intros ([k q] & Hk & Hin). simpl in Hk. subst k.
      apply in_flat_map in Hin. destruct Hin as (item & Hitem & Hin).
      exists item. split; [assumption|].
      apply (in_map fst) in Hin. simpl in Hin. unfold itemContribs in Hin.
      rewrite !map_app, !in_app_iff, !in_whenContribs in Hin. tauto.
    + intros (item & Hitem & H).
      assert (Hin : In i (map fst (itemContribs s item))).
      { unfold itemContribs. rewrite !map_app, !in_app_iff, !in_whenContribs. tauto. }
      apply in_map_iff in Hin. destruct Hin as (kq & Hk & Hin).
      exists kq. split; [assumption|]. apply in_flat_map. eauto.
  - rewrite in_map_iff. split.
    + intros ([k q] & Hk & Hin). simpl in Hk. subst k.
      apply in_flat_map in Hin. destruct Hin as (o & Ho & Hin).
      unfold optionContribs, onceContribs in Hin. apply in_map_iff in Hin.
      destruct Hin as (c & Hc & Hin). inversion Hc; subst. eauto.
    + intros (o & c & Ho & Hc & Hi).
      exists (c_ingredient_id c, c_quantity c). split; [exact Hi|].
      apply in_flat_map. exists o. split; [assumption|].
      unfold optionContribs, onceContribs.
      now apply (in_map (fun c => (c_ingredient_id c, c_quantity c))).
Qed.

End UsageMapFacts.

(** C4.  The requirement map built for an order has one entry per
    ingredient that a consumption row of the order mentions, and the entry
    of ingredient [i] is the sum, over the order lines, of the menu-item,
    primary-supplement and breakfast quantities per unit times the line's
    quantity, plus, for each selected breakfast option row, that option's
    quantity taken once.  The same definition serves auto-approval,
    approval and restoration. *)
Theorem C4_requirement_map (s : Store) (orderId i : Z) :
  let usage := StockLedger.ingredientUsage s orderId in
  NoDup (StockLedger.keys usage)
  /\ (In i (StockLedger.keys usage) <-> StockLedger.mentioned s orderId i)
  /\ (StockLedger.required usage i == StockLedger.totalRequired s orderId i)%Q.
Proof.
  cbv zeta. split; [apply NoDup_keys_ingredientUsage|]. split.
  - rewrite ingredientUsage_replay, in_keys_applyAll, in_contributions.
    simpl. tauto.
  - rewrite ingredientUsage_replay, required_applyAll, contribSum_contributions.
    unfold StockLedger.required. simpl. ring.
Qed.

(** ** Approval, cancellation and the stock ledger *)

Section LedgerFacts.
Import StockLedger Orders.

Lemma sameButStock_refl (s : Store) : sameButStock s s.
Proof. unfold sameButStock. now destruct s. Qed.

Lemma sameButStock_trans (s1 s2 s3 : Store) :
  sameButStock s1 s2 -> sameButStock s2 s3 -> sameButStock s1 s3.
Proof.
  unfold sameButStock. destruct s1, s2, s3. simpl.
  intros H1 H2. inversion H1; inversion H2; subst. reflexivity.
Qed.

Lemma sameButStock_updateStock (k : Z) (q : Q) (s : Store) :
  sameButStock s (updateStock k q s).
Proof. unfold sameButStock. now destruct s. Qed.

Lemma sameButStock_insertTransaction (t : StockTransaction) (s : Store) :
  sameButStock s (insertTransaction t s).
Proof. unfold sameButStock. now destruct s. Qed.

Lemma sameButStock_fields (s s' : Store) :
  sameButStock s s' ->
  users s' = users s /\ orders s' = orders s /\ order_items s' = order_items s
  /\ breakfast_order_options s' = breakfast_order_options s
  /\ menu_item_ingredients s' = menu_item_ingredients s
  /\ supplement_ingredients s' = supplement_ingredients s
  /\ breakfast_ingredients s' = breakfast_ingredients s
  /\ breakfast_option_ingredients s' = breakfast_option_ingredients s
  /\ tables s' = tables s /\ notifications s' = notifications s
  /\ device_order_limits s' = device_order_limits s.
Proof.
  unfold sameButStock. destruct s, s'. simpl. intros H. inversion H; subst.
  repeat split.
Qed.

Lemma ingredientUsage_sameButStock (s s' : Store) (orderId : Z) :
  sameButStock s s' -> ingredientUsage s' orderId = ingredientUsage s orderId.
Proof.
  intros H. apply sameButStock_fields in H.
  destruct H as (_ & _ & Hoi & Hboo & Hm & Hsu & Hb & Hbo & _).
  unfold ingredientUsage, selectOrderItems, selectBreakfastOptions, addOption, addItem.
  now rewrite Hoi, Hboo, Hm, Hsu, Hb, Hbo.
Qed.

Lemma selectIngredient_updateStock_other (j k : Z) (q : Q) (s : Store) :
  j <> k -> selectIngredient (updateStock j q s) k = selectIngredient s k.
Proof.
  intros Hne. unfold selectIngredient, updateStock. simpl.
  induction (ingredients s) as [|g l IH]; simpl; [reflexivity|].
  destruct (ing_id g =? j) eqn:Ej; simpl.
  - apply Z.eqb_eq in Ej. destruct (ing_id g =? k) eqn:Ek.
    + apply Z.eqb_eq in Ek. congruence.
    + exact IH.
  - destruct (ing_id g =? k); [now rewrite IH | exact IH].
Qed.

Lemma selectIngredient_updateStock_same (j : Z) (q : Q) (s : Store) :
  selectIngredient (updateStock j q s) j
  = map (fun g => {| ing_id := ing_id g; ing_name := ing_name g; quantity_in_stock := q |})
      (selectIngredient s j).
Proof.
  unfold selectIngredient, updateStock. simpl.
  induction (ingredients s) as [|g l IH]; simpl; [reflexivity|].
  destruct (ing_id g =? j) eqn:Ej; simpl; rewrite Ej; [now rewrite IH | exact IH].
Qed.

Lemma stockOf_updateStock (j k : Z) (q : Q) (s : Store) :
  selectIngredient s j <> [] ->
  stockOf (updateStock j q s) k = if j =? k then q else stockOf s k.
Proof.
  intros Hex. unfold stockOf. destruct (j =? k) eqn:E.
  - apply Z.eqb_eq in E. subst k. rewrite selectIngredient_updateStock_same.
    destruct (selectIngredient s j); [contradiction | reflexivity].
  - apply Z.eqb_neq in E. now rewrite selectIngredient_updateStock_other.
Qed.

Lemma required_cons (k i : Z) (q : Q) (m : UsageMap) :
  required ((k, q) :: m) i = if k =? i then q else required m i.
Proof. unfold required. simpl. now destruct (k =? i). Qed.

Lemma required_not_key (m : UsageMap) (i : Z) : ~ In i (keys m) -> required m i = 0%Q.
Proof.
  intros H. apply get_None_keys in H. unfold required. now rewrite H.
Qed.

(** What a completed deduction loop has done. *)
Lemma deductStock_ok (orderId : Z) (usage : UsageMap) (c c' : Connection) :
  NoDup (keys usage) ->
  deductStock orderId usage c = inr c' ->
  snapshot c' = snapshot c
  /\ sameButStock (work c) (work c')
  /\ stock_transactions (work c')
     = stock_transactions (work c)
       ++ map (fun kq => deductionRow orderId (fst kq) (snd kq)) usage
  /\ (forall i, (stockOf (work c') i == stockOf (work c) i - required usage i)%Q)
  /\ (forall i, selectIngredient (work c') i = [] <-> selectIngredient (work c) i = [])
  /\ (forall i, In i (keys usage) ->
        selectIngredient (work c) i <> [] /\ (required usage i <= stockOf (work c) i)%Q).
Proof.
  revert c. induction usage as [|[k q] usage IH]; intros c Hnd H; simpl in H.
  - inversion H; subst. split; [reflexivity|]. split; [apply sameButStock_refl|].
    split; [now rewrite app_nil_r|]. split; [|split].
    + intros i. unfold required. simpl. ring.
    + intros i. reflexivity.
    + intros i [].
  - destruct (selectIngredient (work c) k) as [|row rows] eqn:Hsel; [discriminate|].
    destruct (Js.lt (quantity_in_stock row) q) eqn:Hlt; [discriminate|].
    inversion Hnd as [|? ? Hnin Hnd']; subst.
    apply IH in H; [|assumption].
    destruct H as (Hsnap & Hsame & Htx & Hstock & Hnil & Hkeys).
    simpl in Hsnap, Hsame, Htx, Hstock, Hnil, Hkeys.
    assert (Hex : selectIngredient (work c) k <> []) by (rewrite Hsel; discriminate).
    assert (Hk : stockOf (work c) k = quantity_in_stock row)
      by (unfold stockOf; now rewrite Hsel).
    split; [exact Hsnap|]. split.
    { eapply sameButStock_trans; [|exact Hsame].
      eapply sameButStock_trans;
        [apply sameButStock_updateStock | apply sameButStock_insertTransaction]. }
    split.
    { rewrite Htx. simpl. now rewrite <- app_assoc. }
    split.
    { intros i. rewrite Hstock, required_cons.
      change (stockOf (insertTransaction (deductionRow orderId k q)
                (updateStock k (quantity_in_stock row - q) (work c))) i)
        with (stockOf (updateStock k (quantity_in_stock row - q) (work c)) i).
      rewrite stockOf_updateStock by assumption.
      destruct (k =? i) eqn:E.
      - apply Z.eqb_eq in E. subst i. rewrite required_not_key by assumption.
        rewrite Hk. ring.
      - reflexivity. }
    split.
    { intros i. rewrite Hnil.
      change (selectIngredient (insertTransaction (deductionRow orderId k q)
                (updateStock k (quantity_in_stock row - q) (work c))) i)
        with (selectIngredient (updateStock k (quantity_in_stock row - q) (work c)) i).
      destruct (Z.eq_dec k i) as [->|Hne].
      - rewrite selectIngredient_updateStock_same, Hsel. simpl. split; discriminate.
      - now rewrite selectIngredient_updateStock_other. }
    intros i [Hi|Hi]; simpl in Hi.
    + subst i. split; [assumption|]. rewrite required_cons, Z.eqb_refl, Hk.
      now apply lt_false_le.
    + assert (Hne : k <> i) by (intros ->; contradiction).
      destruct (Hkeys i Hi) as (Hsel' & Hle).
      change (selectIngredient (insertTransaction (deductionRow orderId k q)
                (updateStock k (quantity_in_stock row - q) (work c))) i)
        with (selectIngredient (updateStock k (quantity_in_stock row - q) (work c)) i)
        in Hsel'.
      change (stockOf (insertTransaction (deductionRow orderId k q)
                (updateStock k (quantity_in_stock row - q) (work c))) i)
        with (stockOf (updateStock k (quantity_in_stock row - q) (work c)) i) in Hle.
      rewrite selectIngredient_updateStock_other in Hsel' by assumption.
      rewrite stockOf_updateStock in Hle by assumption.
      apply Z.eqb_neq in Hne. rewrite Hne in Hle.
      split; [assumption|]. now rewrite required_cons, Hne.
Qed.

(** The deduction loop never writes a negative quantity. *)
Lemma deductStock_nonneg (orderId : Z) (usage : UsageMap) (c c' : Connection) :
  stockNonNegative (work c) ->
  deductStock orderId usage c = inr c' ->
  stockNonNegative (work c').
Proof.
  revert c. induction usage as [|[k q] usage IH]; intros c Hs H; simpl in H.
  - now inversion H; subst.
  - destruct (selectIngredient (work c) k) as [|row rows] eqn:Hsel; [discriminate|].
    destruct (Js.lt (quantity_in_stock row) q) eqn:Hlt; [discriminate|].
    apply IH in H; [assumption|].
    unfold stockNonNegative in *. simpl.
    apply Forall_forall. intros g Hg. apply in_map_iff in Hg.
    destruct Hg as (g0 & Hg0 & Hin). rewrite Forall_forall in Hs.
    destruct (ing_id g0 =? k); subst g; [simpl | now apply Hs].
    apply lt_false_le in Hlt. unfold Qminus. rewrite <- Qle_minus_iff. exact Hlt.
Qed.

(** The first short ingredient stops the loop. *)
Lemma deductStock_short (orderId : Z) (usage : UsageMap) (c : Connection) :
  NoDup (keys usage) ->
  (forall i, In i (keys usage) -> selectIngredient (work c) i <> []) ->
  (exists i, In i (keys usage) /\ (stockOf (work c) i < required usage i)%Q) ->
  exists i row rows,
    In (i, required usage i) usage
    /\ selectIngredient (work c) i = row :: rows
    /\ (quantity_in_stock row < required usage i)%Q
    /\ deductStock orderId usage c
       = inl (InsufficientStock (ing_name row) (required usage i) (quantity_in_stock row)).
Proof.
  revert c. induction usage as [|[k q] usage IH]; intros c Hnd Hall Hshort.
  - destruct Hshort as (i & [] & _).
  - inversion Hnd as [|? ? Hnin Hnd']; subst. simpl.
    destruct (selectIngredient (work c) k) as [|row rows] eqn:Hsel.
    { exfalso. apply (Hall k); [now left | assumption]. }
    destruct (Js.lt (quantity_in_stock row) q) eqn:Hlt.
    + exists k, row, rows. rewrite required_cons, Z.eqb_refl.
      repeat split; [now left | assumption | now apply lt_true_lt].
    + set (c2 := on_work (on_work c (updateStock k (quantity_in_stock row - q)))
                   (insertTransaction (deductionRow orderId k q))).
      assert (Hother : forall i, In i (keys usage) ->
                selectIngredient (work c2) i = selectIngredient (work c) i).
      { intros i Hi. assert (k <> i) by (intros ->; contradiction).
        subst c2. simpl.
        change (selectIngredient (insertTransaction (deductionRow orderId k q)
                  (updateStock k (quantity_in_stock row - q) (work c))) i)
          with (selectIngredient (updateStock k (quantity_in_stock row - q) (work c)) i).
        now apply selectIngredient_updateStock_other. }
      destruct (IH c2 Hnd') as (i & row' & rows' & Hin & Hsel' & Hq & Hres).
      * intros i Hi. rewrite Hother by assumption. apply Hall. now right.
      * destruct Hshort as (i & [Hi|Hi] & Hlt'); simpl in Hi.
        -- subst i. exfalso. rewrite required_cons, Z.eqb_refl in Hlt'.
           unfold stockOf in Hlt'. rewrite Hsel in Hlt'.
           apply lt_true_iff in Hlt'. congruence.
        -- exists i. split; [assumption|].
           assert (Hne : k <> i) by (intros ->; contradiction).
           apply Z.eqb_neq in Hne. rewrite required_cons, Hne in Hlt'.
           unfold stockOf in *. now rewrite Hother.
      * assert (Hi : In i (keys usage)) by (apply (in_map fst) in Hin; exact Hin).
        assert (Hne : k <> i) by (intros ->; contradiction).
        apply Z.eqb_neq in Hne.
        exists i, row', rows'. rewrite required_cons, Hne.
        rewrite <- Hother by assumption.
        repeat split; [now right | assumption | assumption | exact Hres].
Qed.

Lemma selectOrder_updateOrder (orderId : Z) (a : bool) (st : OrderStatus) (s : Store) :
  selectOrder (updateOrder orderId a st s) orderId
  = map (setApproval a st) (selectOrder s orderId).
Proof.
  unfold selectOrder, updateOrder. simpl.
  induction (orders s) as [|o l IH]; simpl; [reflexivity|].
  destruct (o_id o =? orderId) eqn:E; simpl; rewrite E; [now rewrite IH | exact IH].
Qed.

Lemma updateOrder_idem (orderId : Z) (a : bool) (st : OrderStatus) (s : Store) :
  updateOrder orderId a st (updateOrder orderId a st s) = updateOrder orderId a st s.
Proof.
  unfold updateOrder, with_orders. cbn [orders users order_items breakfast_order_options
    ingredients stock_transactions menu_item_ingredients supplement_ingredients
    breakfast_ingredients breakfast_option_ingredients menu_items menu_item_supplements
    breakfasts breakfast_option_groups breakfast_option_group_mappings breakfast_options
    tables promotions device_order_limits notifications].
  f_equal. rewrite map_map. apply map_ext.
  intros o. destruct (o_id o =? orderId) eqn:E; simpl; now rewrite E.
Qed.

(** A failed approval or cancellation returns the store it was given. *)
Lemma approve_failed_unchanged (s s' : Store) (u : option RequestUser) (orderId : Z) (e : Error) :
  approve s u orderId = (Failed e, s') -> s' = s.
Proof.
  unfold approve.
  destruct (unauthorised s u); [now inversion 1|].
  destruct (orderId <=? 0); [now inversion 1|].
  simpl.
  destruct (selectOrder s orderId) as [|order rest]; [now inversion 1|].
  destruct (o_approved order && negb (status_eqb (o_status order) cancelled));
    [now inversion 1|].
  destruct (hasDeduction s orderId); [now inversion 1|].
  destruct (deductStock _ _ _); [now inversion 1 | discriminate].
Qed.

Lemma cancel_failed_unchanged (s s' : Store) (u : option RequestUser) (orderId : Z)
    (restoreStock : bool) (e : Error) :
  cancel s u orderId restoreStock = (Failed e, s') -> s' = s.
Proof.
  unfold cancel.
  destruct (unauthorised s u); [now inversion 1|].
  destruct (orderId <=? 0); [now inversion 1|].
  simpl.
  destruct (selectOrder s orderId) as [|order rest]; [now inversion 1|].
  destruct (status_eqb (o_status order) cancelled); [now inversion 1|].
  match goal with |- context [match ?x with inl _ => _ | inr _ => _ end] => destruct x end;
    [now inversion 1 | discriminate].
Qed.

(** The shape of a successful approval. *)
Lemma approve_ok_inv (s s1 : Store) (u : option RequestUser) (orderId : Z) (msg : string) :
  approve s u orderId = (Ok200 msg, s1) ->
  exists order rest c1,
    unauthorised s u = false /\ 0 < orderId
    /\ selectOrder s orderId = order :: rest
    /\ o_approved order && negb (status_eqb (o_status order) cancelled) = false
    /\ hasDeduction s orderId = false
    /\ deductStock orderId (ingredientUsage s orderId) (beginTransaction s) = inr c1
    /\ s1 = updateOrder orderId true preparing (work c1).
Proof.
  unfold approve.
  destruct (unauthorised s u) eqn:Hu; [discriminate|].
  destruct (orderId <=? 0) eqn:Hid; [discriminate|].
  simpl.
  destruct (selectOrder s orderId) as [|order rest] eqn:Hsel; [discriminate|].
  destruct (o_approved order && negb (status_eqb (o_status order) cancelled)) eqn:Hg;
    [discriminate|].
  destruct (hasDeduction s orderId) eqn:Hd; [discriminate|].
  destruct (deductStock _ _ _) as [e|c1] eqn:Hded; [discriminate|].
  intros H. inversion H; subst.
  exists order, rest, c1. apply Z.leb_gt in Hid. repeat split; auto.
Qed.

Lemma unauthorised_users (s s' : Store) (u : option RequestUser) :
  users s' = users s -> unauthorised s' u = unauthorised s u.
Proof.
  intros H. unfold unauthorised, checkAdminOrServer. now rewrite H.
Qed.

End LedgerFacts.

Section LifecycleTheorems.
Import StockLedger Orders.

Lemma approve_already_approved (s : Store) (u : option RequestUser) (orderId : Z)
    (order : Order) (rest : list Order) :
  unauthorised s u = false -> 0 < orderId ->
  selectOrder s orderId = order :: rest ->
  o_approved order = true -> o_status order <> cancelled ->
  approve s u orderId = (Failed AlreadyApproved, s).
Proof.
  intros Hu Hid Hsel Ha Hst. unfold approve. rewrite Hu.
  apply Z.leb_gt in Hid. rewrite Hid. simpl. rewrite Hsel, Ha.
  destruct (o_status order); try reflexivity. contradiction.
Qed.

Lemma approve_already_deducted (s : Store) (u : option RequestUser) (orderId : Z)
    (order : Order) (rest : list Order) :
  unauthorised s u = false -> 0 < orderId ->
  selectOrder s orderId = order :: rest ->
  o_approved order && negb (status_eqb (o_status order) cancelled) = false ->
  hasDeduction s orderId = true ->
  approve s u orderId = (Failed AlreadyDeducted, s).
Proof.
  intros Hu Hid Hsel Hg Hd. unfold approve. rewrite Hu.
  apply Z.leb_gt in Hid. rewrite Hid. simpl. now rewrite Hsel, Hg, Hd.
Qed.

Lemma approve_ok_effect (s s1 : Store) (u : option RequestUser) (orderId : Z) (msg : string) :
  approve s u orderId = (Ok200 msg, s1) ->
  sameButStock s (with_orders s1 (orders s))
  /\ unauthorised s1 u = false
  /\ (exists order rest, selectOrder s1 orderId = order :: rest
        /\ o_approved order = true /\ o_status order = preparing)
  /\ stock_transactions s1
     = stock_transactions s
       ++ map (fun kq => deductionRow orderId (fst kq) (snd kq)) (ingredientUsage s orderId)
  /\ (forall i, (stockOf s1 i == stockOf s i - required (ingredientUsage s orderId) i)%Q)
  /\ (forall i, In i (keys (ingredientUsage s orderId)) -> selectIngredient s1 i <> [])
  /\ ingredientUsage s1 orderId = ingredientUsage s orderId.
Proof.
  intros H. apply approve_ok_inv in H.
  destruct H as (order & rest & c1 & Hu & Hid & Hsel & Hg & Hd & Hded & ->).
  apply deductStock_ok in Hded; [|apply NoDup_keys_ingredientUsage].
  destruct Hded as (_ & Hsame & Htx & Hstock & Hnil & Hkeys). simpl in *.
  split.
  { unfold sameButStock in *. destruct s, (work c1). simpl in *.
    inversion Hsame; subst. reflexivity. }
  split.
  { rewrite <- Hu. apply unauthorised_users. simpl.
    now apply sameButStock_fields in Hsame. }
  split.
  { rewrite selectOrder_updateOrder.
    assert (Ho : selectOrder (work c1) orderId = selectOrder s orderId).
    { unfold selectOrder. apply sameButStock_fields in Hsame.
      destruct Hsame as (_ & Ho & _). now rewrite Ho. }
    rewrite Ho, Hsel. simpl. eauto. }
  split; [exact Htx|]. split; [exact Hstock|]. split.
  { intros i Hi Hn. destruct (Hkeys i Hi) as (Hex & _). apply Hex.
    apply Hnil. exact Hn. }
  change (ingredientUsage (updateOrder orderId true preparing (work c1)) orderId)
    with (ingredientUsage (work c1) orderId).
  now apply ingredientUsage_sameButStock.
Qed.

(** C1.  Approving an order twice deducts stock once.  Under an authorised
    caller and a valid id: an order that is approved and not cancelled is
    refused with AlreadyApproved; otherwise an order with a deduction row
    is refused with AlreadyDeducted; both refusals return the store as it
    was.  After a successful approval, which has written one deduction row
    per required ingredient and lowered each stock by the required amount,
    the second call is refused with AlreadyApproved and leaves the
    ingredient table and the ledger as the first call left them. *)
Theorem C1_approve_twice (s : Store) (u : option RequestUser) (orderId : Z) :
  unauthorised s u = false -> 0 < orderId ->
  (forall order rest,
      selectOrder s orderId = order :: rest ->
      o_approved order = true -> o_status order <> cancelled ->
      approve s u orderId = (Failed AlreadyApproved, s))
  /\ (forall order rest,
      selectOrder s orderId = order :: rest ->
      o_approved order && negb (status_eqb (o_status order) cancelled) = false ->
      hasDeduction s orderId = true ->
      approve s u orderId = (Failed AlreadyDeducted, s))
  /\ (forall msg s1,
      approve s u orderId = (Ok200 msg, s1) ->
      stock_transactions s1
      = stock_transactions s
        ++ map (fun kq => deductionRow orderId (fst kq) (snd kq)) (ingredientUsage s orderId)
      /\ (forall i, (stockOf s1 i == stockOf s i - required (ingredientUsage s orderId) i)%Q)
      /\ approve s1 u orderId = (Failed AlreadyApproved, s1)
      /\ ingredients (snd (approve s1 u orderId)) = ingredients s1
      /\ stock_transactions (snd (approve s1 u orderId)) = stock_transactions s1).
Proof.
  intros Hu Hid. split; [|split].
  - intros order rest. now apply approve_already_approved.
  - intros order rest. now apply approve_already_deducted.
  - intros msg s1 H. apply approve_ok_effect in H.
    destruct H as (_ & Hu1 & (order & rest & Hsel & Ha & Hst) & Htx & Hstock & _).
    assert (H2 : approve s1 u orderId = (Failed AlreadyApproved, s1)).
    { eapply approve_already_approved; eauto. rewrite Hst. discriminate. }
    rewrite H2. simpl. auto.
Qed.

Lemma C1_approve_twice_witness :
  approve Sample.approved1 Sample.admin 1 = (Failed AlreadyApproved, Sample.approved1).
Proof.
  destruct (C1_approve_twice Sample.restaurant Sample.admin 1) as (_ & _ & H);
    [reflexivity | reflexivity |].
  destruct (H "Order approved" Sample.approved1) as (_ & _ & H2 & _);
    [reflexivity | exact H2].
Defined.

Lemma approve_nonneg (s : Store) (u : option RequestUser) (orderId : Z) :
  stockNonNegative s -> stockNonNegative (snd (approve s u orderId)).
Proof.
  intros Hs. unfold approve.
  destruct (unauthorised s u); [exact Hs|].
  destruct (orderId <=? 0); [exact Hs|].
  simpl.
  destruct (selectOrder s orderId) as [|order rest]; [exact Hs|].
  destruct (o_approved order && negb (status_eqb (o_status order) cancelled)); [exact Hs|].
  destruct (hasDeduction s orderId); [exact Hs|].
  destruct (deductStock _ _ _) as [e|c1] eqn:Hded; [exact Hs|].
  simpl. apply deductStock_nonneg in Hded; assumption.
Qed.

Lemma approveAll_nonneg (u : option RequestUser) (orderIds : list Z) (s : Store) :
  stockNonNegative s -> stockNonNegative (approveAll u s orderIds).
Proof.
  revert s. induction orderIds as [|orderId l IH]; intros s Hs; simpl.
  - exact Hs.
  - apply IH. now apply approve_nonneg.
Qed.

(** C10.  [PUT /orders/:id] with [approved = 1], issued by an admin or
    server user for an existing order, answers 200, sets [approved] and the
    status [preparing] on the order, leaves the ingredient table and the
    stock ledger as they were, and consults neither the approved flag nor
    the ledger: issued again it answers 200 again and the store does not
    change any further. *)
Theorem C10_put_approved (s : Store) (u : option RequestUser) (orderId : Z)
    (row : Order) (rows : list Order) :
  unauthorised s u = false -> 0 < orderId ->
  selectOrder s orderId = row :: rows ->
  let s1 := updateOrder orderId true preparing s in
  putOrder s u orderId 1 = (Ok200 "Order status updated", s1)
  /\ (forall o, In o (selectOrder s1 orderId) ->
        o_approved o = true /\ o_status o = preparing)
  /\ selectOrder s1 orderId <> []
  /\ ingredients s1 = ingredients s
  /\ stock_transactions s1 = stock_transactions s
  /\ putOrder s1 u orderId 1 = (Ok200 "Order status updated", s1).
Proof.
  intros Hu Hid Hsel s1.
  assert (Hput : forall w r rs, unauthorised w u = false ->
            selectOrder w orderId = r :: rs ->
            putOrder w u orderId 1
            = (Ok200 "Order status updated", updateOrder orderId true preparing w)).
  { intros w r rs Hw Hr. unfold putOrder. rewrite Hw.
    apply Z.leb_gt in Hid. rewrite Hid. simpl. now rewrite Hr. }
  assert (Hsel1 : selectOrder s1 orderId = map (setApproval true preparing) (row :: rows))
    by (subst s1; now rewrite selectOrder_updateOrder, Hsel).
  split; [eapply Hput; eauto|]. split.
  { intros o Ho. rewrite Hsel1 in Ho. apply in_map_iff in Ho.
    destruct Ho as (o' & <- & _). split; reflexivity. }
  split; [rewrite Hsel1; discriminate|].
  split; [reflexivity|]. split; [reflexivity|].
  rewrite (Hput s1 _ _ (eq_trans (unauthorised_users s s1 u eq_refl) Hu) Hsel1).
  subst s1. now rewrite updateOrder_idem.
Qed.

Lemma C10_put_approved_witness :
  putOrder Sample.approved1 Sample.admin 1 1
  = (Ok200 "Order status updated", updateOrder 1 true preparing Sample.approved1).
Proof.
  destruct (C10_put_approved Sample.approved1 Sample.admin 1
              (setApproval true preparing (Sample.order 1 18)) [])
    as (H & _); [reflexivity | reflexivity | reflexivity | exact H].
Defined.

End LifecycleTheorems.

Section RestorationTheorems.
Import StockLedger Orders.

(** What the restoration loop does when every ingredient is present. *)
Lemma restoreStockLoop_ok (orderId : Z) (usage : UsageMap) (c : Connection) :
  NoDup (keys usage) ->
  (forall i, In i (keys usage) -> selectIngredient (work c) i <> []) ->
  exists c',
    restoreStockLoop orderId usage c = inr c'
    /\ sameButStock (work c) (work c')
    /\ stock_transactions (work c')
       = stock_transactions (work c)
         ++ map (fun kq => restorationRow orderId (fst kq) (snd kq)) usage
    /\ (forall i, (stockOf (work c') i == stockOf (work c) i + required usage i)%Q).
Proof.
  revert c. induction usage as [|[k q] usage IH]; intros c Hnd Hall; simpl.
  - exists c. split; [reflexivity|]. split; [apply sameButStock_refl|].
    split; [now rewrite app_nil_r|]. intros i. unfold required. simpl. ring.
  - inversion Hnd as [|? ? Hnin Hnd']; subst.
    destruct (selectIngredient (work c) k) as [|row rows] eqn:Hsel.
    { exfalso. apply (Hall k); [now left | assumption]. }
    set (c2 := on_work (on_work c (updateStock k (quantity_in_stock row + q)))
                 (insertTransaction (restorationRow orderId k q))).
    assert (Hex : selectIngredient (work c) k <> []) by (rewrite Hsel; discriminate).
    assert (Hstock2 : forall i, stockOf (work c2) i
                      = if k =? i then (quantity_in_stock row + q)%Q else stockOf (work c) i).
    { intros i. subst c2. simpl.
      change (stockOf (insertTransaction (restorationRow orderId k q)
                (updateStock k (quantity_in_stock row + q) (work c))) i)
        with (stockOf (updateStock k (quantity_in_stock row + q) (work c)) i).
      now apply stockOf_updateStock. }
    destruct (IH c2 Hnd') as (c' & Hres & Hsame & Htx & Hstock).
    { intros i Hi. assert (k <> i) by (intros ->; contradiction).
      subst c2. simpl.
      change (selectIngredient (insertTransaction (restorationRow orderId k q)
                (updateStock k (quantity_in_stock row + q) (work c))) i)
        with (selectIngredient (updateStock k (quantity_in_stock row + q) (work c)) i).
      rewrite selectIngredient_updateStock_other by assumption. apply Hall. now right. }
    exists c'. split; [exact Hres|]. split.
    { eapply sameButStock_trans; [|exact Hsame]. subst c2. simpl.
      eapply sameButStock_trans;
        [apply sameButStock_updateStock | apply sameButStock_insertTransaction]. }
    split.
    { rewrite Htx. subst c2. simpl. now rewrite <- app_assoc. }
    intros i. rewrite Hstock, Hstock2, required_cons.
    destruct (k =? i) eqn:E.
    + apply Z.eqb_eq in E. subst i. rewrite required_not_key by assumption.
      unfold stockOf. rewrite Hsel. ring.
    + reflexivity.
Qed.

Lemma cancel_already_cancelled (s : Store) (u : option RequestUser) (orderId : Z)
    (restoreStock : bool) (order : Order) (rest : list Order) :
  unauthorised s u = false -> 0 < orderId ->
  selectOrder s orderId = order :: rest ->
  o_status order = cancelled ->
  cancel s u orderId restoreStock = (Failed AlreadyCancelled, s).
Proof.
  intros Hu Hid Hsel Hst. unfold cancel. rewrite Hu.
  apply Z.leb_gt in Hid. rewrite Hid. simpl. now rewrite Hsel, Hst.
Qed.

Lemma cancel_already_restored (s : Store) (u : option RequestUser) (orderId : Z)
    (order : Order) (rest : list Order) :
  unauthorised s u = false -> 0 < orderId ->
  selectOrder s orderId = order :: rest ->
  o_status order <> cancelled -> o_approved order = true ->
  hasRestoration s orderId = true ->
  cancel s u orderId true = (Failed AlreadyRestored, s).
Proof.
  intros Hu Hid Hsel Hst Ha Hr. unfold cancel. rewrite Hu.
  apply Z.leb_gt in Hid. rewrite Hid. simpl. rewrite Hsel, Ha, Hr.
  destruct (o_status order); try reflexivity. contradiction.
Qed.

(** Cancellation with restoration on an approved, deducted, not yet
    restored order. *)
Lemma cancel_restores (s : Store) (u : option RequestUser) (orderId : Z)
    (order : Order) (rest : list Order) :
  unauthorised s u = false -> 0 < orderId ->
  selectOrder s orderId = order :: rest ->
  o_status order <> cancelled -> o_approved order = true ->
  hasRestoration s orderId = false ->
  hasDeduction s orderId = true ->
  (forall i, In i (keys (ingredientUsage s orderId)) -> selectIngredient s i <> []) ->
  exists s',
    cancel s u orderId true = (Ok200 "Order cancelled", s')
    /\ stock_transactions s'
       = stock_transactions s
         ++ map (fun kq => restorationRow orderId (fst kq) (snd kq))
              (ingredientUsage s orderId)
    /\ (forall i, (stockOf s' i == stockOf s i + required (ingredientUsage s orderId) i)%Q)
    /\ selectOrder s' orderId = map (setApproval false cancelled) (order :: rest)
    /\ users s' = users s.
Proof.
  intros Hu Hid Hsel Hst Ha Hr Hd Hall.
  destruct (restoreStockLoop_ok orderId (ingredientUsage s orderId) (beginTransaction s))
    as (c' & Hres & Hsame & Htx & Hstock);
    [apply NoDup_keys_ingredientUsage | exact Hall |].
  simpl in Hsame, Htx, Hstock.
  exists (updateOrder orderId false cancelled (work c')).
  split.
  { unfold cancel. rewrite Hu. apply Z.leb_gt in Hid. rewrite Hid.
    cbv zeta. change (work (beginTransaction s)) with s.
    rewrite Hsel, Ha, Hr, Hd. simpl.
    assert (Hc : status_eqb (o_status order) cancelled = false)
      by (destruct (o_status order); try reflexivity; contradiction).
    rewrite Hc, Hres. reflexivity. }
  split; [exact Htx|]. split; [exact Hstock|].
  apply sameButStock_fields in Hsame. destruct Hsame as (Husers & Ho & _).
  split; [|exact Husers].
  rewrite selectOrder_updateOrder.
  assert (Ho' : selectOrder (work c') orderId = selectOrder s orderId)
    by (unfold selectOrder; now rewrite Ho).
  now rewrite Ho', Hsel.
Qed.

Lemma hasRestoration_app (s : Store) (orderId : Z) (l : list StockTransaction) :
  hasRestoration (with_stock_transactions s (stock_transactions s ++ l)) orderId
  = hasRestoration s orderId
    || existsb (fun t => Js.opt_eqb (st_order_id t) orderId
                         && String.eqb (st_reason t) restorationReason) l.
Proof. unfold hasRestoration. simpl. apply existsb_app. Qed.

Lemma deductions_not_restorations (orderId : Z) (usage : UsageMap) :
  existsb (fun t => Js.opt_eqb (st_order_id t) orderId
                    && String.eqb (st_reason t) restorationReason)
    (map (fun kq => deductionRow orderId (fst kq) (snd kq)) usage) = false.
Proof.
  induction usage as [|[k q] usage IH]; simpl; [reflexivity|].
  rewrite IH. now rewrite andb_false_r.
Qed.

Lemma deductions_are_deductions (orderId : Z) (usage : UsageMap) :
  0 < orderId -> usage <> [] ->
  existsb (fun t => Js.opt_eqb (st_order_id t) orderId
                    && type_eqb (st_transaction_type t) deduction)
    (map (fun kq => deductionRow orderId (fst kq) (snd kq)) usage) = true.
Proof.
  intros _ Hne. destruct usage as [|[k q] usage]; [contradiction|].
  simpl. now rewrite Z.eqb_refl.
Qed.

(** Approval followed by cancellation with restoration returns every stock
    to what it was. *)
Lemma approve_cancel_roundtrip (s s1 : Store) (u : option RequestUser) (orderId : Z)
    (msg : string) :
  approve s u orderId = (Ok200 msg, s1) ->
  hasRestoration s orderId = false ->
  exists s2,
    cancel s1 u orderId true = (Ok200 "Order cancelled", s2)
    /\ (forall i, (stockOf s2 i == stockOf s i)%Q)
    /\ stock_transactions s2
       = stock_transactions s1
         ++ map (fun kq => restorationRow orderId (fst kq) (snd kq))
              (ingredientUsage s orderId)
    /\ (exists order rest, selectOrder s2 orderId = order :: rest
          /\ o_status order = cancelled /\ o_approved order = false)
    /\ unauthorised s2 u = false.
Proof.
  intros H Hr.
  pose proof (approve_ok_inv _ _ _ _ _ H) as (_ & _ & _ & _ & Hid & _ & _ & Hd & _).
  apply approve_ok_effect in H.
  destruct H as (_ & Hu1 & (order & rest & Hsel & Ha & Hst) & Htx & Hstock & Hall & Husage).
  assert (Hr1 : hasRestoration s1 orderId = false).
  { unfold hasRestoration in *. rewrite Htx, existsb_app, Hr.
    apply deductions_not_restorations. }
  destruct (ingredientUsage s orderId) as [|kq usage] eqn:Hu.
  - (* nothing was required: no deduction row, restoration is skipped *)
    assert (Hd1 : hasDeduction s1 orderId = false).
    { unfold hasDeduction in *. rewrite Htx. simpl. now rewrite app_nil_r. }
    exists (updateOrder orderId false cancelled s1). split.
    { unfold cancel. rewrite Hu1. pose proof Hid as Hid'.
      apply Z.leb_gt in Hid'. rewrite Hid'.
      cbv zeta. change (work (beginTransaction s1)) with s1.
      rewrite Hsel, Ha, Hst, Hr1, Hd1. reflexivity. }
    split.
    { intros i. change (stockOf (updateOrder orderId false cancelled s1) i)
        with (stockOf s1 i). rewrite Hstock. unfold required. simpl. ring. }
    split; [simpl; now rewrite app_nil_r|].
    split; [rewrite selectOrder_updateOrder, Hsel; simpl; eauto|].
    rewrite <- Hu1. now apply unauthorised_users.
  - assert (Hd1 : hasDeduction s1 orderId = true).
    { unfold hasDeduction in *. rewrite Htx, existsb_app, Hd. simpl.
      now rewrite Z.eqb_refl. }
    destruct (cancel_restores s1 u orderId order rest)
      as (s2 & Hc & Htx2 & Hstock2 & Hsel2 & Husers2);
      try assumption.
    { rewrite Hst. discriminate. }
    { rewrite Husage. exact Hall. }
    exists s2. split; [exact Hc|]. split.
    { intros i. rewrite Hstock2, Hstock, Husage. ring. }
    split; [now rewrite Htx2, Husage|].
    split; [rewrite Hsel2; simpl; eauto|].
    rewrite <- Hu1. now apply unauthorised_users.
Qed.

(** The scenario of the specification: two units required, five in stock;
    approval leaves three and one deduction of two, cancellation with
    restoration brings five back with one addition of two. *)
Example scenario_approve_then_cancel :
  stockOf Sample.restaurant 1 = 5%Q
  /\ (stockOf Sample.approved1 1 == 3)%Q
  /\ stock_transactions Sample.approved1 = [deductionRow 1 1 2]
  /\ (stockOf Sample.cancelled1 1 == 5)%Q
  /\ stock_transactions Sample.cancelled1 = [deductionRow 1 1 2; restorationRow 1 1 2].
Proof. repeat split. Qed.

End RestorationTheorems.

(** ** Price verification *)

Section FoundSetFacts.

Lemma mem_In (x : Z) (l : list Z) : Js.mem x l = true <-> In x l.
Proof.
  unfold Js.mem. rewrite existsb_exists. split.
  - intros (y & Hy & E). apply Z.eqb_eq in E. now subst.
  - intros H. exists x. split; [assumption | apply Z.eqb_refl].
Qed.

Lemma NoDup_map_filter {A : Type} (key : A -> Z) (p : A -> bool) (rows : list A) :
  NoDup (map key rows) -> NoDup (map key (filter p rows)).
Proof.
  induction rows as [|r rows IH]; simpl; intros H; [constructor|].
  inversion H as [|? ? Hnin Hnd]; subst.
  destruct (p r); simpl; [|now apply IH].
  constructor; [|now apply IH].
  intros Hin. apply Hnin. apply in_map_iff in Hin. destruct Hin as (r' & E & Hr').
  apply filter_In in Hr'. apply in_map_iff. exists r'. tauto.
Qed.

(** The count rule: when keys are unique, as many found rows as requested
    ids means the found keys are the requested ids, each once. *)
Lemma found_set_is_requested_set {A : Type} (key : A -> Z) (rows : list A) (ids : list Z) :
  NoDup (map key rows) ->
  List.length (filter (fun r => Js.mem (key r) ids) rows) = List.length ids ->
  Permutation (map key (filter (fun r => Js.mem (key r) ids) rows)) ids.
Proof.
  intros Hnd Hlen. apply NoDup_Permutation_bis.
  - now apply NoDup_map_filter.
  - rewrite length_map, Hlen. apply Nat.le_refl.
  - intros k Hk. apply in_map_iff in Hk. destruct Hk as (r & <- & Hr).
    apply filter_In in Hr. now apply mem_In.
Qed.

Lemma requested_ids_distinct {A : Type} (key : A -> Z) (rows : list A) (ids : list Z) :
  NoDup (map key rows) ->
  List.length (filter (fun r => Js.mem (key r) ids) rows) = List.length ids ->
  NoDup ids.
Proof.
  intros Hnd Hlen.
  apply (Permutation_NoDup (found_set_is_requested_set key rows ids Hnd Hlen)).
  now apply NoDup_map_filter.
Qed.

End FoundSetFacts.

Section MenuLineFacts.
Import Pricing.

Lemma filter_filter {A : Type} (p q : A -> bool) (l : list A) :
  filter p (filter q l) = filter (fun x => q x && p x) l.
Proof.
  induction l as [|x l IH]; simpl; [reflexivity|].
  destruct (q x); simpl; [destruct (p x)|]; now rewrite IH.
Qed.

Lemma selectSupplements_split (s : Store) (item_id : Z) (ids : list Z) :
  selectSupplements s item_id ids
  = filter (fun r => Js.mem (mis_supplement_id r) ids) (supplementsOfItem s item_id).
Proof.
  unfold selectSupplements, supplementsOfItem. now rewrite filter_filter.
Qed.

Lemma supplementsOfItem_unique (s : Store) (item_id : Z) :
  supplementKeysUnique s -> NoDup (map mis_supplement_id (supplementsOfItem s item_id)).
Proof.
  unfold supplementKeysUnique, supplementsOfItem.
  induction (menu_item_supplements s) as [|r l IH]; simpl; intros H; [constructor|].
  inversion H as [|? ? Hnin Hnd]; subst.
  destruct (mis_menu_item_id r =? item_id) eqn:E; simpl; [|now apply IH].
  constructor; [|now apply IH].
  intros Hin. apply Hnin. apply in_map_iff in Hin. destruct Hin as (r' & E' & Hr').
  apply filter_In in Hr'. destruct Hr' as (Hr' & Em).
  apply Z.eqb_eq in E, Em. apply in_map_iff. exists r'. split; [|assumption].
  congruence.
Qed.

Lemma additionalPrice_row (s : Store) (item_id : Z) (r : MenuItemSupplement) :
  supplementKeysUnique s ->
  In r (supplementsOfItem s item_id) ->
  additionalPrice s item_id (mis_supplement_id r) = priceOrZero (mis_additional_price r).
Proof.
  intros Hu Hr. unfold additionalPrice.
  replace (filter (fun r0 => (mis_menu_item_id r0 =? item_id)
                             && (mis_supplement_id r0 =? mis_supplement_id r))
             (menu_item_supplements s))
    with (filter (fun r0 => mis_supplement_id r0 =? mis_supplement_id r)
            (supplementsOfItem s item_id))
    by (unfold supplementsOfItem; apply filter_filter).
  apply supplementsOfItem_unique with (item_id := item_id) in Hu.
  induction (supplementsOfItem s item_id) as [|r0 l IH]; [destruct Hr|].
  simpl in Hu. inversion Hu as [|? ? Hnin Hnd]; subst. simpl.
  destruct Hr as [->|Hr].
  - now rewrite Z.eqb_refl.
  - destruct (mis_supplement_id r0 =? mis_supplement_id r) eqn:E.
    + exfalso. apply Hnin. apply Z.eqb_eq in E. rewrite E. now apply in_map.
    + now apply IH.
Qed.

(** Under the count rule the price of the found rows is the sum of the
    additional prices of the requested supplements. *)
Lemma supplementPrice_requested (s : Store) (item : CartItem) :
  supplementKeysUnique s ->
  List.length (selectSupplements s (ci_item_id item) (supplementIdsOf item))
  = List.length (supplementIdsOf item) ->
  (supplementPrice (selectSupplements s (ci_item_id item) (supplementIdsOf item))
   == requestedSupplementsPrice s item)%Q.
Proof.
  intros Hu Hlen. unfold supplementPrice, requestedSupplementsPrice.
  rewrite fold_left_sum. rewrite Qplus_0_l.
  rewrite selectSupplements_split in *.
  set (found := filter (fun r => Js.mem (mis_supplement_id r) (supplementIdsOf item))
                  (supplementsOfItem s (ci_item_id item))) in *.
  transitivity (StockLedger.sumQ
                  (map (additionalPrice s (ci_item_id item)) (map mis_supplement_id found))).
  - rewrite map_map.
    rewrite (map_ext_in (fun r => priceOrZero (mis_additional_price r))
               (fun r => additionalPrice s (ci_item_id item) (mis_supplement_id r)) found).
    + reflexivity.
    + intros r Hr. symmetry. apply additionalPrice_row; [assumption|].
      subst found. apply filter_In in Hr. tauto.
  - apply sumQ_perm. apply Permutation_map. subst found.
    apply found_set_is_requested_set; [|assumption].
    now apply supplementsOfItem_unique.
Qed.

Lemma differs_true (a b : Q) : Js.differs a b = true <-> (1 # 100 < Qabs (a - b))%Q.
Proof. unfold Js.differs. apply lt_true_iff. Qed.

Lemma differs_false (a b : Q) : Js.differs a b = false <-> (Qabs (a - b) <= 1 # 100)%Q.
Proof.
  unfold Js.differs. split.
  - apply lt_false_le.
  - intros H. destruct (Js.lt (1 # 100) (Qabs (a - b))) eqn:E; [|reflexivity].
    apply lt_true_lt in E. exfalso. exact (Qlt_not_le _ _ E H).
Qed.

End MenuLineFacts.

(** The two scenarios of the specification: two espressos at 9.00 are
    accepted with a line total of 18.00; claimed at 9.50 they are refused,
    expected 9.00. *)
Example scenario_price_accepted :
  Pricing.verifyItems Sample.restaurant
    [{| ci_item_id := 5; ci_quantity := 2; ci_unit_price := 9;
        ci_supplement_ids := []; ci_supplement_id := None |}] 0
  = inr (0 + 9 * inject_Z 2)%Q.
Proof. reflexivity. Qed.

Example scenario_price_refused :
  Pricing.verifyItems Sample.restaurant
    [{| ci_item_id := 5; ci_quantity := 2; ci_unit_price := 19 # 2;
        ci_supplement_ids := []; ci_supplement_id := None |}] 0
  = inl (PriceMismatch 5 9 (19 # 2)).
Proof. reflexivity. Qed.

(** ** Option-group obligations of a breakfast line *)

Section OptionGroupFacts.
Import Pricing.

Lemma NoDup_map_In_inj {A : Type} (key : A -> Z) (l : list A) (x y : A) :
  NoDup (map key l) -> In x l -> In y l -> key x = key y -> x = y.
Proof.
  induction l as [|a l IH]; simpl; intros Hnd Hx Hy E; [destruct Hx|].
  inversion Hnd as [|? ? Hnin Hnd']; subst.
  destruct Hx as [->|Hx], Hy as [->|Hy]; auto.
  - exfalso. apply Hnin. rewrite E. now apply in_map.
  - exfalso. apply Hnin. rewrite <- E. now apply in_map.
Qed.

Lemma selectGroups_from_table (s : Store) (breakfast_id : Z) (g : GroupRow) :
  In g (selectGroups s breakfast_id) ->
  exists row, In row (breakfast_option_groups s) /\ g = groupRow row.
Proof.
  unfold selectGroups. rewrite nodup_In, in_app_iff, !in_map_iff.
  intros [(row & <- & H)|(row & <- & H)]; apply filter_In in H; exists row; tauto.
Qed.

Lemma selectGroups_keys (s : Store) (breakfast_id : Z) :
  groupKeysUnique s -> NoDup (map g_id (selectGroups s breakfast_id)).
Proof.
  intros Hu. apply NoDup_map_NoDup_ForallPairs.
  - intros g1 g2 H1 H2 E.
    apply selectGroups_from_table in H1, H2.
    destruct H1 as (r1 & Hr1 & ->), H2 as (r2 & Hr2 & ->).
    f_equal. eapply NoDup_map_In_inj; eauto.
  - unfold selectGroups. apply NoDup_nodup.
Qed.

Lemma filter_by_key_of_filter {A : Type} (key : A -> Z) (p : A -> bool) (l : list A) :
  NoDup (map key l) ->
  filter (fun x => Js.mem (key x) (map key (filter p l))) l = filter p l.
Proof.
  intros Hnd. apply filter_ext_in. intros x Hx.
  destruct (p x) eqn:Hp.
  - apply mem_In. apply in_map. apply filter_In. tauto.
  - destruct (Js.mem (key x) (map key (filter p l))) eqn:Hm; [|reflexivity].
    apply mem_In in Hm. apply in_map_iff in Hm. destruct Hm as (y & E & Hy).
    apply filter_In in Hy. destruct Hy as (Hy & Hpy).
    assert (y = x) by (eapply NoDup_map_In_inj; eauto). congruence.
Qed.

(** The ids the handler calls [missingRequiredGroups] are the ids of the
    required groups that no selected option touches. *)
Lemma missing_ids (groups : list GroupRow) (options : list BreakfastOption) :
  filter (fun g => negb (Js.mem g (map bo_group_id options)))
    (map g_id (filter g_is_required groups))
  = map g_id (untouchedRequired groups options).
Proof.
  unfold untouchedRequired. rewrite filter_map_swap, filter_filter. reflexivity.
Qed.

Lemma untouched_nil (groups : list GroupRow) (options : list BreakfastOption) :
  untouchedRequired groups options = [] <->
  (forall g, In g groups -> g_is_required g = true ->
     exists o, In o options /\ bo_group_id o = g_id g).
Proof.
  unfold untouchedRequired. split.
  - intros Hnil g Hg Hreq.
    destruct (Js.mem (g_id g) (map bo_group_id options)) eqn:Hm.
    + apply mem_In in Hm. apply in_map_iff in Hm. destruct Hm as (o & E & Ho). eauto.
    + exfalso.
      assert (Hin : In g (filter (fun g => g_is_required g
                 && negb (Js.mem (g_id g) (map bo_group_id options))) groups)).
      { apply filter_In. split; [assumption|]. now rewrite Hreq, Hm. }
      rewrite Hnil in Hin. destruct Hin.
  - intros H.
    destruct (filter _ groups) as [|g l] eqn:Hf; [reflexivity|]. exfalso.
    assert (Hin : In g (g :: l)) by now left.
    rewrite <- Hf in Hin. apply filter_In in Hin. destruct Hin as (Hg & Hb).
    apply andb_true_iff in Hb. destruct Hb as (Hreq & Hm).
    destruct (H g Hg Hreq) as (o & Ho & E).
    apply negb_true_iff in Hm.
    assert (Hm' : Js.mem (g_id g) (map bo_group_id options) = true).
    { apply mem_In. rewrite <- E. now apply in_map. }
    congruence.
Qed.

Lemma checkOptionGroups_selected (s : Store) (breakfast_id id0 : Z) (ids : list Z) :
  groupKeysUnique s ->
  let groups := selectGroups s breakfast_id in
  let options := selectOptions s breakfast_id (id0 :: ids) in
  List.length options = List.length (id0 :: ids) ->
  checkOptionGroups s breakfast_id (Some (id0 :: ids))
  = match untouchedRequired groups options with
    | [] => inr (optionPrice options)
    | _ :: _ =>
        inl (MissingRequiredGroup breakfast_id
               (map titleOf (untouchedRequired groups options)))
    end.
Proof.
  intros Hu groups options Hlen. unfold checkOptionGroups.
  fold groups. fold options. rewrite Hlen, Nat.eqb_refl. cbn [negb].
  rewrite missing_ids. unfold untouchedRequired.
  rewrite filter_by_key_of_filter by (now apply selectGroups_keys).
  now destruct (filter _ groups).
Qed.

End OptionGroupFacts.

(** C8.  For a breakfast line, with [groups] the option groups of the
    breakfast that have options: (1) without option ids, when required
    groups exist the line is refused with the list of all required groups;
    (2) with option ids that are all found, the line passes the group check
    exactly when every required group holds a selected option, and is
    otherwise refused naming the required groups left untouched; (3) with
    one required and one optional group, a selection holding an option of
    the required group passes whether or not the optional group is touched,
    and a selection holding none is refused naming the required group. *)
Theorem C8_required_groups (s : Store) (breakfast_id : Z) :
  Pricing.groupKeysUnique s ->
  let groups := Pricing.selectGroups s breakfast_id in
  let required := filter Pricing.g_is_required groups in
  (forall option_ids,
      option_ids = None \/ option_ids = Some [] ->
      required <> [] ->
      Pricing.checkOptionGroups s breakfast_id option_ids
      = inl (RequiredGroupsUnselected breakfast_id (List.length required)
               (map Pricing.titleOf required)))
  /\ (forall id0 ids,
        let options := Pricing.selectOptions s breakfast_id (id0 :: ids) in
        List.length options = List.length (id0 :: ids) ->
        ((forall g, In g groups -> Pricing.g_is_required g = true ->
            exists o, In o options /\ bo_group_id o = Pricing.g_id g) ->
         Pricing.checkOptionGroups s breakfast_id (Some (id0 :: ids))
         = inr (Pricing.optionPrice options))
        /\ (Pricing.untouchedRequired groups options <> [] ->
            Pricing.checkOptionGroups s breakfast_id (Some (id0 :: ids))
            = inl (MissingRequiredGroup breakfast_id
                     (map Pricing.titleOf (Pricing.untouchedRequired groups options)))))
  /\ (forall gr go id0 ids,
        groups = [gr; go] \/ groups = [go; gr] ->
        Pricing.g_is_required gr = true -> Pricing.g_is_required go = false ->
        let options := Pricing.selectOptions s breakfast_id (id0 :: ids) in
        List.length options = List.length (id0 :: ids) ->
        ((exists o, In o options /\ bo_group_id o = Pricing.g_id gr) ->
         Pricing.checkOptionGroups s breakfast_id (Some (id0 :: ids))
         = inr (Pricing.optionPrice options))
        /\ ((forall o, In o options -> bo_group_id o <> Pricing.g_id gr) ->
            Pricing.checkOptionGroups s breakfast_id (Some (id0 :: ids))
            = inl (MissingRequiredGroup breakfast_id [Pricing.titleOf gr]))).
Proof.
  intros Hu groups required. split; [|split].
  - intros option_ids Hnone Hreq. unfold Pricing.checkOptionGroups.
    fold groups.
    assert (Hbody :
      match groups with
      | [] => inr 0%Q
      | _ :: _ =>
          match filter Pricing.g_is_required groups with
          | [] => inr 0%Q
          | _ :: _ =>
              inl (RequiredGroupsUnselected breakfast_id
                     (List.length (filter Pricing.g_is_required groups))
                     (map Pricing.titleOf (filter Pricing.g_is_required groups)))
          end
      end
      = (inl (RequiredGroupsUnselected breakfast_id (List.length required)
               (map Pricing.titleOf required)) : Error + Q)).
    { subst required. destruct groups as [|g gs] eqn:Hg.
      - exfalso. apply Hreq. reflexivity.
      - destruct (filter Pricing.g_is_required (g :: gs)); [contradiction | reflexivity]. }
    destruct Hnone as [->| ->]; exact Hbody.
  - intros id0 ids options Hlen.
    pose proof (checkOptionGroups_selected s breakfast_id id0 ids Hu Hlen) as Hc.
    fold groups in Hc. fold options in Hc. split.
    + intros Hall. apply untouched_nil in Hall. now rewrite Hc, Hall.
    + intros Hne. rewrite Hc.
      destruct (Pricing.untouchedRequired groups options); [contradiction | reflexivity].
  - intros gr go id0 ids Hgroups Hr Ho options Hlen.
    pose proof (checkOptionGroups_selected s breakfast_id id0 ids Hu Hlen) as Hc.
    fold groups in Hc. fold options in Hc. split.
    + intros (o & Hin & E).
      assert (Hm : Js.mem (Pricing.g_id gr) (map bo_group_id options) = true).
      { apply mem_In. rewrite <- E. now apply in_map. }
      rewrite Hc. unfold Pricing.untouchedRequired.
      destruct Hgroups as [-> | ->]; simpl; now rewrite Hr, Ho, Hm.
    + intros Hnone.
      assert (Hm : Js.mem (Pricing.g_id gr) (map bo_group_id options) = false).
      { destruct (Js.mem _ _) eqn:Hm; [|reflexivity]. exfalso.
        apply mem_In in Hm. apply in_map_iff in Hm. destruct Hm as (o & E & Hin).
        exact (Hnone o Hin E). }
      rewrite Hc. unfold Pricing.untouchedRequired.
      destruct Hgroups as [-> | ->]; simpl; now rewrite Hr, Ho, Hm.
Qed.

Lemma C8_required_groups_witness :
  Pricing.checkOptionGroups Sample.restaurant 1 None
  = inl (RequiredGroupsUnselected 1 1 ["Drink"])
  /\ Pricing.checkOptionGroups Sample.restaurant 1 (Some [1]) = inr 0%Q
  /\ Pricing.checkOptionGroups Sample.restaurant 1 (Some [1; 2]) = inr (0 + 0 + 2)%Q
  /\ Pricing.checkOptionGroups Sample.restaurant 1 (Some [2])
     = inl (MissingRequiredGroup 1 ["Drink"]).
Proof.
  assert (Hu : Pricing.groupKeysUnique Sample.restaurant).
  { unfold Pricing.groupKeysUnique. simpl.
    constructor; [simpl; intuition discriminate|].
    constructor; [intros [] | constructor]. }
  destruct (C8_required_groups Sample.restaurant 1 Hu) as (H1 & _ & H3).
  split; [apply (H1 None); [now left | discriminate]|].
  split; [|split].
  - apply (H3 (1, true, "Drink") (2, false, "Extra") 1 []);
      [now left | reflexivity | reflexivity | reflexivity |].
    eexists. split; [now left | reflexivity].
  - apply (H3 (1, true, "Drink") (2, false, "Extra") 1 [2]);
      [now left | reflexivity | reflexivity | reflexivity |].
    eexists. split; [now left | reflexivity].
  - apply (H3 (1, true, "Drink") (2, false, "Extra") 2 []);
      [now left | reflexivity | reflexivity | reflexivity |].
    intros o [<-|[]]. discriminate.
Defined.

(** ** Coalescing of breakfast lines *)

Section CoalescingFacts.
Import Pricing.

Lemma filter_key_absent (table : list OptionGroup) (k : Z) :
  ~ In k (map bog_id table) -> filter (fun g => bog_id g =? k) table = [].
Proof.
  induction table as [|g l IH]; simpl; intros H; [reflexivity|].
  destruct (bog_id g =? k) eqn:E.
  - exfalso. apply H. left. now apply Z.eqb_eq.
  - apply IH. intros Hin. apply H. now right.
Qed.

Lemma filter_key_le_one (table : list OptionGroup) (k : Z) :
  NoDup (map bog_id table) ->
  (List.length (filter (fun g => (bog_id g =? k)%Z) table) <= 1)%nat.
Proof.
  induction table as [|g l IH]; simpl; intros H; [lia|].
  inversion H as [|? ? Hnin Hnd]; subst.
  destruct (bog_id g =? k) eqn:E; [|now apply IH].
  apply Z.eqb_eq in E. subst k. simpl.
  rewrite filter_key_absent by assumption. simpl. lia.
Qed.

Lemma length_filter_and {A : Type} (p q : A -> bool) (l : list A) :
  (List.length (filter (fun x => p x && q x) l) <= List.length (filter q l))%nat.
Proof.
  induction l as [|x l IH]; simpl; [lia|].
  destruct (p x), (q x); simpl; lia.
Qed.

Lemma selectOptions_length (s : Store) (breakfast_id : Z) (ids : list Z) :
  groupKeysUnique s ->
  (List.length (selectOptions s breakfast_id ids)
   <= List.length (filter (fun bo => Js.mem (bo_id bo) ids) (breakfast_options s)))%nat.
Proof.
  intros Hg. unfold selectOptions.
  eapply Nat.le_trans; [|apply (length_filter_and
     (fun bo => match bo_breakfast_id bo with Some b => b =? breakfast_id | None => true end))].
  induction (filter _ (breakfast_options s)) as [|bo l IH]; simpl; [lia|].
  rewrite length_app, length_map.
  pose proof (filter_key_le_one (breakfast_option_groups s) (bo_group_id bo) Hg). lia.
Qed.

(** A breakfast line whose option ids are all found lists no id twice. *)
Lemma found_options_distinct (s : Store) (breakfast_id : Z) (ids : list Z) :
  optionKeysUnique s -> groupKeysUnique s ->
  List.length (selectOptions s breakfast_id ids) = List.length ids ->
  NoDup ids.
Proof.
  intros Ho Hg Hlen.
  apply (requested_ids_distinct bo_id (breakfast_options s) ids Ho).
  apply Nat.le_antisymm.
  - apply (NoDup_map_filter bo_id (fun r => Js.mem (bo_id r) ids)) in Ho.
    rewrite <- (length_map bo_id). apply NoDup_incl_length; [assumption|].
    intros k Hk. apply in_map_iff in Hk. destruct Hk as (r & <- & Hr).
    apply filter_In in Hr. now apply mem_In.
  - rewrite <- Hlen. now apply selectOptions_length.
Qed.

Lemma checkOptionGroups_distinct (s : Store) (breakfast_id : Z) (option_ids : option (list Z))
    (price : Q) :
  optionKeysUnique s -> groupKeysUnique s ->
  checkOptionGroups s breakfast_id option_ids = inr price ->
  NoDup (match option_ids with Some ids => ids | None => [] end).
Proof.
  intros Ho Hg. unfold checkOptionGroups.
  destruct option_ids as [[|id0 ids]|]; [intros _; constructor | | intros _; constructor].
  destruct (negb (List.length (selectOptions s breakfast_id (id0 :: ids))
                  =? List.length (id0 :: ids))%nat) eqn:E; [discriminate|].
  intros _. apply negb_false_iff, Nat.eqb_eq in E.
  eapply found_options_distinct; eassumption.
Qed.

Lemma verifyBreakfast_inv (s : Store) (m m' : list BreakfastEntry) (t t' : Q)
    (item : BreakfastCartItem) :
  optionKeysUnique s -> groupKeysUnique s ->
  verifyBreakfast s (m, t) item = inr (m', t') ->
  NoDup (optionIdsOf item) /\ exists price, m' = coalesce m item price.
Proof.
  intros Ho Hg. unfold verifyBreakfast.
  destruct (bi_breakfast_id item <=? 0); [discriminate|].
  destruct (bi_quantity item <=? 0); [discriminate|].
  destruct (Qle_bool (bi_unit_price item) 0); [discriminate|].
  destruct (selectBreakfast s (bi_breakfast_id item)) as [|b bs]; [discriminate|].
  destruct (negb (b_availability b)); [discriminate|].
  destruct (checkOptionGroups s (bi_breakfast_id item) (bi_option_ids item)) as [e|p] eqn:Hc;
    [discriminate|].
  destruct (Js.lt (bi_unit_price item + (1 # 100)) (b_price b + p)); [discriminate|].
  intros H. inversion H; subst. split; [|eauto].
  unfold optionIdsOf. eapply checkOptionGroups_distinct; eassumption.
Qed.

Lemma keys_mapModify (m : list BreakfastEntry) (b : Z) (f : BreakfastEntry -> BreakfastEntry) :
  (forall e, be_breakfast_id (f e) = be_breakfast_id e) ->
  map be_breakfast_id (mapModify m b f) = map be_breakfast_id m.
Proof.
  intros Hf. induction m as [|e m IH]; simpl; [reflexivity|].
  destruct (be_breakfast_id e =? b); simpl; [now rewrite Hf | now rewrite IH].
Qed.

Lemma Forall_mapModify (P Q' : BreakfastEntry -> Prop) (m : list BreakfastEntry) (b : Z)
    (f : BreakfastEntry -> BreakfastEntry) :
  NoDup (map be_breakfast_id m) ->
  (forall e, be_breakfast_id e <> b -> P e -> Q' e) ->
  (forall e, be_breakfast_id e = b -> P e -> Q' (f e)) ->
  Forall P m -> Forall Q' (mapModify m b f).
Proof.
  intros Hnd Hother Hsame. induction m as [|e m IH]; simpl; intros HP; [constructor|].
  inversion HP as [|? ? He Hm]; subst. inversion Hnd as [|? ? Hnin Hnd']; subst.
  destruct (be_breakfast_id e =? b) eqn:E.
  - apply Z.eqb_eq in E. constructor; [now apply Hsame|].
    rewrite Forall_forall in *. intros e' He'. apply Hother; [|now apply Hm].
    intros E'. apply Hnin. rewrite E, <- E'. now apply in_map.
  - apply Z.eqb_neq in E. constructor; [now apply Hother | now apply IH].
Qed.

Lemma linesOf_snoc (b : Z) (pre : list BreakfastCartItem) (item : BreakfastCartItem) :
  linesOf b (pre ++ [item])
  = linesOf b pre ++ (if bi_breakfast_id item =? b then [item] else []).
Proof. unfold linesOf. now rewrite filter_app. Qed.

Lemma linesOf_absent (b : Z) (pre : list BreakfastCartItem) :
  ~ In b (map bi_breakfast_id pre) -> linesOf b pre = [].
Proof.
  unfold linesOf. induction pre as [|l pre IH]; simpl; intros H; [reflexivity|].
  destruct (bi_breakfast_id l =? b) eqn:E.
  - exfalso. apply H. left. now apply Z.eqb_eq.
  - apply IH. intros Hin. apply H. now right.
Qed.

Lemma sum_app (l1 l2 : list Z) :
  fold_right Z.add 0 (l1 ++ l2) = fold_right Z.add 0 l1 + fold_right Z.add 0 l2.
Proof. induction l1 as [|x l1 IH]; simpl; lia. Qed.

Lemma entryOf_other (pre : list BreakfastCartItem) (item : BreakfastCartItem)
    (e : BreakfastEntry) :
  be_breakfast_id e <> bi_breakfast_id item ->
  entryOf pre e -> entryOf (pre ++ [item]) e.
Proof.
  intros Hne (Hq & Hnd & Hin). unfold entryOf, totalQuantity, requestedOptions.
  rewrite linesOf_snoc.
  assert (E : (bi_breakfast_id item =? be_breakfast_id e) = false)
    by (apply Z.eqb_neq; congruence).
  rewrite E, app_nil_r. repeat split; try assumption; apply Hin.
Qed.

Lemma entryOf_merge (pre : list BreakfastCartItem) (item : BreakfastCartItem)
    (e : BreakfastEntry) :
  NoDup (optionIdsOf item) ->
  be_breakfast_id e = bi_breakfast_id item ->
  entryOf pre e ->
  entryOf (pre ++ [item]) (mergeLine (bi_quantity item) (bi_option_ids item) e).
Proof.
  intros Hids Heq (Hq & Hnd & Hin). unfold entryOf, totalQuantity, requestedOptions.
  cbn [be_breakfast_id be_quantity be_option_ids mergeLine].
  rewrite linesOf_snoc, Heq, Z.eqb_refl, map_app, sum_app, flat_map_app.
  cbn [map fold_right flat_map]. rewrite app_nil_r.
  rewrite <- Heq. fold (totalQuantity (be_breakfast_id e) pre).
  fold (requestedOptions (be_breakfast_id e) pre).
  split; [rewrite Hq; lia|].
  assert (Hshape :
    match bi_option_ids item with
    | Some ids => be_option_ids e ++ filter (fun id => negb (Js.mem id (be_option_ids e))) ids
    | None => be_option_ids e
    end
    = be_option_ids e
      ++ filter (fun id => negb (Js.mem id (be_option_ids e))) (optionIdsOf item)).
  { unfold optionIdsOf. destruct (bi_option_ids item); [reflexivity|].
    simpl. now rewrite app_nil_r. }
  rewrite Hshape. split.
  - apply NoDup_app; [assumption | now apply NoDup_filter |].
    intros o Ho Hf. apply filter_In in Hf. destruct Hf as (_ & Hm).
    apply negb_true_iff in Hm.
    assert (Js.mem o (be_option_ids e) = true) by now apply mem_In. congruence.
  - intros o. rewrite !in_app_iff, filter_In, <- Hin. split.
    + intros [H|(H & _)]; auto.
    + intros [H|H]; auto.
      destruct (Js.mem o (be_option_ids e)) eqn:Hm.
      * left. now apply mem_In.
      * right. split; [assumption | reflexivity].
Qed.

Lemma mapHas_In (m : list BreakfastEntry) (b : Z) :
  mapHas m b = true <-> In b (map be_breakfast_id m).
Proof.
  unfold mapHas. rewrite existsb_exists, in_map_iff. split.
  - intros (e & He & E). apply Z.eqb_eq in E. eauto.
  - intros (e & E & He). exists e. split; [assumption|]. now apply Z.eqb_eq.
Qed.

Lemma coalesce_inv (pre : list BreakfastCartItem) (m : list BreakfastEntry)
    (item : BreakfastCartItem) (price : Q) :
  NoDup (optionIdsOf item) ->
  coalesced pre m -> coalesced (pre ++ [item]) (coalesce m item price).
Proof.
  intros Hids (Hnd & Hkeys & Hall). unfold coalesce.
  set (b := bi_breakfast_id item).
  set (fresh := {| be_breakfast_id := b; be_quantity := 0;
                   be_unit_price := price; be_option_ids := [] |}).
  set (m1 := if negb (mapHas m b) then m ++ [fresh] else m).
  assert (Hm1 : NoDup (map be_breakfast_id m1)
                /\ (forall x, In x (map be_breakfast_id m1)
                              <-> In x (map bi_breakfast_id (pre ++ [item])))
                /\ Forall (entryOf pre) m1).
  { subst m1. destruct (mapHas m b) eqn:Hhas; simpl.
    - apply mapHas_In in Hhas. split; [assumption|]. split; [|assumption].
      intros x. rewrite map_app, in_app_iff, <- Hkeys. simpl. split; [auto|].
      intros [H|[<-|[]]]; assumption.
    - assert (Hnin : ~ In b (map be_breakfast_id m)).
      { intros H. apply mapHas_In in H. congruence. }
      split; [|split].
      + rewrite map_app. apply NoDup_app; [assumption | repeat constructor; intros [] |].
        intros x Hx [<-|[]]. contradiction.
      + intros x. rewrite !map_app, !in_app_iff, Hkeys. reflexivity.
      + apply Forall_app. split; [assumption|]. constructor; [|constructor].
        unfold entryOf, totalQuantity, requestedOptions. subst fresh. simpl.
        rewrite linesOf_absent by (now rewrite <- Hkeys). simpl.
        repeat split; [constructor | intros [] | intros []]. }
  destruct Hm1 as (Hnd1 & Hkeys1 & Hall1).
  assert (Hid : forall e, be_breakfast_id
                  (mergeLine (bi_quantity item) (bi_option_ids item) e) = be_breakfast_id e)
    by reflexivity.
  split; [|split].
  - now rewrite keys_mapModify.
  - intros x. now rewrite keys_mapModify.
  - eapply Forall_mapModify; [exact Hnd1 | | | exact Hall1].
    + intros e Hne. now apply entryOf_other.
    + intros e Heq. now apply entryOf_merge.
Qed.

Lemma verifyBreakfasts_inv (s : Store) (items pre : list BreakfastCartItem)
    (m m' : list BreakfastEntry) (t t' : Q) :
  optionKeysUnique s -> groupKeysUnique s ->
  coalesced pre m ->
  verifyBreakfasts s items (m, t) = inr (m', t') ->
  coalesced (pre ++ items) m'.
Proof.
  intros Ho Hg. revert pre m t.
  induction items as [|item items IH]; intros pre m t Hc H; cbn [verifyBreakfasts] in H.
  - inversion H; subst. now rewrite app_nil_r.
  - destruct (verifyBreakfast s (m, t) item) as [e|[m1 t1]] eqn:Hv; [discriminate|].
    apply verifyBreakfast_inv in Hv; try assumption.
    destruct Hv as (Hids & price & ->).
    replace (pre ++ item :: items) with ((pre ++ [item]) ++ items)
      by (now rewrite <- app_assoc).
    eapply IH; [|exact H]. now apply coalesce_inv.
Qed.

(** The rows the insertion loop over [breakfastMap] writes. *)
Lemma insertBreakfasts_rows (orderId : Z) (bmap : list BreakfastEntry) (w : Store) :
  exists rows,
    order_items (fold_left (Admission.insertBreakfast orderId) bmap w)
    = order_items w ++ rows
    /\ Forall2 (fun oi e =>
                  oi_order_id oi = orderId /\ oi_item_id oi = None
                  /\ oi_breakfast_id oi = Some (be_breakfast_id e)
                  /\ oi_quantity oi = be_quantity e
                  /\ oi_unit_price oi = be_unit_price e)
         rows bmap
    /\ breakfast_order_options (fold_left (Admission.insertBreakfast orderId) bmap w)
       = breakfast_order_options w
         ++ flat_map
              (fun p => map (fun optionId =>
                               {| boo_order_item_id := oi_id (fst p);
                                  boo_breakfast_option_id := optionId |})
                          (be_option_ids (snd p)))
              (combine rows bmap).
Proof.
  revert w. induction bmap as [|e bmap IH]; intros w; simpl.
  - exists []. rewrite !app_nil_r. repeat split. constructor.
  - destruct (IH (Admission.insertBreakfast orderId w e)) as (rows & Hoi & Hrows & Hboo).
    eexists (_ :: rows). split; [|split].
    + rewrite Hoi. unfold Admission.insertBreakfast. simpl.
      rewrite <- app_assoc. reflexivity.
    + constructor; [|exact Hrows]. simpl. repeat split.
    + rewrite Hboo. unfold Admission.insertBreakfast. simpl.
      rewrite <- app_assoc. reflexivity.
Qed.

End CoalescingFacts.

(** The map handed to the transaction by a verified cart. *)
Lemma breakfastMap_coalesced (s : Store) (lines : list BreakfastCartItem)
    (afterItems total : Q) (breakfastMap : list BreakfastEntry) :
  Pricing.optionKeysUnique s -> Pricing.groupKeysUnique s ->
  Pricing.verifyBreakfasts s lines ([], afterItems) = inr (breakfastMap, total) ->
  Pricing.coalesced lines breakfastMap.
Proof.
  intros Ho Hg Hv.
  change lines with ([] ++ lines). eapply verifyBreakfasts_inv; try eassumption.
  split; [constructor|]. split; [reflexivity | constructor].
Qed.

(** ** Promotion overlay *)

Section PromotionFacts.
Import Pricing.






Lemma applyPromotion_error (s : Store) (now : Z) (pid : option Z) (items : list CartItem)
    (bitems : list BreakfastCartItem) (previous : Q) (e : Error) :
  applyPromotion s now pid items bitems previous = inl e -> e = InternalError.
Proof.
  assert (Hi : forall promo l acc, promoItems s promo l acc = inl e -> e = InternalError).
  { intros promo l. induction l as [|i l IH]; intros acc; simpl; [discriminate|].
    destruct (promoItem s promo acc i) as [e1|t] eqn:Hp; [|apply IH].
    unfold promoItem in Hp. destruct (selectMenuItem s (ci_item_id i)); [|discriminate].
    intros H. congruence. }
  assert (Hb : forall l acc, promoBreakfasts s l acc = inl e -> e = InternalError).
  { intros l. induction l as [|i l IH]; intros acc; simpl; [discriminate|].
    destruct (promoBreakfast s acc i) as [e1|t] eqn:Hp; [|apply IH].
    unfold promoBreakfast in Hp.
    destruct (selectBreakfast s (bi_breakfast_id i)); [intros H; congruence|].
    destruct (bi_option_ids i) as [[|? ?]|]; try discriminate. intros H. congruence. }
  unfold applyPromotion. destruct pid as [pid|]; [|discriminate].
  destruct (Js.truthy (Some pid)); [|discriminate].
  destruct (selectActivePromotion s now pid) as [|promo ps]; [discriminate|].
  destruct (promoItems s promo items 0) as [e1|t] eqn:Hp.
  - intros H. inversion H; subst. eapply Hi; eassumption.
  - apply Hb.
Qed.

End PromotionFacts.




(** ** Rejected submissions *)

Section AdmissionFacts.
Import StockLedger Orders Pricing Admission.

Lemma deductStock_error (orderId : Z) (usage : UsageMap) (c : Connection) (e : Error) :
  deductStock orderId usage c = inl e -> afterTableStage e = true.
Proof.
  revert c. induction usage as [|[k q] usage IH]; intros c; simpl; [discriminate|].
  destruct (selectIngredient (work c) k) as [|row rows]; [now inversion 1|].
  destruct (Js.lt (quantity_in_stock row) q); [now inversion 1 | apply IH].
Qed.

Lemma persistOrder_failed (s s' : Store) (r : OrderRequest) (session : string)
    (ot : OrderType) (total : Q) (tid : option Z) (bmap : list BreakfastEntry) (e : Error) :
  persistOrder s r session ot total tid bmap = (Failed e, s') ->
  s' = s /\ afterTableStage e = true.
Proof.
  unfold persistOrder. cbv zeta.
  destruct (isStaffRequest r).
  - match goal with
    | |- context [deductStock ?a ?b ?c] => destruct (deductStock a b c) as [e1|c5] eqn:Hd
    end.
    + intros H. inversion H; subst. split; [reflexivity|].
      eapply deductStock_error; eassumption.
    + discriminate.
  - discriminate.
Qed.

Lemma resolveTable_ok (s s2 : Store) (r : OrderRequest) (tid : option Z) :
  resolveTable s r = inr (s2, tid) ->
  s2 = s
  \/ (order_type r = Some local
      /\ exists tableId, s2 = with_tables s (markOccupied tableId (tables s))).
Proof.
  unfold resolveTable.
  destruct (order_type r) as [[| | |]|]; try (inversion 1; now left).
  destruct (table_id r) as [t|]; [|inversion 1; now left].
  destruct (Js.truthy (Some t)); [|inversion 1; now left].
  destruct (filter _ (tables s)) as [|rec recs]; [discriminate|].
  destruct (t_status rec); [|inversion 1; now left | discriminate].
  inversion 1; subst. right. split; [reflexivity | eauto].
Qed.

(** Where a rejected submission leaves the store: as it was, or with the
    expired rate-limit rows purged, or, for the rejections issued after
    the table stage, as the table stage left it. *)
Lemma postOrders_failed_store (sv sv' : Server) (r : OrderRequest) (e : Error) :
  postOrders sv r = (Failed e, sv') ->
  let s1 := if isStaffRequest r then store sv else purgeLimits (now r) (store sv) in
  store sv' = store sv
  \/ store sv' = s1
  \/ (afterTableStage e = true
      /\ exists s2 tid, resolveTable s1 r = inr (s2, tid) /\ store sv' = s2).
Proof.
  unfold postOrders. cbv zeta.
  destruct (negb (isStaffRequest r) && _); [inversion 1; now left|].
  set (s1 := if isStaffRequest r then store sv else purgeLimits (now r) (store sv)).
  destruct (negb (isStaffRequest r) && _); [inversion 1; right; now left|].
  destruct (sessionId r) as [session|]; [|inversion 1; right; now left].
  destruct (blank (Some session)); [inversion 1; right; now left|].
  destruct (existsb _ (recentRequests sv)); [inversion 1; right; now left|].
  assert (Hrest : forall ot,
    (if match ot with local => negb (Js.truthy (table_id r)) | _ => false end
     then (Failed TableIdRequired,
           {| store := s1; recentRequests := recentRequests sv ++ [orderHash r] |})
     else if match ot with delivery => blank (delivery_address r) | _ => false end
     then (Failed DeliveryAddressRequired,
           {| store := s1; recentRequests := recentRequests sv ++ [orderHash r] |})
     else
       match verifyItems s1 (items r) 0 with
       | inl e0 => (Failed e0,
                    {| store := s1; recentRequests := recentRequests sv ++ [orderHash r] |})
       | inr afterItems =>
           match verifyBreakfasts s1 (breakfastItems r) ([], afterItems) with
           | inl e0 => (Failed e0,
                        {| store := s1; recentRequests := recentRequests sv ++ [orderHash r] |})
           | inr (breakfastMap, calculatedTotal) =>
               match resolveTable s1 r with
               | inl e0 => (Failed e0,
                            {| store := s1;
                               recentRequests := recentRequests sv ++ [orderHash r] |})
               | inr (s2, effectiveTableId) =>
                   match applyPromotion s2 (now r) (promotion_id r) (items r)
                           (breakfastItems r) calculatedTotal with
                   | inl e0 => (Failed e0,
                                {| store := s2;
                                   recentRequests := recentRequests sv ++ [orderHash r] |})
                   | inr calculatedTotal0 =>
                       if Js.differs (total_price r) calculatedTotal0
                       then (Failed (TotalPriceMismatch calculatedTotal0 (total_price r)),
                             {| store := s2;
                                recentRequests := recentRequests sv ++ [orderHash r] |})
                       else
                         let '(response, s3) :=
                           persistOrder s2 r session ot calculatedTotal0
                             effectiveTableId breakfastMap in
                         (response,
                          {| store := s3;
                             recentRequests := recentRequests sv ++ [orderHash r] |})
                   end
               end
           end
       end) = (Failed e, sv') ->
    store sv' = store sv \/ store sv' = s1
    \/ afterTableStage e = true
       /\ (exists s2 tid, resolveTable s1 r = inr (s2, tid) /\ store sv' = s2)).
  { intros ot.
    destruct (match ot with local => _ | _ => false end); [inversion 1; right; now left|].
    destruct (match ot with delivery => _ | _ => false end); [inversion 1; right; now left|].
    destruct (verifyItems s1 (items r) 0) as [e0|afterItems];
      [inversion 1; right; now left|].
    destruct (verifyBreakfasts s1 (breakfastItems r) ([], afterItems)) as [e0|[bmap total]];
      [inversion 1; right; now left|].
    destruct (resolveTable s1 r) as [e0|[s2 tid]] eqn:Ht;
      [inversion 1; right; now left|].
    destruct (applyPromotion s2 (now r) (promotion_id r) (items r) (breakfastItems r) total)
      as [e0|total'] eqn:Hp.
    - inversion 1; subst. right; right. apply applyPromotion_error in Hp. subst.
      split; [reflexivity | eauto].
    - destruct (Js.differs (total_price r) total').
      + inversion 1; subst. right; right. split; [reflexivity | eauto].
      + destruct (persistOrder s2 r session ot total' tid bmap) as [resp s3] eqn:Hpo.
        inversion 1; subst. apply persistOrder_failed in Hpo.
        destruct Hpo as (-> & Hlate). right; right. eauto. }
  destruct (items r) as [|i il], (breakfastItems r) as [|b bl],
           (order_type r) as [ot|];
    try (inversion 1; right; now left); apply Hrest.
Qed.

(** The store on which the transaction of an admitted order starts differs
    from the store of the request in [tables] and [device_order_limits]
    only. *)
Lemma beforeTransaction_frame (s s2 : Store) (r : OrderRequest) (tid : option Z) :
  resolveTable (if isStaffRequest r then s else purgeLimits (now r) s) r = inr (s2, tid) ->
  orders s2 = orders s /\ order_items s2 = order_items s
  /\ breakfast_order_options s2 = breakfast_order_options s
  /\ ingredients s2 = ingredients s
  /\ stock_transactions s2 = stock_transactions s
  /\ notifications s2 = notifications s.
Proof.
  intros H. apply resolveTable_ok in H.
  destruct H as [->|(_ & tableId & ->)]; destruct (isStaffRequest r); repeat split.
Qed.

Lemma insertItems_rows (orderId : Z) (l : list CartItem) (w : Store) :
  exists rows,
    order_items (fold_left (insertItem orderId) l w) = order_items w ++ rows
    /\ Forall2 (fun oi item =>
                  oi_order_id oi = orderId /\ oi_item_id oi = Some (ci_item_id item)
                  /\ oi_breakfast_id oi = None /\ oi_quantity oi = ci_quantity item
                  /\ oi_unit_price oi = ci_unit_price item
                  /\ oi_supplement_id oi = hd_error (supplementIdsOf item))
         rows l
    /\ breakfast_order_options (fold_left (insertItem orderId) l w)
       = breakfast_order_options w
    /\ ingredients (fold_left (insertItem orderId) l w) = ingredients w.
Proof.
  revert w. induction l as [|item l IH]; intros w; simpl.
  - exists []. rewrite app_nil_r. repeat split. constructor.
  - destruct (IH (insertItem orderId w item)) as (rows & Hoi & Hrows & Hboo & Hing).
    eexists (_ :: rows). split; [|split; [|split]].
    + rewrite Hoi. unfold insertItem. simpl. rewrite <- app_assoc. reflexivity.
    + constructor; [|exact Hrows]. simpl. repeat split.
    + rewrite Hboo. reflexivity.
    + rewrite Hing. reflexivity.
Qed.

Lemma insertBreakfasts_ingredients (orderId : Z) (bmap : list BreakfastEntry) (w : Store) :
  ingredients (fold_left (insertBreakfast orderId) bmap w) = ingredients w.
Proof.
  revert w. induction bmap as [|e bmap IH]; intros w; simpl; [reflexivity|].
  now rewrite IH.
Qed.

(** What the transaction of an admitted order has written. *)
Lemma persistOrder_created (s s' : Store) (r : OrderRequest) (session : string)
    (ot : OrderType) (total : Q) (tid : option Z) (bmap : list BreakfastEntry) (orderId : Z) :
  persistOrder s r session ot total tid bmap = (Created201 orderId, s') ->
  orderId = nextId (map o_id (orders s))
  /\ (exists itemRows rows,
        order_items s' = (order_items s ++ itemRows) ++ rows
        /\ Forall2 (fun oi item =>
                      oi_order_id oi = orderId /\ oi_item_id oi = Some (ci_item_id item)
                      /\ oi_breakfast_id oi = None /\ oi_quantity oi = ci_quantity item
                      /\ oi_unit_price oi = ci_unit_price item
                      /\ oi_supplement_id oi = hd_error (supplementIdsOf item))
             itemRows (items r)
        /\ Forall2 (fun oi e =>
                      oi_order_id oi = orderId /\ oi_item_id oi = None
                      /\ oi_breakfast_id oi = Some (be_breakfast_id e)
                      /\ oi_quantity oi = be_quantity e
                      /\ oi_unit_price oi = be_unit_price e)
             rows bmap
        /\ breakfast_order_options s'
           = breakfast_order_options s
             ++ flat_map
                  (fun p => map (fun optionId =>
                                   {| boo_order_item_id := oi_id (fst p);
                                      boo_breakfast_option_id := optionId |})
                              (be_option_ids (snd p)))
                  (combine rows bmap))
  /\ (stockNonNegative s -> stockNonNegative s').
Proof.
  unfold persistOrder. cbv zeta.
  set (orderId0 := nextId (map o_id (orders (work (beginTransaction s))))).
  set (w2 := insertLimits r (insertOrder r orderId0 total tid ot session
                               (work (beginTransaction s)))).
  set (w3 := fold_left (insertItem orderId0) (items r) w2).
  set (w4 := fold_left (insertBreakfast orderId0) bmap w3).
  assert (Hw2 : order_items w2 = order_items s
                /\ breakfast_order_options w2 = breakfast_order_options s
                /\ ingredients w2 = ingredients s).
  { subst w2. unfold insertLimits. destruct (isStaffRequest r); repeat split. }
  destruct Hw2 as (Hoi2 & Hboo2 & Hing2).
  destruct (insertItems_rows orderId0 (items r) w2) as (itemRows & Hoi3 & HitemRows & Hboo3 & Hing3).
  fold w3 in Hoi3, Hboo3, Hing3.
  destruct (insertBreakfasts_rows orderId0 bmap w3) as (rows & Hoi4 & Hrows & Hboo4).
  fold w4 in Hoi4, Hboo4.
  assert (Hing4 : ingredients w4 = ingredients s).
  { subst w4. now rewrite insertBreakfasts_ingredients, Hing3. }
  assert (Hfinal : forall w,
            order_items w = order_items w4 ->
            breakfast_order_options w = breakfast_order_options w4 ->
            (stockNonNegative s -> stockNonNegative w) ->
            orderId0 = nextId (map o_id (orders s))
            /\ (exists itemRows rows,
                  order_items w = (order_items s ++ itemRows) ++ rows
                  /\ Forall2 (fun oi item =>
                      oi_order_id oi = orderId0 /\ oi_item_id oi = Some (ci_item_id item)
                      /\ oi_breakfast_id oi = None /\ oi_quantity oi = ci_quantity item
                      /\ oi_unit_price oi = ci_unit_price item
                      /\ oi_supplement_id oi = hd_error (supplementIdsOf item))
                       itemRows (items r)
                  /\ Forall2 (fun oi e =>
                      oi_order_id oi = orderId0 /\ oi_item_id oi = None
                      /\ oi_breakfast_id oi = Some (be_breakfast_id e)
                      /\ oi_quantity oi = be_quantity e
                      /\ oi_unit_price oi = be_unit_price e)
                       rows bmap
                  /\ breakfast_order_options w
                     = breakfast_order_options s
                       ++ flat_map
                            (fun p => map (fun optionId =>
                                   {| boo_order_item_id := oi_id (fst p);
                                      boo_breakfast_option_id := optionId |})
                              (be_option_ids (snd p)))
                            (combine rows bmap))
            /\ (stockNonNegative s -> stockNonNegative w)).
  { intros w Ho Hb Hn. split; [reflexivity|]. split; [|exact Hn].
    exists itemRows, rows. rewrite Ho, Hb, Hoi4, Hboo4, Hoi3, Hboo3, Hoi2, Hboo2.
    repeat split; assumption. }
  destruct (isStaffRequest r).
  - match goal with
    | |- context [deductStock ?a ?b ?c] => destruct (deductStock a b c) as [e1|c5] eqn:Hd
    end; [discriminate|].
    intros H. inversion H; subst.
    pose proof (deductStock_ok _ _ _ _ (NoDup_keys_ingredientUsage _ _) Hd)
      as (_ & Hsame & _).
    apply sameButStock_fields in Hsame.
    destruct Hsame as (_ & _ & Ho & Hb & _). simpl in Ho, Hb.
    apply Hfinal; [exact Ho | exact Hb |].
    intros Hs. apply deductStock_nonneg in Hd; [exact Hd|].
    unfold stockNonNegative in *.
    change (Forall (fun g => (0 <= quantity_in_stock g)%Q) (ingredients w4)).
    now rewrite Hing4.
  - intros H. inversion H; subst. apply Hfinal; [reflexivity | reflexivity |].
    intros Hs. unfold stockNonNegative in *.
    change (Forall (fun g => (0 <= quantity_in_stock g)%Q) (ingredients w4)).
    now rewrite Hing4.
Qed.

(** The shape of an admitted submission. *)
Lemma postOrders_outcome (sv sv' : Server) (r : OrderRequest) (resp : Response) :
  postOrders sv r = (resp, sv') ->
  (exists e, resp = Failed e)
  \/ (exists orderId session ot afterItems bmap total s2 tid total',
        resp = Created201 orderId
        /\ verifyBreakfasts (if isStaffRequest r then store sv
                             else purgeLimits (now r) (store sv))
             (breakfastItems r) ([], afterItems) = inr (bmap, total)
        /\ resolveTable (if isStaffRequest r then store sv
                         else purgeLimits (now r) (store sv)) r = inr (s2, tid)
        /\ persistOrder s2 r session ot total' tid bmap = (Created201 orderId, store sv')).
Proof.
  unfold postOrders. cbv zeta.
  destruct (negb (isStaffRequest r) && _); [inversion 1; left; eauto|].
  set (s1 := if isStaffRequest r then store sv else purgeLimits (now r) (store sv)).
  destruct (negb (isStaffRequest r) && _); [inversion 1; left; eauto|].
  destruct (sessionId r) as [session|]; [|inversion 1; left; eauto].
  destruct (blank (Some session)); [inversion 1; left; eauto|].
  destruct (existsb _ (recentRequests sv)); [inversion 1; left; eauto|].
  destruct (items r) as [|i il], (breakfastItems r) as [|b bl],
           (order_type r) as [ot|];
    try (inversion 1; left; eauto; fail);
    (destruct (match ot with local => _ | _ => false end); [inversion 1; left; eauto|];
     destruct (match ot with delivery => _ | _ => false end); [inversion 1; left; eauto|];
     match goal with
     | |- context [verifyItems s1 ?l 0] =>
         destruct (verifyItems s1 l 0) as [e0|afterItems]; [inversion 1; left; eauto|]
     end;
     match goal with
     | |- context [verifyBreakfasts s1 ?l ?a] =>
         destruct (verifyBreakfasts s1 l a) as [e0|[bmap total]] eqn:Hvb;
           [inversion 1; left; eauto|]
     end;
     destruct (resolveTable s1 r) as [e0|[s2 tid]] eqn:Ht; [inversion 1; left; eauto|];
     match goal with
     | |- context [applyPromotion s2 ?n ?p ?a ?b ?t] =>
         destruct (applyPromotion s2 n p a b t) as [e0|total'];
           [inversion 1; left; eauto|]
     end;
     destruct (Js.differs (total_price r) total'); [inversion 1; left; eauto|];
     destruct (persistOrder s2 r session ot total' tid bmap) as [resp0 s3] eqn:Hpo;
     inversion 1; subst;
     destruct resp as [m|orderId|e0];
       [ exfalso; unfold persistOrder in Hpo; cbv zeta in Hpo;
         destruct (isStaffRequest r); [|discriminate];
         match type of Hpo with
         | context [deductStock ?a ?b ?c] => destruct (deductStock a b c); discriminate
         end
       | right; exists orderId, session, ot, afterItems, bmap, total, s2, tid, total';
         repeat split; assumption
       | left; eauto ]).
Qed.

End AdmissionFacts.

(** C7 (as amended).  A rejected submission leaves no order row, no order
    item, no breakfast option row, no stock movement and no notification:
    those tables are exactly as before the request.  The [tables] table is
    unchanged too unless the rejection is one of those issued after the
    table stage (total mismatch, a failure of the promotion queries, or a
    stock failure of auto-approval): for these the referenced table of a
    local order may already have been marked occupied, because the table
    stage writes outside the transaction and before the promotion overlay
    and the total comparison.  The per-line price verification is complete
    before that write. *)
Theorem C7_rejection_frame (sv sv' : Server) (r : OrderRequest) (e : Error) :
  Admission.postOrders sv r = (Failed e, sv') ->
  orders (store sv') = orders (store sv)
  /\ order_items (store sv') = order_items (store sv)
  /\ breakfast_order_options (store sv') = breakfast_order_options (store sv)
  /\ ingredients (store sv') = ingredients (store sv)
  /\ stock_transactions (store sv') = stock_transactions (store sv)
  /\ notifications (store sv') = notifications (store sv)
  /\ (tables (store sv') = tables (store sv)
      \/ (Admission.afterTableStage e = true /\ order_type r = Some local
          /\ exists tableId,
               tables (store sv') = Admission.markOccupied tableId (tables (store sv))))
  /\ (device_order_limits (store sv') = device_order_limits (store sv)
      \/ device_order_limits (store sv')
         = device_order_limits (Admission.purgeLimits (now r) (store sv))).
Proof.
  intros H. apply postOrders_failed_store in H. cbv zeta in H.
  assert (Hs1 : forall s1,
            s1 = (if Admission.isStaffRequest r then store sv
                  else Admission.purgeLimits (now r) (store sv)) ->
            orders s1 = orders (store sv) /\ order_items s1 = order_items (store sv)
            /\ breakfast_order_options s1 = breakfast_order_options (store sv)
            /\ ingredients s1 = ingredients (store sv)
            /\ stock_transactions s1 = stock_transactions (store sv)
            /\ notifications s1 = notifications (store sv)
            /\ tables s1 = tables (store sv)
            /\ (device_order_limits s1 = device_order_limits (store sv)
                \/ device_order_limits s1
                   = device_order_limits (Admission.purgeLimits (now r) (store sv)))).
  { intros s1 ->. destruct (Admission.isStaffRequest r); repeat split; auto. }
  destruct H as [H|[H|(Hlate & s2 & tid & Ht & H)]]; rewrite H.
  - repeat split; now left.
  - destruct (Hs1 _ eq_refl) as (A & B & C & D & E & F & G & L).
    repeat split; try assumption. now left.
  - destruct (Hs1 _ eq_refl) as (A & B & C & D & E & F & G & L).
    apply resolveTable_ok in Ht. destruct Ht as [->|(Hlocal & tableId & ->)].
    + repeat split; try assumption. now left.
    + repeat split; try assumption. right. split; [assumption|]. split; [assumption|].
      exists tableId. simpl. now rewrite G.
Qed.

Lemma C7_rejection_frame_witness :
  orders (store (snd (Admission.postOrders Sample.server Sample.underpaid)))
  = orders Sample.restaurant
  /\ ingredients (store (snd (Admission.postOrders Sample.server Sample.underpaid)))
     = ingredients Sample.restaurant.
Proof.
  destruct (C7_rejection_frame Sample.server
              (snd (Admission.postOrders Sample.server Sample.underpaid))
              Sample.underpaid (TotalPriceMismatch (0 + 9 * inject_Z 2) 17) eq_refl)
    as (H1 & _ & _ & H4 & _).
  split; [exact H1 | exact H4].
Defined.

(** C7 as the specification words it fails on a late rejection: a guest
    order for table 1 whose claimed total is off by one is rejected with a
    total mismatch, and table 1, free before the request, is occupied
    after it. *)
Lemma C7_table_marked_counterexample :
  fst (Admission.postOrders Sample.server Sample.underpaid)
  = Failed (TotalPriceMismatch (0 + 9 * inject_Z 2) 17)
  /\ map t_status (tables (store Sample.server)) = [available]
  /\ map t_status (tables (store (snd (Admission.postOrders Sample.server Sample.underpaid))))
     = [occupied]
  /\ tables (store (snd (Admission.postOrders Sample.server Sample.underpaid)))
     <> tables (store Sample.server).
Proof.
  split; [reflexivity|]. split; [reflexivity|]. split; [reflexivity|].
  vm_compute. discriminate.
Qed.

(** ** Claims that span admission and the ledger *)

Section SpanningTheorems.
Import StockLedger Orders Pricing Admission.

Lemma postOrders_failed_ingredients (sv sv' : Server) (r : OrderRequest) (e : Error) :
  postOrders sv r = (Failed e, sv') ->
  ingredients (store sv') = ingredients (store sv)
  /\ stock_transactions (store sv') = stock_transactions (store sv).
Proof.
  intros H. apply postOrders_failed_store in H. cbv zeta in H.
  destruct H as [H|[H|(_ & s2 & tid & Ht & H)]]; rewrite H.
  - split; reflexivity.
  - destruct (isStaffRequest r); split; reflexivity.
  - apply beforeTransaction_frame in Ht. tauto.
Qed.

(** C2.  Starting from non-negative stock, any sequence of approvals leaves
    every [quantity_in_stock] non-negative, and so does any order
    submission, auto-approved or not.  A refused approval or submission
    leaves the ingredient table as it was.  An approval that reaches the
    deduction loop (authorised caller, valid id, order neither approved nor
    already deducted, every required ingredient present) and needs more of
    some ingredient than is in stock answers InsufficientStock with the name
    of the first short ingredient in map order, the amount required and the
    amount available, and returns the store unchanged: nothing is deducted. *)
Theorem C2_no_negative_stock (s : Store) (u : option RequestUser) (orderIds : list Z) :
  stockNonNegative s ->
  stockNonNegative (approveAll u s orderIds)
  /\ (forall sv r,
        stockNonNegative (store sv) ->
        stockNonNegative (store (snd (Admission.postOrders sv r))))
  /\ (forall w orderId e w',
        approve w u orderId = (Failed e, w') -> w' = w)
  /\ (forall sv r e sv',
        Admission.postOrders sv r = (Failed e, sv') ->
        ingredients (store sv') = ingredients (store sv)
        /\ stock_transactions (store sv') = stock_transactions (store sv))
  /\ (forall w orderId order rest,
        unauthorised w u = false -> 0 < orderId ->
        selectOrder w orderId = order :: rest ->
        o_approved order && negb (status_eqb (o_status order) cancelled) = false ->
        hasDeduction w orderId = false ->
        (forall i, In i (keys (ingredientUsage w orderId)) -> selectIngredient w i <> []) ->
        (exists i, In i (keys (ingredientUsage w orderId))
                   /\ (stockOf w i < required (ingredientUsage w orderId) i)%Q) ->
        exists i row rows,
          In (i, required (ingredientUsage w orderId) i) (ingredientUsage w orderId)
          /\ selectIngredient w i = row :: rows
          /\ (quantity_in_stock row < required (ingredientUsage w orderId) i)%Q
          /\ approve w u orderId
             = (Failed (InsufficientStock (ing_name row)
                          (required (ingredientUsage w orderId) i) (quantity_in_stock row)),
                w)).
Proof.
  intros Hs. split; [now apply approveAll_nonneg|]. split; [|split; [|split]].
  - intros sv r Hsv. destruct (Admission.postOrders sv r) as [resp sv'] eqn:Hpost.
    simpl. destruct (postOrders_outcome _ _ _ _ Hpost)
      as [(e & ->) | (orderId & session & ot & afterItems & bmap & total & s2 & tid & total'
                     & -> & _ & Ht & Hpo)].
    + apply postOrders_failed_ingredients in Hpost. unfold stockNonNegative in *.
      destruct Hpost as (Hing & _). now rewrite Hing.
    + apply persistOrder_created in Hpo. destruct Hpo as (_ & _ & Hn). apply Hn.
      apply beforeTransaction_frame in Ht. destruct Ht as (_ & _ & _ & Hing & _).
      unfold stockNonNegative in *. now rewrite Hing.
  - intros w orderId e w'. apply approve_failed_unchanged.
  - intros sv r e sv'. apply postOrders_failed_ingredients.
  - intros w orderId order rest Hu Hid Hsel Hg Hd Hall Hshort.
    destruct (deductStock_short orderId (ingredientUsage w orderId) (beginTransaction w))
      as (i & row & rows & Hin & Hrow & Hlt & Hres);
      [apply NoDup_keys_ingredientUsage | exact Hall | exact Hshort |].
    exists i, row, rows. repeat split; try assumption.
    unfold approve. rewrite Hu. apply Z.leb_gt in Hid. rewrite Hid.
    cbv zeta. change (work (beginTransaction w)) with w.
    rewrite Hsel, Hg, Hd, Hres. reflexivity.
Qed.

Lemma C2_no_negative_stock_witness :
  stockNonNegative (approveAll Sample.admin Sample.restaurant [1; 2; 1])
  /\ exists i row rows,
       In (i, required (ingredientUsage Sample.restaurant 2) i)
         (ingredientUsage Sample.restaurant 2)
       /\ selectIngredient Sample.restaurant i = row :: rows
       /\ (quantity_in_stock row < required (ingredientUsage Sample.restaurant 2) i)%Q
       /\ approve Sample.restaurant Sample.admin 2
          = (Failed (InsufficientStock (ing_name row)
                       (required (ingredientUsage Sample.restaurant 2) i)
                       (quantity_in_stock row)),
             Sample.restaurant).
Proof.
  assert (Hs : stockNonNegative Sample.restaurant).
  { repeat constructor; discriminate. }
  destruct (C2_no_negative_stock Sample.restaurant Sample.admin [1; 2; 1] Hs)
    as (H1 & _ & _ & _ & H3).
  split; [exact H1|].
  apply (H3 Sample.restaurant 2 (Sample.order 2 12) []);
    try reflexivity.
  - intros i Hi. vm_compute in Hi. destruct Hi as [<-|[]]. discriminate.
  - exists 2. split; [now left | reflexivity].
Defined.


(** C9.  When a cart is admitted, [breakfastMap] holds exactly one entry
    per distinct [breakfast_id] of its breakfast lines; the entry's
    quantity is the sum of the quantities of the lines of that breakfast
    and its option ids are, without repetition, the option ids those lines
    request.  The rows the order adds to [order_items] are one row per
    menu-item line followed by exactly one row per entry, carrying the
    entry's breakfast id and summed quantity, and the rows it adds to
    [breakfast_order_options] are one row per option id of each entry,
    attached to the entry's row. *)
Theorem C9_breakfast_coalescing (sv sv' : Server) (r : OrderRequest) (orderId : Z) :
  optionKeysUnique (store sv) -> groupKeysUnique (store sv) ->
  postOrders sv r = (Created201 orderId, sv') ->
  exists breakfastMap itemRows rows,
    NoDup (map be_breakfast_id breakfastMap)
    /\ (forall b, In b (map be_breakfast_id breakfastMap)
                  <-> In b (map bi_breakfast_id (breakfastItems r)))
    /\ (forall e, In e breakfastMap ->
          be_quantity e = totalQuantity (be_breakfast_id e) (breakfastItems r)
          /\ NoDup (be_option_ids e)
          /\ (forall o, In o (be_option_ids e)
                <-> In o (requestedOptions (be_breakfast_id e) (breakfastItems r))))
    /\ order_items (store sv') = (order_items (store sv) ++ itemRows) ++ rows
    /\ Forall2 (fun oi item =>
                  oi_order_id oi = orderId /\ oi_item_id oi = Some (ci_item_id item)
                  /\ oi_breakfast_id oi = None /\ oi_quantity oi = ci_quantity item
                  /\ oi_unit_price oi = ci_unit_price item
                  /\ oi_supplement_id oi = hd_error (supplementIdsOf item))
         itemRows (items r)
    /\ Forall2 (fun oi e =>
                  oi_order_id oi = orderId /\ oi_item_id oi = None
                  /\ oi_breakfast_id oi = Some (be_breakfast_id e)
                  /\ oi_quantity oi = be_quantity e
                  /\ oi_unit_price oi = be_unit_price e)
         rows breakfastMap
    /\ breakfast_order_options (store sv')
       = breakfast_order_options (store sv)
         ++ flat_map
              (fun p => map (fun optionId =>
                               {| boo_order_item_id := oi_id (fst p);
                                  boo_breakfast_option_id := optionId |})
                          (be_option_ids (snd p)))
              (combine rows breakfastMap).
Proof.
  intros Ho Hg Hpost.
  destruct (postOrders_outcome _ _ _ _ Hpost)
    as [(e & He) | (orderId' & session & ot & afterItems & bmap & total & s2 & tid & total'
                   & He & Hvb & Ht & Hpo)]; [discriminate|].
  inversion He; subst orderId'.
  assert (Hc : coalesced (breakfastItems r) bmap).
  { eapply breakfastMap_coalesced; [| |exact Hvb];
      destruct (isStaffRequest r); assumption. }
  destruct Hc as (Hnd & Hkeys & Hall).
  apply persistOrder_created in Hpo.
  destruct Hpo as (_ & (itemRows & rows & Hoi & Hitems & Hrows & Hboo) & _).
  apply beforeTransaction_frame in Ht. destruct Ht as (_ & Hoi2 & Hboo2 & _).
  exists bmap, itemRows, rows.
  split; [exact Hnd|]. split; [exact Hkeys|]. split.
  { intros e0 He0. rewrite Forall_forall in Hall. exact (Hall e0 He0). }
  rewrite <- Hoi2, <- Hboo2. repeat split; assumption.
Qed.

Lemma C9_breakfast_coalescing_witness :
  exists breakfastMap itemRows rows,
    NoDup (map be_breakfast_id breakfastMap)
    /\ (forall e, In e breakfastMap ->
          be_quantity e = totalQuantity (be_breakfast_id e) Sample.breakfastLines
          /\ NoDup (be_option_ids e)
          /\ (forall o, In o (be_option_ids e)
                <-> In o (requestedOptions (be_breakfast_id e) Sample.breakfastLines)))
    /\ order_items (store (snd (postOrders Sample.server Sample.breakfastOrder)))
       = (order_items Sample.restaurant ++ itemRows) ++ rows
    /\ Forall2 (fun oi e =>
                  oi_order_id oi = 3 /\ oi_item_id oi = None
                  /\ oi_breakfast_id oi = Some (be_breakfast_id e)
                  /\ oi_quantity oi = be_quantity e
                  /\ oi_unit_price oi = be_unit_price e)
         rows breakfastMap.
Proof.
  assert (Ho : optionKeysUnique Sample.restaurant).
  { unfold optionKeysUnique. simpl.
    constructor; [simpl; intuition discriminate|].
    constructor; [intros [] | constructor]. }
  assert (Hg : groupKeysUnique Sample.restaurant).
  { unfold groupKeysUnique. simpl.
    constructor; [simpl; intuition discriminate|].
    constructor; [intros [] | constructor]. }
  destruct (C9_breakfast_coalescing Sample.server
              (snd (postOrders Sample.server Sample.breakfastOrder))
              Sample.breakfastOrder 3 Ho Hg eq_refl)
    as (bmap & itemRows & rows & Hnd & Hkeys & Hall & Hoi & Hitems & Hrows & Hboo).
  exists bmap, itemRows, rows. repeat split; try assumption; now apply Hall.
Defined.

(** Breakfast 1 on two cart lines (once with option 1, twice with options
    1 and 2) is stored as one line of three with the options 1 and 2. *)
Example scenario_breakfast_rows :
  fst (postOrders Sample.server Sample.breakfastOrder) = Created201 3
  /\ map (fun oi => (oi_order_id oi, oi_breakfast_id oi, oi_quantity oi))
       (order_items (store (snd (postOrders Sample.server Sample.breakfastOrder))))
     = [(1, None, 2); (2, None, 3); (3, Some 1, 3)]
  /\ map (fun o => (boo_order_item_id o, boo_breakfast_option_id o))
       (breakfast_order_options
          (store (snd (postOrders Sample.server Sample.breakfastOrder))))
     = [(3, 1); (3, 2)].
Proof. repeat split. Qed.

End SpanningTheorems.

(** * Further properties of the router *)

(** ** When approval and cancellation go through *)

Section OutcomeFacts.
Import StockLedger Orders.

Lemma le_lt_false (a b : Q) : (b <= a)%Q -> Js.lt a b = false.
Proof.
  intros H. destruct (Js.lt a b) eqn:E; [|reflexivity].
  apply lt_true_lt in E. exfalso. exact (Qlt_not_le _ _ E H).
Qed.

Lemma selectIngredient_after_write (t : StockTransaction) (k i : Z) (q : Q) (s : Store) :
  k <> i ->
  selectIngredient (insertTransaction t (updateStock k q s)) i = selectIngredient s i.
Proof.
  intros Hne.
  change (selectIngredient (insertTransaction t (updateStock k q s)) i)
    with (selectIngredient (updateStock k q s) i).
  now apply selectIngredient_updateStock_other.
Qed.

(** Enough stock for every required ingredient lets the deduction loop run
    to its end. *)
Lemma deductStock_succeeds (orderId : Z) (usage : UsageMap) (c : Connection) :
  NoDup (keys usage) ->
  (forall i, In i (keys usage) ->
     selectIngredient (work c) i <> [] /\ (required usage i <= stockOf (work c) i)%Q) ->
  exists c', deductStock orderId usage c = inr c'.
Proof.
  revert c. induction usage as [|[k q] usage IH]; intros c Hnd Hall; simpl.
  - eauto.
  - inversion Hnd as [|? ? Hnin Hnd']; subst.
    destruct (Hall k (or_introl eq_refl)) as (Hex & Hle).
    destruct (selectIngredient (work c) k) as [|row rows] eqn:Hsel; [contradiction|].
    rewrite required_cons, Z.eqb_refl in Hle.
    unfold stockOf in Hle. rewrite Hsel in Hle.
    rewrite (le_lt_false _ _ Hle).
    apply IH; [assumption|].
    intros i Hi. assert (Hne : k <> i) by (intros ->; contradiction).
    destruct (Hall i (or_intror Hi)) as (Hex' & Hle').
    simpl. unfold stockOf in *. rewrite selectIngredient_after_write by assumption.
    apply Z.eqb_neq in Hne. rewrite required_cons, Hne in Hle'. tauto.
Qed.

(** What a completed restoration loop has done. *)
Lemma restoreStockLoop_inv (orderId : Z) (usage : UsageMap) (c c' : Connection) :
  NoDup (keys usage) ->
  restoreStockLoop orderId usage c = inr c' ->
  sameButStock (work c) (work c')
  /\ stock_transactions (work c')
     = stock_transactions (work c)
       ++ map (fun kq => restorationRow orderId (fst kq) (snd kq)) usage
  /\ (forall i, (stockOf (work c') i == stockOf (work c) i + required usage i)%Q)
  /\ (forall i, In i (keys usage) -> selectIngredient (work c) i <> []).
Proof.
  intros Hnd H.
  assert (Hall : forall i, In i (keys usage) -> selectIngredient (work c) i <> []).
  { clear Hnd. revert c H. induction usage as [|[k q] usage IH]; intros c H i Hi;
      [destruct Hi|]. simpl in H.
    destruct (selectIngredient (work c) k) as [|row rows] eqn:Hsel; [discriminate|].
    destruct Hi as [Hi|Hi]; simpl in Hi.
    - subst i. rewrite Hsel. discriminate.
    - specialize (IH _ H i Hi). simpl in IH.
      destruct (Z.eq_dec k i) as [->|Hne]; [rewrite Hsel; discriminate|].
      now rewrite selectIngredient_after_write in IH. }
  destruct (restoreStockLoop_ok orderId usage c Hnd Hall) as (c2 & Hres & Hsame & Htx & Hstock).
  rewrite H in Hres. inversion Hres; subst. auto.
Qed.

Lemma approve_cases (s : Store) (u : option RequestUser) (orderId : Z) :
  (exists e, approve s u orderId = (Failed e, s))
  \/ (exists s1, approve s u orderId = (Ok200 "Order approved", s1)).
Proof.
  unfold approve.
  destruct (unauthorised s u); [left; eauto|].
  destruct (orderId <=? 0); [left; eauto|].
  cbv zeta. change (work (beginTransaction s)) with s.
  destruct (selectOrder s orderId) as [|order rest]; [left; eauto|].
  destruct (o_approved order && negb (status_eqb (o_status order) cancelled)); [left; eauto|].
  destruct (hasDeduction s orderId); [left; eauto|].
  destruct (deductStock _ _ _); [left | right]; eauto.
Qed.

(** The three ways a cancellation ends: refused, the store untouched;
    carried out without restoration; carried out with restoration. *)
Lemma cancel_cases (s s' : Store) (u : option RequestUser) (orderId : Z) (restoreStock : bool)
    (resp : Response) :
  cancel s u orderId restoreStock = (resp, s') ->
  (exists e, resp = Failed e /\ s' = s)
  \/ (exists order rest,
        resp = Ok200 "Order cancelled"
        /\ unauthorised s u = false /\ 0 < orderId
        /\ selectOrder s orderId = order :: rest /\ o_status order <> cancelled
        /\ ((restoreStock && o_approved order && hasDeduction s orderId = false
             /\ s' = updateOrder orderId false cancelled s)
            \/ (restoreStock = true /\ o_approved order = true
                /\ hasRestoration s orderId = false /\ hasDeduction s orderId = true
                /\ exists c', restoreStockLoop orderId (ingredientUsage s orderId)
                                (beginTransaction s) = inr c'
                              /\ s' = updateOrder orderId false cancelled (work c')))).
Proof.
  unfold cancel.
  destruct (unauthorised s u) eqn:Hu; [inversion 1; left; eauto|].
  destruct (orderId <=? 0) eqn:Hid; [inversion 1; left; eauto|].
  apply Z.leb_gt in Hid.
  cbv zeta. change (work (beginTransaction s)) with s.
  destruct (selectOrder s orderId) as [|order rest] eqn:Hsel; [inversion 1; left; eauto|].
  destruct (status_eqb (o_status order) cancelled) eqn:Hst; [inversion 1; left; eauto|].
  assert (Hne : o_status order <> cancelled) by (intros E; rewrite E in Hst; discriminate).
  assert (Hskip : forall w, w = updateOrder orderId false cancelled s ->
            restoreStock && o_approved order && hasDeduction s orderId = false ->
            (exists e, Ok200 "Order cancelled" = Failed e /\ w = s)
            \/ (exists order0 rest0,
                  Ok200 "Order cancelled" = Ok200 "Order cancelled"
                  /\ false = false /\ 0 < orderId
                  /\ order :: rest = order0 :: rest0 /\ o_status order0 <> cancelled
                  /\ ((restoreStock && o_approved order0 && hasDeduction s orderId = false
                       /\ w = updateOrder orderId false cancelled s)
                      \/ (restoreStock = true /\ o_approved order0 = true
                          /\ hasRestoration s orderId = false /\ hasDeduction s orderId = true
                          /\ exists c', restoreStockLoop orderId (ingredientUsage s orderId)
                                          (beginTransaction s) = inr c'
                                        /\ w = updateOrder orderId false cancelled (work c'))))).
  { intros w Hw Hb. right. exists order, rest.
    split; [reflexivity|]. split; [reflexivity|]. split; [assumption|].
    split; [reflexivity|]. split; [assumption|]. left. split; assumption. }
  destruct restoreStock; [|inversion 1; subst; now apply Hskip].
  destruct (o_approved order) eqn:Ha; [|inversion 1; subst; now apply Hskip].
  cbn [andb].
  destruct (hasRestoration s orderId) eqn:Hr; [inversion 1; left; eauto|].
  destruct (hasDeduction s orderId) eqn:Hd; cbn [negb].
  - destruct (restoreStockLoop _ _ _) as [e|c'] eqn:Hloop; [inversion 1; left; eauto|].
    inversion 1; subst. right. exists order, rest.
    split; [reflexivity|]. split; [reflexivity|]. split; [assumption|].
    split; [reflexivity|]. split; [assumption|]. right.
    repeat split; try reflexivity; try assumption. exists c'. split; reflexivity.
  - inversion 1; subst. apply Hskip; reflexivity.
Qed.

End OutcomeFacts.

(** ** What one request does to the ledger *)

Section BatchFacts.
Import StockLedger Orders Pricing Admission Router.

Lemma ids_updateOrder (orderId : Z) (a : bool) (st : OrderStatus) (s : Store) :
  map o_id (orders (updateOrder orderId a st s)) = map o_id (orders s).
Proof.
  unfold updateOrder. simpl. rewrite map_map. apply map_ext.
  intros o. now destruct (o_id o =? orderId).
Qed.

Lemma selectOrder_In (s : Store) (orderId : Z) (order : Order) (rest : list Order) :
  selectOrder s orderId = order :: rest -> In orderId (map o_id (orders s)).
Proof.
  intros H. assert (Hin : In order (selectOrder s orderId)) by (rewrite H; now left).
  unfold selectOrder in Hin. apply filter_In in Hin. destruct Hin as (Hin & E).
  apply Z.eqb_eq in E. subst orderId. now apply in_map.
Qed.

Lemma stockOf_ingredients (a b : Store) (i : Z) :
  ingredients a = ingredients b -> stockOf a i = stockOf b i.
Proof. intros H. unfold stockOf, selectIngredient. now rewrite H. Qed.

Lemma nextId_above (l : list Z) (x : Z) : In x l -> x < nextId l.
Proof.
  unfold nextId. induction l as [|y l IH]; cbn [fold_right In]; [intros []|].
  intros [E|H]; [|specialize (IH H)];
    pose proof (Z.le_max_l y (fold_right Z.max 0 l));
    pose proof (Z.le_max_r y (fold_right Z.max 0 l)); lia.
Qed.

Lemma nextId_fresh (l : list Z) : ~ In (nextId l) l.
Proof. intros H. apply nextId_above in H. lia. Qed.

Lemma insertItems_shape (orderId : Z) (l : list CartItem) (w : Store) :
  exists v, fold_left (insertItem orderId) l w = with_order_items w v.
Proof.
  revert w. induction l as [|item l IH]; intros w; simpl.
  - exists (order_items w). now destruct w.
  - destruct (IH (insertItem orderId w item)) as (v & ->). exists v. reflexivity.
Qed.

Lemma insertBreakfasts_shape (orderId : Z) (l : list BreakfastEntry) (w : Store) :
  exists v v', fold_left (insertBreakfast orderId) l w
               = with_breakfast_order_options (with_order_items w v) v'.
Proof.
  revert w. induction l as [|e l IH]; intros w; simpl.
  - exists (order_items w), (breakfast_order_options w). now destruct w.
  - destruct (IH (insertBreakfast orderId w e)) as (v & v' & ->). exists v, v'. reflexivity.
Qed.

(** The ledger, the stock and the order ids after the transaction of an
    admitted order. *)
Lemma persistOrder_ledger (s s' : Store) (r : OrderRequest) (session : string)
    (ot : OrderType) (total : Q) (tid : option Z) (bmap : list BreakfastEntry) (orderId : Z) :
  persistOrder s r session ot total tid bmap = (Created201 orderId, s') ->
  orderId = nextId (map o_id (orders s))
  /\ map o_id (orders s') = map o_id (orders s) ++ [orderId]
  /\ tables s' = tables s
  /\ ((isStaffRequest r = false
       /\ stock_transactions s' = stock_transactions s
       /\ ingredients s' = ingredients s)
      \/ (isStaffRequest r = true
          /\ exists usage,
               NoDup (keys usage)
               /\ stock_transactions s'
                  = stock_transactions s
                    ++ map (fun kq => deductionRow orderId (fst kq) (snd kq)) usage
               /\ (forall i, (stockOf s' i == stockOf s i - required usage i)%Q))).
Proof.
  unfold persistOrder. cbv zeta.
  set (orderId0 := nextId (map o_id (orders (work (beginTransaction s))))).
  set (w2 := insertLimits r (insertOrder r orderId0 total tid ot session
                               (work (beginTransaction s)))).
  set (w3 := fold_left (insertItem orderId0) (items r) w2).
  set (w4 := fold_left (insertBreakfast orderId0) bmap w3).
  assert (Hw4 : map o_id (orders w4) = map o_id (orders s) ++ [orderId0]
                /\ tables w4 = tables s
                /\ stock_transactions w4 = stock_transactions s
                /\ ingredients w4 = ingredients s).
  { destruct (insertBreakfasts_shape orderId0 bmap w3) as (v1 & v2 & Hv2).
    destruct (insertItems_shape orderId0 (items r) w2) as (v & Hv).
    fold w4 in Hv2. fold w3 in Hv. rewrite Hv2, Hv. subst w2.
    unfold insertLimits. destruct (isStaffRequest r); simpl;
      rewrite map_app; repeat split. }
  destruct Hw4 as (Hids & Htab & Htx & Hing).
  change (on_work (on_work (on_work (on_work (beginTransaction s)
            (insertOrder r orderId0 total tid ot session)) (insertLimits r))
            (fun w => fold_left (insertItem orderId0) (items r) w))
            (fun w => fold_left (insertBreakfast orderId0) bmap w))
    with {| snapshot := s; work := w4 |}.
  change (nextId (map o_id (orders s))) with orderId0.
  destruct (isStaffRequest r) eqn:Hstaff.
  - match goal with
    | |- context [deductStock ?a ?b ?c] => destruct (deductStock a b c) as [e1|c5] eqn:Hd
    end; [discriminate|].
    intros H. inversion H; subst. clear H.
    apply deductStock_ok in Hd; [|apply NoDup_keys_ingredientUsage].
    destruct Hd as (_ & Hsame & Htx5 & Hstock & _). simpl in Hsame, Htx5, Hstock.
    apply sameButStock_fields in Hsame.
    destruct Hsame as (_ & Ho & _ & _ & _ & _ & _ & _ & Ht & _).
    split; [reflexivity|]. split.
    { unfold commit, on_work. cbn [work]. rewrite ids_updateOrder, Ho. exact Hids. }
    split; [simpl; now rewrite Ht|].
    right. split; [reflexivity|].
    exists (ingredientUsage w4 orderId0).
    split; [apply NoDup_keys_ingredientUsage|]. split.
    + simpl. rewrite Htx5, Htx. reflexivity.
    + intros i. rewrite <- (stockOf_ingredients w4 s i Hing). exact (Hstock i).
  - intros H. inversion H; subst. clear H.
    split; [reflexivity|]. split; [exact Hids|]. split; [exact Htab|].
    left. repeat split; assumption.
Qed.

Lemma hasDeduction_fresh (s : Store) :
  ledgerRefersToOrders s -> hasDeduction s (nextId (map o_id (orders s))) = false.
Proof.
  intros Hfk. unfold hasDeduction.
  destruct (existsb _ (stock_transactions s)) eqn:E; [|reflexivity]. exfalso.
  apply existsb_exists in E. destruct E as (t & Ht & Hb).
  apply andb_true_iff in Hb. destruct Hb as (Hb & _).
  unfold Js.opt_eqb in Hb. destruct (st_order_id t) as [k|] eqn:Hk; [|discriminate].
  apply Z.eqb_eq in Hb. subst k.
  exact (nextId_fresh _ (Hfk t _ Ht Hk)).
Qed.

(** Every request appends one batch to the ledger, or nothing, and never
    removes an order. *)
Lemma perform_effect (sv : Server) (c : Call) :
  exists rows,
    stock_transactions (store (snd (perform sv c)))
    = stock_transactions (store sv) ++ rows
    /\ Batch (store sv) (store (snd (perform sv c))) rows
    /\ incl (map o_id (orders (store sv))) (map o_id (orders (store (snd (perform sv c))))).
Proof.
  assert (Hsame : forall s', s' = store sv ->
            exists rows, stock_transactions s' = stock_transactions (store sv) ++ rows
                         /\ Batch (store sv) s' rows
                         /\ incl (map o_id (orders (store sv))) (map o_id (orders s'))).
  { intros s' ->. exists []. rewrite app_nil_r.
    split; [reflexivity|]. split; [now constructor | apply incl_refl]. }
  assert (Hupd : forall orderId a st,
            exists rows,
              stock_transactions (updateOrder orderId a st (store sv))
              = stock_transactions (store sv) ++ rows
              /\ Batch (store sv) (updateOrder orderId a st (store sv)) rows
              /\ incl (map o_id (orders (store sv)))
                      (map o_id (orders (updateOrder orderId a st (store sv))))).
  { intros orderId a st. exists []. rewrite app_nil_r.
    split; [reflexivity|]. split; [now constructor|].
    rewrite ids_updateOrder. apply incl_refl. }
  destruct c as [r | u orderId approved | u orderId | u orderId restoreStock]; simpl.
  - (* POST /orders *)
    destruct (postOrders sv r) as [resp sv'] eqn:Hpost. simpl.
    destruct (postOrders_outcome _ _ _ _ Hpost)
      as [(e & ->) | (orderId & session & ot & afterItems & bmap & total & s2 & tid & total'
                     & -> & _ & Ht & Hpo)].
    + pose proof (postOrders_failed_ingredients _ _ _ _ Hpost) as (Hing & Htx).
      exists []. rewrite app_nil_r. split; [exact Htx|]. split; [now constructor|].
      apply postOrders_failed_store in Hpost. cbv zeta in Hpost.
      destruct Hpost as [H|[H|(_ & s3 & tid & Ht & H)]]; rewrite H.
      * apply incl_refl.
      * destruct (isStaffRequest r); apply incl_refl.
      * apply beforeTransaction_frame in Ht. destruct Ht as (Ho & _). rewrite Ho.
        apply incl_refl.
    + apply beforeTransaction_frame in Ht.
      destruct Ht as (Ho & _ & _ & Hing & Htx & _).
      apply persistOrder_ledger in Hpo.
      destruct Hpo as (Hid & Hids & _ & [(_ & Htx' & Hing')|(_ & usage & Hnd & Htx' & Hstock)]).
      * exists []. rewrite app_nil_r. split; [now rewrite Htx', Htx|].
        split; [constructor; now rewrite Hing', Hing|].
        rewrite Hids, Ho. apply incl_appl, incl_refl.
      * exists (map (fun kq => deductionRow orderId (fst kq) (snd kq)) usage).
        split; [now rewrite Htx', Htx|]. split.
        -- constructor; [assumption | | |].
           ++ intros Hfk. rewrite Hid, Ho. now apply hasDeduction_fresh.
           ++ rewrite Hids. apply in_or_app. right. now left.
           ++ intros i. rewrite Hstock, (stockOf_ingredients s2 (store sv) i Hing).
              reflexivity.
        -- rewrite Hids, Ho. apply incl_appl, incl_refl.
  - (* PUT /orders/:id *)
    unfold putOrder.
    destruct (unauthorised (store sv) u); [now apply Hsame|].
    destruct (orderId <=? 0); [now apply Hsame|].
    destruct (negb (approved =? 1) && negb (approved =? 0)); [now apply Hsame|].
    destruct (selectOrder (store sv) orderId); [now apply Hsame | apply Hupd].
  - (* POST /orders/:id/approve *)
    destruct (approve_cases (store sv) u orderId) as [(e & ->)|(s1 & H)];
      [now apply Hsame|].
    rewrite H. simpl.
    pose proof (approve_ok_inv _ _ _ _ _ H)
      as (order & rest & c1 & _ & _ & Hsel & _ & Hd & Hded & Hs1).
    apply approve_ok_effect in H.
    destruct H as (_ & _ & (o1 & r1 & Hsel1 & _) & Htx & Hstock & _).
    exists (map (fun kq => deductionRow orderId (fst kq) (snd kq))
              (ingredientUsage (store sv) orderId)).
    split; [exact Htx|]. split.
    + constructor; [apply NoDup_keys_ingredientUsage | now intros _ | | exact Hstock].
      eapply selectOrder_In; eassumption.
    + apply deductStock_ok in Hded; [|apply NoDup_keys_ingredientUsage].
      destruct Hded as (_ & Hsame1 & _). apply sameButStock_fields in Hsame1.
      destruct Hsame1 as (_ & Ho & _). simpl in Ho.
      rewrite Hs1, ids_updateOrder, Ho. apply incl_refl.
  - (* POST /orders/:id/cancel *)
    destruct (cancel (store sv) u orderId restoreStock) as [resp s'] eqn:Hc. simpl.
    apply cancel_cases in Hc.
    destruct Hc as [(e & _ & ->) | (order & rest & _ & _ & _ & Hsel & _ &
                      [(_ & ->) | (_ & _ & Hr & _ & c' & Hloop & ->)])];
      [now apply Hsame | apply Hupd |].
    apply restoreStockLoop_inv in Hloop; [|apply NoDup_keys_ingredientUsage].
    destruct Hloop as (Hsame1 & Htx & Hstock & _). simpl in Hsame1, Htx, Hstock.
    apply sameButStock_fields in Hsame1. destruct Hsame1 as (_ & Ho & _).
    exists (map (fun kq => restorationRow orderId (fst kq) (snd kq))
              (ingredientUsage (store sv) orderId)).
    split; [exact Htx|]. split.
    + constructor; [apply NoDup_keys_ingredientUsage | exact Hr | | exact Hstock].
      rewrite ids_updateOrder, Ho. eapply selectOrder_In; eassumption.
    + rewrite ids_updateOrder, Ho. apply incl_refl.
Qed.

End BatchFacts.

(** ** Invariants of the ledger under any sequence of requests *)

Section LedgerInvariants.
Import StockLedger Orders Pricing Admission Router.

Lemma performAll_snoc (sv : Server) (calls : list Call) (c : Call) :
  performAll sv (calls ++ [c]) = snd (perform (performAll sv calls) c).
Proof. unfold performAll. now rewrite fold_left_app. Qed.

Lemma performAll_invariant (P : Store -> Prop) :
  (forall sv c, P (store sv) -> P (store (snd (perform sv c)))) ->
  forall calls sv, P (store sv) -> P (store (performAll sv calls)).
Proof.
  intros Hstep calls. induction calls as [|c calls IH]; intros sv H; simpl; [exact H|].
  apply IH, Hstep, H.
Qed.

Lemma filter_map_all {A B : Type} (p : B -> bool) (f : A -> B) (l : list A) :
  (forall a, p (f a) = true) -> filter p (map f l) = map f l.
Proof.
  intros H. induction l as [|a l IH]; simpl; [reflexivity|]. now rewrite H, IH.
Qed.

Lemma filter_map_none {A B : Type} (p : B -> bool) (f : A -> B) (l : list A) :
  (forall a, p (f a) = false) -> filter p (map f l) = [].
Proof.
  intros H. induction l as [|a l IH]; simpl; [reflexivity|]. now rewrite H, IH.
Qed.

Lemma existsb_filter_nil {A : Type} (p : A -> bool) (l : list A) :
  existsb p l = false <-> filter p l = [].
Proof.
  induction l as [|a l IH]; simpl; [tauto|].
  destruct (p a); simpl; [split; discriminate | exact IH].
Qed.

Lemma hasDeduction_none (s : Store) (orderId : Z) :
  hasDeduction s orderId = false <-> deductionsOf s orderId = [].
Proof. apply existsb_filter_nil. Qed.

Lemma hasRestoration_none (s : Store) (orderId : Z) :
  hasRestoration s orderId = false <-> restorationsOf s orderId = [].
Proof. apply existsb_filter_nil. Qed.

Lemma batch_refers (s s' : Store) (rows : list StockTransaction) :
  stock_transactions s' = stock_transactions s ++ rows ->
  Batch s s' rows ->
  incl (map o_id (orders s)) (map o_id (orders s')) ->
  ledgerRefersToOrders s -> ledgerRefersToOrders s'.
Proof.
  intros Htx Hb Hincl Hfk t k Hin Hk. rewrite Htx in Hin.
  apply in_app_or in Hin. destruct Hin as [Hin|Hin]; [eapply Hincl, Hfk; eassumption|].
  destruct Hb as [_ | orderId usage _ _ Ho _ | orderId usage _ _ Ho _].
  - destruct Hin.
  - apply in_map_iff in Hin. destruct Hin as (kq & <- & _). simpl in Hk.
    inversion Hk; subst. exact Ho.
  - apply in_map_iff in Hin. destruct Hin as (kq & <- & _). simpl in Hk.
    inversion Hk; subst. exact Ho.
Qed.

(** One request leaves the deduction rows of an order as they are, or writes
    them for the first time, one row per ingredient of a requirement map. *)
Lemma batch_deductions (s s' : Store) (rows : list StockTransaction) (orderId : Z) :
  stock_transactions s' = stock_transactions s ++ rows ->
  Batch s s' rows ->
  ledgerRefersToOrders s ->
  deductionsOf s' orderId = deductionsOf s orderId
  \/ (deductionsOf s orderId = []
      /\ exists usage, NoDup (keys usage)
           /\ deductionsOf s' orderId
              = map (fun kq => deductionRow orderId (fst kq) (snd kq)) usage).
Proof.
  intros Htx Hb Hfk.
  assert (Happ : deductionsOf s' orderId
                 = deductionsOf s orderId
                   ++ filter (fun t => Js.opt_eqb (st_order_id t) orderId
                                       && type_eqb (st_transaction_type t) deduction) rows).
  { unfold deductionsOf. now rewrite Htx, filter_app. }
  rewrite Happ. clear Happ Htx.
  destruct Hb as [_ | k usage Hnd Hnone _ _ | k usage _ _ _ _].
  - left. simpl. apply app_nil_r.
  - destruct (Z.eq_dec k orderId) as [->|Hne].
    + right. apply Hnone, hasDeduction_none in Hfk. rewrite Hfk.
      split; [reflexivity|]. exists usage. split; [exact Hnd|]. simpl.
      apply filter_map_all. intros a. simpl. now rewrite Z.eqb_refl.
    + left. rewrite filter_map_none; [apply app_nil_r|].
      intros a. simpl. apply Z.eqb_neq in Hne. now rewrite Hne.
  - left. rewrite filter_map_none; [apply app_nil_r|].
    intros a. simpl. apply andb_false_r.
Qed.

Lemma batch_restorations (s s' : Store) (rows : list StockTransaction) (orderId : Z) :
  stock_transactions s' = stock_transactions s ++ rows ->
  Batch s s' rows ->
  restorationsOf s' orderId = restorationsOf s orderId
  \/ (restorationsOf s orderId = []
      /\ exists usage, NoDup (keys usage)
           /\ restorationsOf s' orderId
              = map (fun kq => restorationRow orderId (fst kq) (snd kq)) usage).
Proof.
  intros Htx Hb.
  assert (Happ : restorationsOf s' orderId
                 = restorationsOf s orderId
                   ++ filter (fun t => Js.opt_eqb (st_order_id t) orderId
                                       && String.eqb (st_reason t) restorationReason) rows).
  { unfold restorationsOf. now rewrite Htx, filter_app. }
  rewrite Happ. clear Happ Htx.
  destruct Hb as [_ | k usage _ _ _ _ | k usage Hnd Hnone _ _].
  - left. simpl. apply app_nil_r.
  - left. rewrite filter_map_none; [apply app_nil_r|].
    intros a. simpl. apply andb_false_r.
  - destruct (Z.eq_dec k orderId) as [->|Hne].
    + right. apply hasRestoration_none in Hnone. rewrite Hnone.
      split; [reflexivity|]. exists usage. split; [exact Hnd|]. simpl.
      apply filter_map_all. intros a. simpl. now rewrite Z.eqb_refl.
    + left. rewrite filter_map_none; [apply app_nil_r|].
      intros a. simpl. apply Z.eqb_neq in Hne. now rewrite Hne.
Qed.

Lemma sum_by_key (m : UsageMap) (i : Z) :
  NoDup (keys m) ->
  (sumQ (map snd (filter (fun kq => fst kq =? i) m)) == required m i)%Q.
Proof.
  induction m as [|[k q] m IH]; intros Hnd.
  - reflexivity.
  - inversion Hnd as [|? ? Hk Hnd']; subst. rewrite required_cons. cbn [filter fst].
    destruct (k =? i) eqn:E.
    + apply Z.eqb_eq in E. subst k. cbn [map sumQ fold_right snd].
      change (fold_right Qplus 0%Q (map snd (filter (fun kq => fst kq =? i) m)))
        with (sumQ (map snd (filter (fun kq => fst kq =? i) m))).
      rewrite (IH Hnd'), (required_not_key m i Hk). ring.
    + exact (IH Hnd').
Qed.

Lemma ledger_rows_sum (f : Z * Q -> StockTransaction) (g : Q -> Q) (m : UsageMap) (i : Z) :
  (forall kq, st_ingredient_id (f kq) = fst kq) ->
  (forall kq, st_quantity (f kq) = g (snd kq)) ->
  map st_quantity (filter (fun t => st_ingredient_id t =? i) (map f m))
  = map g (map snd (filter (fun kq => fst kq =? i) m)).
Proof.
  intros Hk Hq. induction m as [|kq m IH]; simpl; [reflexivity|].
  rewrite Hk. destruct (fst kq =? i); simpl; [rewrite Hq|]; now rewrite IH.
Qed.

Lemma sumQ_opp (l : list Q) : (sumQ (map Qopp l) == - sumQ l)%Q.
Proof.
  induction l as [|x l IH]; simpl; [reflexivity|].
  change (fold_right Qplus 0%Q (map Qopp l)) with (sumQ (map Qopp l)).
  change (fold_right Qplus 0%Q l) with (sumQ l).
  rewrite IH. ring.
Qed.

(** One request changes the stock of an ingredient by exactly what it
    appends to the ledger for that ingredient. *)
Lemma batch_audit (s s' : Store) (rows : list StockTransaction) (i : Z) :
  stock_transactions s' = stock_transactions s ++ rows ->
  Batch s s' rows ->
  (stockOf s' i - ledgerSum s' i == stockOf s i - ledgerSum s i)%Q.
Proof.
  intros Htx Hb. unfold ledgerSum. rewrite Htx, filter_app, map_app, sumQ_app.
  destruct Hb as [Hing | k usage Hnd _ _ Hstock | k usage Hnd _ _ Hstock].
  - rewrite (stockOf_ingredients s' s i Hing). simpl. ring.
  - rewrite (ledger_rows_sum _ Qopp usage i) by reflexivity.
    rewrite sumQ_opp, (sum_by_key usage i Hnd), Hstock. ring.
  - rewrite (ledger_rows_sum _ (fun q => q) usage i) by reflexivity.
    rewrite map_id, (sum_by_key usage i Hnd), Hstock. ring.
Qed.

Lemma perform_refers (sv : Server) (c : Call) :
  ledgerRefersToOrders (store sv) -> ledgerRefersToOrders (store (snd (perform sv c))).
Proof.
  destruct (perform_effect sv c) as (rows & Htx & Hb & Hincl).
  now apply (batch_refers _ _ rows).
Qed.

Lemma keys_deductionRows (orderId : Z) (usage : UsageMap) :
  map st_ingredient_id (map (fun kq => deductionRow orderId (fst kq) (snd kq)) usage)
  = keys usage.
Proof. rewrite map_map. reflexivity. Qed.

Lemma keys_restorationRows (orderId : Z) (usage : UsageMap) :
  map st_ingredient_id (map (fun kq => restorationRow orderId (fst kq) (snd kq)) usage)
  = keys usage.
Proof. rewrite map_map. reflexivity. Qed.

End LedgerInvariants.

(** X2.  Once the ledger holds deduction rows for an order, no sequence of
    requests (placing orders, [PUT], approve, cancel, in any order and by any
    caller) adds to them, removes or changes them: the stock of an order is
    deducted at most once. *)
Theorem deductions_written_once (sv : Server) (calls : list Router.Call) (orderId : Z) :
  Router.ledgerRefersToOrders (store sv) ->
  Orders.hasDeduction (store sv) orderId = true ->
  Router.deductionsOf (store (Router.performAll sv calls)) orderId
  = Router.deductionsOf (store sv) orderId.
Proof.
  intros Hfk Hd.
  enough (H : Router.ledgerRefersToOrders (store (Router.performAll sv calls))
              /\ Router.deductionsOf (store (Router.performAll sv calls)) orderId
                 = Router.deductionsOf (store sv) orderId) by apply H.
  apply (performAll_invariant
           (fun s => Router.ledgerRefersToOrders s
                     /\ Router.deductionsOf s orderId
                        = Router.deductionsOf (store sv) orderId));
    [|split; [exact Hfk | reflexivity]].
  intros sv1 c (Hfk1 & Heq). split; [now apply perform_refers|].
  destruct (perform_effect sv1 c) as (rows & Htx & Hb & _).
  destruct (batch_deductions _ _ rows orderId Htx Hb Hfk1) as [->|(Hnil & _)];
    [exact Heq|].
  rewrite Heq in Hnil. apply hasDeduction_none in Hnil. congruence.
Qed.

(** The order approved in [Sample.approved1] keeps its one deduction row when
    it is approved again, cancelled with restoration, re-approved through
    [PUT] and approved once more. *)
Lemma deductions_written_once_witness :
  Router.deductionsOf
    (store (Router.performAll
              {| store := Sample.approved1; recentRequests := [] |}
              [Router.CallApprove Sample.admin 1; Router.CallCancel Sample.admin 1 true;
               Router.CallPut Sample.admin 1 1; Router.CallApprove Sample.admin 1])) 1
  = Router.deductionsOf Sample.approved1 1.
Proof.
  apply (deductions_written_once {| store := Sample.approved1; recentRequests := [] |}).
  - intros t k Hin Hk. vm_compute in Hin. destruct Hin as [<-|[]].
    inversion Hk. vm_compute. now left.
  - vm_compute. reflexivity.
Defined.

(** X3.  Starting from a ledger without deduction rows for an order, after
    any sequence of requests the order has at most one deduction row per
    ingredient. *)
Theorem deductions_one_per_ingredient (sv : Server) (calls : list Router.Call) (orderId : Z) :
  Router.ledgerRefersToOrders (store sv) ->
  Orders.hasDeduction (store sv) orderId = false ->
  NoDup (map st_ingredient_id
           (Router.deductionsOf (store (Router.performAll sv calls)) orderId)).
Proof.
  intros Hfk Hd. apply hasDeduction_none in Hd.
  enough (H : Router.ledgerRefersToOrders (store (Router.performAll sv calls))
              /\ NoDup (map st_ingredient_id
                          (Router.deductionsOf (store (Router.performAll sv calls)) orderId)))
    by apply H.
  apply (performAll_invariant
           (fun s => Router.ledgerRefersToOrders s
                     /\ NoDup (map st_ingredient_id (Router.deductionsOf s orderId))));
    [|split; [exact Hfk | rewrite Hd; constructor]].
  intros sv1 c (Hfk1 & Hnd). split; [now apply perform_refers|].
  destruct (perform_effect sv1 c) as (rows & Htx & Hb & _).
  destruct (batch_deductions _ _ rows orderId Htx Hb Hfk1)
    as [->|(_ & usage & Hu & ->)]; [exact Hnd|].
  now rewrite keys_deductionRows.
Qed.

Lemma deductions_one_per_ingredient_witness :
  NoDup (map st_ingredient_id
           (Router.deductionsOf
              (store (Router.performAll Sample.server
                        [Router.CallApprove Sample.admin 1;
                         Router.CallCancel Sample.admin 1 true;
                         Router.CallPut Sample.admin 1 0;
                         Router.CallApprove Sample.admin 1])) 1)).
Proof.
  apply (deductions_one_per_ingredient Sample.server).
  - intros t k Hin. destruct Hin.
  - reflexivity.
Defined.

(** X4.  Once the ledger holds restoration rows for an order, no sequence of
    requests adds to them, removes or changes them: the stock of an order is
    restored at most once. *)
Theorem restorations_written_once (sv : Server) (calls : list Router.Call) (orderId : Z) :
  Orders.hasRestoration (store sv) orderId = true ->
  Router.restorationsOf (store (Router.performAll sv calls)) orderId
  = Router.restorationsOf (store sv) orderId.
Proof.
  intros Hr.
  apply (performAll_invariant
           (fun s => Router.restorationsOf s orderId
                     = Router.restorationsOf (store sv) orderId));
    [|reflexivity].
  intros sv1 c Heq.
  destruct (perform_effect sv1 c) as (rows & Htx & Hb & _).
  destruct (batch_restorations _ _ rows orderId Htx Hb) as [->|(Hnil & _)];
    [exact Heq|].
  rewrite Heq in Hnil. apply hasRestoration_none in Hnil. congruence.
Qed.

Lemma restorations_written_once_witness :
  Router.restorationsOf
    (store (Router.performAll
              {| store := Sample.cancelled1; recentRequests := [] |}
              [Router.CallPut Sample.admin 1 1; Router.CallCancel Sample.admin 1 true;
               Router.CallApprove Sample.admin 1; Router.CallCancel Sample.admin 1 true])) 1
  = Router.restorationsOf Sample.cancelled1 1.
Proof.
  apply (restorations_written_once {| store := Sample.cancelled1; recentRequests := [] |}).
  vm_compute. reflexivity.
Defined.

(** X5.  Starting from a ledger without restoration rows for an order, after
    any sequence of requests the order has at most one restoration row per
    ingredient. *)
Theorem restorations_one_per_ingredient (sv : Server) (calls : list Router.Call) (orderId : Z) :
  Orders.hasRestoration (store sv) orderId = false ->
  NoDup (map st_ingredient_id
           (Router.restorationsOf (store (Router.performAll sv calls)) orderId)).
Proof.
  intros Hr. apply hasRestoration_none in Hr.
  apply (performAll_invariant
           (fun s => NoDup (map st_ingredient_id (Router.restorationsOf s orderId))));
    [|rewrite Hr; constructor].
  intros sv1 c Hnd.
  destruct (perform_effect sv1 c) as (rows & Htx & Hb & _).
  destruct (batch_restorations _ _ rows orderId Htx Hb)
    as [->|(_ & usage & Hu & ->)]; [exact Hnd|].
  now rewrite keys_restorationRows.
Qed.

Lemma restorations_one_per_ingredient_witness :
  NoDup (map st_ingredient_id
           (Router.restorationsOf
              (store (Router.performAll Sample.server
                        [Router.CallApprove Sample.admin 1;
                         Router.CallCancel Sample.admin 1 true;
                         Router.CallPut Sample.admin 1 1;
                         Router.CallCancel Sample.admin 1 true])) 1)).
Proof.
  apply (restorations_one_per_ingredient Sample.server). reflexivity.
Defined.

(** X6.  The stock and the ledger move together: over any sequence of
    requests the stock of an ingredient changes by exactly the sum of the
    signed quantities the requests add to the ledger for that ingredient. *)
Theorem stock_matches_ledger (sv : Server) (calls : list Router.Call) (i : Z) :
  (Orders.stockOf (store (Router.performAll sv calls)) i
   - Router.ledgerSum (store (Router.performAll sv calls)) i
   == Orders.stockOf (store sv) i - Router.ledgerSum (store sv) i)%Q.
Proof.
  apply (performAll_invariant
           (fun s => (Orders.stockOf s i - Router.ledgerSum s i
                      == Orders.stockOf (store sv) i - Router.ledgerSum (store sv) i)%Q));
    [|reflexivity].
  intros sv1 c Heq.
  destruct (perform_effect sv1 c) as (rows & Htx & Hb & _).
  rewrite (batch_audit _ _ rows i Htx Hb). exact Heq.
Qed.

(** ** The stages of [POST /orders] *)

Section PostFacts.
Import StockLedger Orders Pricing Admission Router.

Ltac split_handler :=
  repeat match goal with
         | |- context [match ?x with _ => _ end] => destruct x
         end.

(** The admission checks in the order the handler runs them, with what each
    rejection leaves behind; a request that passes them is recorded in
    [recentRequests], whatever happens to it afterwards. *)
Lemma postOrders_guard (sv sv' : Server) (r : OrderRequest) (resp : Response) :
  postOrders sv r = (resp, sv') ->
  (resp = Failed InvalidDeviceId /\ deviceRejected r = true
   /\ store sv' = store sv /\ recentRequests sv' = recentRequests sv)
  \/ (resp = Failed RateLimitExceeded /\ deviceRejected r = false
      /\ rateLimited r (store sv) = true
      /\ store sv' = afterPurge r (store sv) /\ recentRequests sv' = recentRequests sv)
  \/ (resp = Failed InvalidSessionId /\ deviceRejected r = false
      /\ rateLimited r (store sv) = false /\ blank (sessionId r) = true
      /\ store sv' = afterPurge r (store sv) /\ recentRequests sv' = recentRequests sv)
  \/ (resp = Failed DuplicateOrder /\ deviceRejected r = false
      /\ rateLimited r (store sv) = false /\ blank (sessionId r) = false
      /\ existsb (String.eqb (orderHash r)) (recentRequests sv) = true
      /\ store sv' = afterPurge r (store sv) /\ recentRequests sv' = recentRequests sv)
  \/ (deviceRejected r = false /\ rateLimited r (store sv) = false
      /\ blank (sessionId r) = false
      /\ existsb (String.eqb (orderHash r)) (recentRequests sv) = false
      /\ recentRequests sv' = recentRequests sv ++ [orderHash r]).
Proof.
  unfold postOrders. cbv zeta.
  change (negb (isStaffRequest r)
          && (String.eqb (deviceIdOf r) "" || String.eqb (deviceIdOf r) "unknown"
              || negb (uuidRegex (deviceIdOf r)))) with (deviceRejected r).
  destruct (deviceRejected r) eqn:Hdev.
  { inversion 1. left. repeat split. }
  change (if isStaffRequest r then store sv else purgeLimits (now r) (store sv))
    with (afterPurge r (store sv)).
  change (negb (isStaffRequest r) && (3 <=? orderCount r (afterPurge r (store sv)))%nat)
    with (rateLimited r (store sv)).
  destruct (rateLimited r (store sv)) eqn:Hrate.
  { inversion 1. right. left. repeat split. }
  destruct (sessionId r) as [session|] eqn:Hs;
    [|inversion 1; right; right; left; repeat split].
  destruct (blank (Some session)) eqn:Hb.
  { inversion 1. right. right. left. repeat split. }
  destruct (existsb (String.eqb (orderHash r)) (recentRequests sv)) eqn:Hdup.
  { inversion 1. right. right. right. left. repeat split. }
  intros H. right. right. right. right.
  repeat (split; [reflexivity|]).
  revert H. split_handler; inversion 1; reflexivity.
Qed.

(** Every stage an admitted order has passed. *)
Lemma postOrders_created (sv sv' : Server) (r : OrderRequest) (orderId : Z) :
  postOrders sv r = (Created201 orderId, sv') ->
  exists session ot afterItems bmap total s2 tid total',
    sessionId r = Some session
    /\ order_type r = Some ot
    /\ (ot = local -> Js.truthy (table_id r) = true)
    /\ verifyItems (afterPurge r (store sv)) (items r) 0 = inr afterItems
    /\ verifyBreakfasts (afterPurge r (store sv)) (breakfastItems r) ([], afterItems)
       = inr (bmap, total)
    /\ resolveTable (afterPurge r (store sv)) r = inr (s2, tid)
    /\ applyPromotion s2 (now r) (promotion_id r) (items r) (breakfastItems r) total
       = inr total'
    /\ Js.differs (total_price r) total' = false
    /\ persistOrder s2 r session ot total' tid bmap = (Created201 orderId, store sv').
Proof.
  unfold postOrders. cbv zeta.
  destruct (negb (isStaffRequest r) && _); [discriminate|].
  change (if isStaffRequest r then store sv else purgeLimits (now r) (store sv))
    with (afterPurge r (store sv)).
  set (s1 := afterPurge r (store sv)).
  destruct (negb (isStaffRequest r) && _); [discriminate|].
  destruct (sessionId r) as [session|]; [|discriminate].
  destruct (blank (Some session)); [discriminate|].
  destruct (existsb _ (recentRequests sv)); [discriminate|].
  assert (Hrest : forall ot,
    (if match ot with local => negb (Js.truthy (table_id r)) | _ => false end
     then (Failed TableIdRequired,
           {| store := s1; recentRequests := recentRequests sv ++ [orderHash r] |})
     else if match ot with delivery => blank (delivery_address r) | _ => false end
     then (Failed DeliveryAddressRequired,
           {| store := s1; recentRequests := recentRequests sv ++ [orderHash r] |})
     else
       match verifyItems s1 (items r) 0 with
       | inl e0 => (Failed e0,
                    {| store := s1; recentRequests := recentRequests sv ++ [orderHash r] |})
       | inr afterItems =>
           match verifyBreakfasts s1 (breakfastItems r) ([], afterItems) with
           | inl e0 => (Failed e0,
                        {| store := s1; recentRequests := recentRequests sv ++ [orderHash r] |})
           | inr (breakfastMap, calculatedTotal) =>
               match resolveTable s1 r with
               | inl e0 => (Failed e0,
                            {| store := s1;
                               recentRequests := recentRequests sv ++ [orderHash r] |})
               | inr (s2, effectiveTableId) =>
                   match applyPromotion s2 (now r) (promotion_id r) (items r)
                           (breakfastItems r) calculatedTotal with
                   | inl e0 => (Failed e0,
                                {| store := s2;
                                   recentRequests := recentRequests sv ++ [orderHash r] |})
                   | inr calculatedTotal0 =>
                       if Js.differs (total_price r) calculatedTotal0
                       then (Failed (TotalPriceMismatch calculatedTotal0 (total_price r)),
                             {| store := s2;
                                recentRequests := recentRequests sv ++ [orderHash r] |})
                       else
                         let '(response, s3) :=
                           persistOrder s2 r session ot calculatedTotal0
                             effectiveTableId breakfastMap in
                         (response,
                          {| store := s3;
                             recentRequests := recentRequests sv ++ [orderHash r] |})
                   end
               end
           end
       end) = (Created201 orderId, sv') ->
    exists afterItems bmap total s2 tid total',
      (ot = local -> Js.truthy (table_id r) = true)
      /\ verifyItems s1 (items r) 0 = inr afterItems
      /\ verifyBreakfasts s1 (breakfastItems r) ([], afterItems) = inr (bmap, total)
      /\ resolveTable s1 r = inr (s2, tid)
      /\ applyPromotion s2 (now r) (promotion_id r) (items r) (breakfastItems r) total
         = inr total'
      /\ Js.differs (total_price r) total' = false
      /\ persistOrder s2 r session ot total' tid bmap = (Created201 orderId, store sv')).
  { intros ot.
    destruct (match ot with local => negb (Js.truthy (table_id r)) | _ => false end) eqn:Hloc;
      [discriminate|].
    destruct (match ot with delivery => _ | _ => false end); [discriminate|].
    destruct (verifyItems s1 (items r) 0) as [e0|afterItems] eqn:Hvi; [discriminate|].
    destruct (verifyBreakfasts s1 (breakfastItems r) ([], afterItems)) as [e0|[bmap total]]
      eqn:Hvb; [discriminate|].
    destruct (resolveTable s1 r) as [e0|[s2 tid]] eqn:Hrt; [discriminate|].
    destruct (applyPromotion s2 (now r) (promotion_id r) (items r) (breakfastItems r) total)
      as [e0|total'] eqn:Hap; [discriminate|].
    destruct (Js.differs (total_price r) total') eqn:Hdiff; [discriminate|].
    destruct (persistOrder s2 r session ot total' tid bmap) as [resp0 s3] eqn:Hpo.
    inversion 1; subst.
    exists afterItems, bmap, total, s2, tid, total'.
    split; [intros ->; now apply negb_false_iff in Hloc|].
    repeat split; try reflexivity; try assumption; exact Hpo. }
  destruct (order_type r) as [ot|].
  - intros H.
    assert (H' : exists afterItems bmap total s2 tid total',
      (ot = local -> Js.truthy (table_id r) = true)
      /\ verifyItems s1 (items r) 0 = inr afterItems
      /\ verifyBreakfasts s1 (breakfastItems r) ([], afterItems) = inr (bmap, total)
      /\ resolveTable s1 r = inr (s2, tid)
      /\ applyPromotion s2 (now r) (promotion_id r) (items r) (breakfastItems r) total
         = inr total'
      /\ Js.differs (total_price r) total' = false
      /\ persistOrder s2 r session ot total' tid bmap = (Created201 orderId, store sv')).
    { apply Hrest. destruct (items r), (breakfastItems r); try discriminate; exact H. }
    destruct H' as (afterItems & bmap & total & s2 & tid & total' & H').
    exists session, ot, afterItems, bmap, total, s2, tid, total'.
    repeat split; try reflexivity; apply H'.
  - destruct (items r), (breakfastItems r); discriminate.
Qed.

End PostFacts.

(** X7.  An order whose stock has once been deducted is never approved by
    [POST /orders/:id/approve] again, whatever requests were served in
    between (cancellation with restored stock included): the endpoint answers
    an error and leaves the store as it is. *)
Theorem approve_refused_once_deducted (sv : Server) (calls : list Router.Call)
    (u : option RequestUser) (orderId : Z) :
  Router.ledgerRefersToOrders (store sv) ->
  Orders.hasDeduction (store sv) orderId = true ->
  exists e,
    Orders.approve (store (Router.performAll sv calls)) u orderId
    = (Failed e, store (Router.performAll sv calls)).
Proof.
  intros Hfk Hd.
  assert (H : Router.ledgerRefersToOrders (store (Router.performAll sv calls))
              /\ Orders.hasDeduction (store (Router.performAll sv calls)) orderId = true).
  { apply (performAll_invariant
             (fun s => Router.ledgerRefersToOrders s
                       /\ Orders.hasDeduction s orderId = true));
      [|split; assumption].
    intros sv1 c (Hfk1 & Hd1). split; [now apply perform_refers|].
    destruct (perform_effect sv1 c) as (rows & Htx & Hb & _).
    destruct (Orders.hasDeduction (store (snd (Router.perform sv1 c))) orderId) eqn:E;
      [reflexivity|].
    apply hasDeduction_none in E.
    destruct (batch_deductions _ _ rows orderId Htx Hb Hfk1) as [Heq|(Hnil & _)].
    - rewrite E in Heq. symmetry in Heq. apply hasDeduction_none in Heq. congruence.
    - apply hasDeduction_none in Hnil. congruence. }
  destruct H as (_ & Hd').
  destruct (approve_cases (store (Router.performAll sv calls)) u orderId)
    as [He|(s1 & Hok)]; [exact He|].
  apply approve_ok_inv in Hok.
  destruct Hok as (? & ? & ? & _ & _ & _ & _ & Hnone & _). congruence.
Qed.

(** After approval, cancellation with restored stock and a [PUT] that clears
    the approved flag, order 1 is still refused. *)
Lemma approve_refused_once_deducted_witness :
  exists e,
    Orders.approve
      (store (Router.performAll {| store := Sample.approved1; recentRequests := [] |}
                [Router.CallCancel Sample.admin 1 true; Router.CallPut Sample.admin 1 0]))
      Sample.admin 1
    = (Failed e,
       store (Router.performAll {| store := Sample.approved1; recentRequests := [] |}
                [Router.CallCancel Sample.admin 1 true; Router.CallPut Sample.admin 1 0])).
Proof.
  apply (approve_refused_once_deducted
           {| store := Sample.approved1; recentRequests := [] |}).
  - intros t k Hin Hk. vm_compute in Hin. destruct Hin as [<-|[]].
    inversion Hk. vm_compute. now left.
  - vm_compute. reflexivity.
Defined.

(** X8.  A cancellation touches neither the stock nor the ledger when
    [restoreStock] is false, when the order is not marked approved, or when
    the ledger holds no deduction for the order; this holds whatever the
    answer is. *)
Theorem cancel_without_restoration (s s' : Store) (u : option RequestUser) (orderId : Z)
    (restoreStock : bool) (resp : Response) :
  Orders.cancel s u orderId restoreStock = (resp, s') ->
  restoreStock = false
  \/ Orders.hasDeduction s orderId = false
  \/ (forall order rest, Orders.selectOrder s orderId = order :: rest ->
                         o_approved order = false) ->
  ingredients s' = ingredients s /\ stock_transactions s' = stock_transactions s.
Proof.
  intros Hc Hno. apply cancel_cases in Hc.
  destruct Hc as [(e & _ & ->) | (order & rest & _ & _ & _ & Hsel & _ &
                    [(_ & ->) | (Hrs & Ha & _ & Hd & _)])].
  - split; reflexivity.
  - split; reflexivity.
  - destruct Hno as [Hno|[Hno|Hno]]; [congruence | congruence |].
    specialize (Hno _ _ Hsel). congruence.
Qed.

Lemma cancel_without_restoration_witness :
  ingredients (snd (Orders.cancel Sample.approved1 Sample.admin 1 false))
  = ingredients Sample.approved1
  /\ stock_transactions (snd (Orders.cancel Sample.approved1 Sample.admin 1 false))
     = stock_transactions Sample.approved1.
Proof.
  apply (cancel_without_restoration Sample.approved1 _ Sample.admin 1 false
           (fst (Orders.cancel Sample.approved1 Sample.admin 1 false))).
  - vm_compute. reflexivity.
  - left. reflexivity.
Defined.

(** X9.  An order marked approved through [PUT /orders/:id] is refused by
    [POST /orders/:id/approve] with AlreadyApproved, whatever its status and
    its ledger were before: its stock is not deducted by that route
    afterwards. *)
Theorem put_then_approve (s : Store) (u : option RequestUser) (orderId : Z)
    (row : Order) (rows : list Order) :
  Orders.unauthorised s u = false -> 0 < orderId ->
  Orders.selectOrder s orderId = row :: rows ->
  exists s1,
    Orders.putOrder s u orderId 1 = (Ok200 "Order status updated", s1)
    /\ Orders.approve s1 u orderId = (Failed AlreadyApproved, s1)
    /\ (forall i, Orders.stockOf s1 i = Orders.stockOf s i).
Proof.
  intros Hu Hid Hsel.
  exists (Orders.updateOrder orderId true preparing s).
  split; [|split].
  - unfold Orders.putOrder. rewrite Hu. apply Z.leb_gt in Hid. rewrite Hid.
    simpl. now rewrite Hsel.
  - apply (approve_already_approved _ u orderId (Orders.setApproval true preparing row)
             (map (Orders.setApproval true preparing) rows)).
    + rewrite <- Hu. now apply unauthorised_users.
    + exact Hid.
    + now rewrite selectOrder_updateOrder, Hsel.
    + reflexivity.
    + discriminate.
  - intros i. now apply stockOf_ingredients.
Qed.

(** The cancelled order of [Sample.cancelled1], whose stock was restored, is
    marked approved again through [PUT]; approving it afterwards is refused. *)
Lemma put_then_approve_witness :
  exists s1,
    Orders.putOrder Sample.cancelled1 Sample.admin 1 1 = (Ok200 "Order status updated", s1)
    /\ Orders.approve s1 Sample.admin 1 = (Failed AlreadyApproved, s1)
    /\ (forall i, Orders.stockOf s1 i = Orders.stockOf Sample.cancelled1 i).
Proof.
  apply (put_then_approve Sample.cancelled1 Sample.admin 1
           (Orders.setApproval false cancelled (Sample.order 1 18)) []).
  - vm_compute. reflexivity.
  - reflexivity.
  - vm_compute. reflexivity.
Defined.

(** ** What an admitted order leaves in the store *)

Section CreatedFacts.
Import StockLedger Orders Pricing Admission Router.

Lemma update_fresh (orderId : Z) (f : Order -> Order) (l : list Order) :
  ~ In orderId (map o_id l) ->
  map (fun o => if o_id o =? orderId then f o else o) l = l.
Proof.
  induction l as [|o l IH]; simpl; [reflexivity|]. intros H.
  destruct (o_id o =? orderId) eqn:E.
  - apply Z.eqb_eq in E. exfalso. apply H. now left.
  - rewrite IH; [reflexivity|]. intros Hin. apply H. now right.
Qed.

Lemma persistOrder_rows (s s' : Store) (r : OrderRequest) (session : string)
    (ot : OrderType) (total : Q) (tid : option Z) (bmap : list BreakfastEntry) (orderId : Z) :
  persistOrder s r session ot total tid bmap = (Created201 orderId, s') ->
  orderId = nextId (map o_id (orders s))
  /\ orders s'
     = orders s
       ++ [{| o_id := orderId; o_total_price := total; o_order_type := ot;
              o_delivery_address := nonEmpty (delivery_address r);
              o_promotion_id := nonZero (promotion_id r);
              o_table_id := match ot with local => tid | _ => None end;
              o_session_id := session; o_notes := nonEmpty (notes r);
              o_status := if isStaffRequest r then preparing else pending;
              o_approved := isStaffRequest r |}]
  /\ users s' = users s /\ tables s' = tables s
  /\ device_order_limits s'
     = device_order_limits s ++ (if isStaffRequest r then [] else limitRows r)
  /\ (isStaffRequest r = true ->
      notifications s' = notifications s
      /\ stock_transactions s'
         = stock_transactions s
           ++ map (fun kq => deductionRow orderId (fst kq) (snd kq))
                (ingredientUsage s' orderId)
      /\ (forall i, (stockOf s' i
                     == stockOf s i - required (ingredientUsage s' orderId) i)%Q))
  /\ (isStaffRequest r = false ->
      ingredients s' = ingredients s
      /\ stock_transactions s' = stock_transactions s
      /\ exists n, notifications s' = notifications s ++ [n] /\ n_reference_id n = orderId).
Proof.
  unfold persistOrder. cbv zeta.
  set (orderId0 := nextId (map o_id (orders (work (beginTransaction s))))).
  set (w2 := insertLimits r (insertOrder r orderId0 total tid ot session
                               (work (beginTransaction s)))).
  set (w3 := fold_left (insertItem orderId0) (items r) w2).
  set (w4 := fold_left (insertBreakfast orderId0) bmap w3).
  assert (Hw4 : orders w4 = orders (insertOrder r orderId0 total tid ot session s)
                /\ users w4 = users s /\ tables w4 = tables s
                /\ device_order_limits w4
                   = device_order_limits s ++ (if isStaffRequest r then [] else limitRows r)
                /\ stock_transactions w4 = stock_transactions s
                /\ ingredients w4 = ingredients s
                /\ notifications w4 = notifications s).
  { destruct (insertBreakfasts_shape orderId0 bmap w3) as (v1 & v2 & Hv2).
    destruct (insertItems_shape orderId0 (items r) w2) as (v & Hv).
    fold w4 in Hv2. fold w3 in Hv. rewrite Hv2, Hv. subst w2.
    unfold insertLimits, limitRows. destruct (isStaffRequest r); simpl;
      rewrite ?app_nil_r; repeat split. }
  destruct Hw4 as (Ho4 & Hu4 & Htab & Hlim & Htx & Hing & Hn4).
  change (on_work (on_work (on_work (on_work (beginTransaction s)
            (insertOrder r orderId0 total tid ot session)) (insertLimits r))
            (fun w => fold_left (insertItem orderId0) (items r) w))
            (fun w => fold_left (insertBreakfast orderId0) bmap w))
    with {| snapshot := s; work := w4 |}.
  change (nextId (map o_id (orders s))) with orderId0.
  assert (Hfresh : ~ In orderId0 (map o_id (orders s))) by apply nextId_fresh.
  destruct (isStaffRequest r) eqn:Hstaff.
  - match goal with
    | |- context [deductStock ?a ?b ?c] => destruct (deductStock a b c) as [e1|c5] eqn:Hd
    end; [discriminate|].
    intros H. inversion H; subst orderId s'. clear H.
    apply deductStock_ok in Hd; [|apply NoDup_keys_ingredientUsage].
    destruct Hd as (_ & Hsame & Htx5 & Hstock & _).
    cbn [work] in Hsame, Htx5, Hstock.
    pose proof (ingredientUsage_sameButStock _ _ orderId0 Hsame) as Husage.
    apply sameButStock_fields in Hsame.
    destruct Hsame as (Hu & Ho & _ & _ & _ & _ & _ & _ & Ht & Hn & Hl).
    unfold commit, on_work. cbn [work].
    split; [reflexivity|]. split.
    { unfold updateOrder. cbn [orders with_orders]. rewrite Ho, Ho4.
      unfold insertOrder. cbn [orders with_orders]. rewrite Hstaff, map_app.
      rewrite (update_fresh orderId0 _ (orders s) Hfresh). cbn [map o_id].
      now rewrite Z.eqb_refl. }
    split; [cbn; now rewrite Hu|]. split; [cbn; now rewrite Ht|].
    split; [cbn; now rewrite Hl|]. split.
    + intros _. split; [cbn; now rewrite Hn|].
      change (ingredientUsage (updateOrder orderId0 true preparing (work c5)) orderId0)
        with (ingredientUsage (work c5) orderId0).
      rewrite Husage. split; [cbn; now rewrite Htx5, Htx|].
      intros i. rewrite <- (stockOf_ingredients w4 s i Hing). exact (Hstock i).
    + discriminate.
  - intros H. inversion H; subst orderId s'. clear H.
    unfold commit, on_work. cbn [work].
    split; [reflexivity|]. split.
    { cbn. rewrite Ho4. unfold insertOrder. cbn. now rewrite Hstaff. }
    split; [exact Hu4|]. split; [exact Htab|]. split; [exact Hlim|].
    split; [discriminate|]. intros _.
    split; [exact Hing|]. split; [exact Htx|].
    eexists. split; [cbn; rewrite Hn4; reflexivity | reflexivity].
Qed.

Lemma differs_false_close (a b : Q) :
  Js.differs a b = false -> (Qabs (a - b) <= 1 # 100)%Q.
Proof. unfold Js.differs. apply lt_false_le. Qed.

Lemma resolveTable_frame (s s2 : Store) (r : OrderRequest) (tid : option Z) :
  resolveTable s r = inr (s2, tid) ->
  orders s2 = orders s /\ users s2 = users s
  /\ device_order_limits s2 = device_order_limits s
  /\ notifications s2 = notifications s
  /\ ingredients s2 = ingredients s
  /\ stock_transactions s2 = stock_transactions s.
Proof.
  intros H. apply resolveTable_ok in H.
  destruct H as [->|(_ & tableId & ->)]; repeat split.
Qed.

Lemma afterPurge_frame (r : OrderRequest) (s : Store) :
  orders (afterPurge r s) = orders s /\ users (afterPurge r s) = users s
  /\ tables (afterPurge r s) = tables s
  /\ notifications (afterPurge r s) = notifications s
  /\ ingredients (afterPurge r s) = ingredients s
  /\ stock_transactions (afterPurge r s) = stock_transactions s
  /\ device_order_limits (afterPurge r s)
     = if isStaffRequest r then device_order_limits s
       else device_order_limits (purgeLimits (now r) s).
Proof. unfold afterPurge. destruct (isStaffRequest r); repeat split. Qed.

End CreatedFacts.

(** X10.  An admitted order adds exactly one row to [orders], under an id
    no earlier order has.  The total stored in the row is the total the
    server computed: the result of the line loops over the cart, replaced
    by the result of the promotion stage when that stage recomputes it; it
    is not taken from the request.  The row carries the session and the
    order type of the request; it is [pending] and not approved for a
    guest, [preparing] and approved for the staff console. *)
Theorem created_order_row (sv sv' : Server) (r : OrderRequest) (orderId : Z) :
  Admission.postOrders sv r = (Created201 orderId, sv') ->
  exists row afterItems breakfastMap total s2 tid,
    orders (store sv') = orders (store sv) ++ [row]
    /\ o_id row = orderId
    /\ ~ In orderId (map o_id (orders (store sv)))
    /\ Pricing.verifyItems (Router.afterPurge r (store sv)) (items r) 0 = inr afterItems
    /\ Pricing.verifyBreakfasts (Router.afterPurge r (store sv)) (breakfastItems r)
         ([], afterItems) = inr (breakfastMap, total)
    /\ Admission.resolveTable (Router.afterPurge r (store sv)) r = inr (s2, tid)
    /\ Pricing.applyPromotion s2 (now r) (promotion_id r) (items r) (breakfastItems r) total
       = inr (o_total_price row)
    /\ sessionId r = Some (o_session_id row)
    /\ order_type r = Some (o_order_type row)
    /\ o_approved row = Admission.isStaffRequest r
    /\ o_status row = (if Admission.isStaffRequest r then preparing else pending).
Proof.
  intros H. apply postOrders_created in H.
  destruct H as (session & ot & afterItems & bmap & total & s2 & tid & total'
                 & Hs & Hot & _ & Hvi & Hvb & Hrt & Hap & _ & Hpo).
  pose proof (resolveTable_frame _ _ _ _ Hrt) as (Ho2 & _).
  destruct (afterPurge_frame r (store sv)) as (Ho1 & _).
  apply persistOrder_rows in Hpo. destruct Hpo as (Hid & Hrow & _).
  rewrite Ho2, Ho1 in Hrow, Hid.
  eexists. exists afterItems, bmap, total, s2, tid.
  split; [exact Hrow|]. cbn.
  split; [reflexivity|]. split; [rewrite Hid; apply nextId_fresh|].
  repeat split; assumption.
Qed.

Lemma created_order_row_witness :
  exists row afterItems breakfastMap total s2 tid,
    orders (store (snd (Admission.postOrders Sample.server Sample.breakfastOrder)))
    = orders (store Sample.server) ++ [row]
    /\ o_id row = 3
    /\ ~ In 3 (map o_id (orders (store Sample.server)))
    /\ Pricing.verifyItems (Router.afterPurge Sample.breakfastOrder (store Sample.server))
         (items Sample.breakfastOrder) 0 = inr afterItems
    /\ Pricing.verifyBreakfasts (Router.afterPurge Sample.breakfastOrder (store Sample.server))
         (breakfastItems Sample.breakfastOrder) ([], afterItems)
       = inr (breakfastMap, total)
    /\ Admission.resolveTable (Router.afterPurge Sample.breakfastOrder (store Sample.server))
         Sample.breakfastOrder = inr (s2, tid)
    /\ Pricing.applyPromotion s2 (now Sample.breakfastOrder)
         (promotion_id Sample.breakfastOrder) (items Sample.breakfastOrder)
         (breakfastItems Sample.breakfastOrder) total
       = inr (o_total_price row)
    /\ sessionId Sample.breakfastOrder = Some (o_session_id row)
    /\ order_type Sample.breakfastOrder = Some (o_order_type row)
    /\ o_approved row = Admission.isStaffRequest Sample.breakfastOrder
    /\ o_status row
       = (if Admission.isStaffRequest Sample.breakfastOrder then preparing else pending).
Proof.
  apply (created_order_row Sample.server
           (snd (Admission.postOrders Sample.server Sample.breakfastOrder))
           Sample.breakfastOrder 3).
  vm_compute. reflexivity.
Defined.

(** ** Admission, rate limit and duplicate guard *)

Section AdmissionEffects.
Import StockLedger Orders Pricing Admission Router.

Lemma nextId_pos (l : list Z) : 0 < nextId l.
Proof.
  unfold nextId. induction l as [|x l IH]; cbn [fold_right]; [lia|].
  pose proof (Z.le_max_r x (fold_right Z.max 0 l)). lia.
Qed.

Lemma selectOrder_fresh (orderId : Z) (l : list Order) :
  ~ In orderId (map o_id l) -> filter (fun o => o_id o =? orderId) l = [].
Proof.
  induction l as [|o l IH]; simpl; [reflexivity|]. intros H.
  destruct (o_id o =? orderId) eqn:E.
  - apply Z.eqb_eq in E. exfalso. apply H. now left.
  - apply IH. intros Hin. apply H. now right.
Qed.

(** The store an admitted order is persisted from differs from the store of
    the request only in the purged limit rows and the table status. *)
Lemma postOrders_persisted (sv sv' : Server) (r : OrderRequest) (orderId : Z) :
  postOrders sv r = (Created201 orderId, sv') ->
  exists session ot total tid bmap s2,
    persistOrder s2 r session ot total tid bmap = (Created201 orderId, store sv')
    /\ orders s2 = orders (store sv) /\ users s2 = users (store sv)
    /\ notifications s2 = notifications (store sv)
    /\ ingredients s2 = ingredients (store sv)
    /\ stock_transactions s2 = stock_transactions (store sv)
    /\ device_order_limits s2
       = if isStaffRequest r then device_order_limits (store sv)
         else device_order_limits (purgeLimits (now r) (store sv)).
Proof.
  intros H. apply postOrders_created in H.
  destruct H as (session & ot & afterItems & bmap & total & s2 & tid & total'
                 & _ & _ & _ & _ & _ & Hrt & _ & _ & Hpo).
  apply resolveTable_frame in Hrt.
  destruct Hrt as (Ho & Hu & Hl & Hn & Hi & Ht).
  destruct (afterPurge_frame r (store sv)) as (Ho1 & Hu1 & _ & Hn1 & Hi1 & Ht1 & Hl1).
  exists session, ot, total', tid, bmap, s2.
  split; [exact Hpo|].
  rewrite Ho, Hu, Hl, Hn, Hi, Ht. repeat split; assumption.
Qed.

Lemma filter_map_In {A B : Type} (p : B -> bool) (f : A -> B) (l : list A) :
  (forall a, In a l -> p (f a) = true) -> filter p (map f l) = map f l.
Proof.
  induction l as [|a l IH]; intros H; simpl; [reflexivity|].
  rewrite (H a) by now left. rewrite IH; [reflexivity|].
  intros b Hb. apply H. now right.
Qed.

Lemma length_filter_app {A : Type} (p : A -> bool) (l1 l2 : list A) :
  List.length (filter p (l1 ++ l2))
  = (List.length (filter p l1) + List.length (filter p l2))%nat.
Proof. now rewrite filter_app, length_app. Qed.

(** The limit rows of a request survive the purge of a request at most one
    hour later. *)
Lemma limitRows_kept (r : OrderRequest) (t : Z) :
  t - 3600 <= now r ->
  filter (fun l => negb (dol_order_timestamp l <? t - 3600)) (limitRows r) = limitRows r.
Proof.
  intros H. unfold limitRows. apply filter_map_all. intros fp. cbn.
  destruct (Z.ltb_spec (now r) (t - 3600)); [lia | reflexivity].
Qed.

(** ... and are counted against a request with the same fingerprints. *)
Lemma limitRows_counted (r r' : OrderRequest) :
  deviceFingerprint r' = deviceFingerprint r -> ipFingerprint r' = ipFingerprint r ->
  now r' - 3600 <= now r ->
  filter (fun l => existsb (String.eqb (dol_device_fingerprint l)) (fingerprintsOf r')
                   && (now r' - 3600 <=? dol_order_timestamp l))
    (limitRows r)
  = limitRows r.
Proof.
  intros Hd Hi Ht. unfold limitRows. apply filter_map_In. intros fp Hfp. cbn.
  destruct (Z.leb_spec (now r' - 3600) (now r)); [|lia]. rewrite andb_true_r.
  unfold fingerprintsOf in *. rewrite Hd, Hi.
  destruct (String.eqb (deviceFingerprint r) (ipFingerprint r)); cbn in *.
  - destruct Hfp as [<-|[]]. now rewrite String.eqb_refl.
  - destruct Hfp as [<-|[<-|[]]]; rewrite String.eqb_refl; [reflexivity|].
    apply orb_true_r.
Qed.

Lemma length_limitRows (r : OrderRequest) :
  deviceFingerprint r <> ipFingerprint r -> List.length (limitRows r) = 2%nat.
Proof.
  intros H. unfold limitRows, fingerprintsOf.
  apply String.eqb_neq in H. now rewrite H.
Qed.

Lemma postOrders_limits (sv sv' : Server) (r : OrderRequest) (orderId : Z) :
  postOrders sv r = (Created201 orderId, sv') ->
  isStaffRequest r = false ->
  device_order_limits (store sv')
  = device_order_limits (purgeLimits (now r) (store sv)) ++ limitRows r.
Proof.
  intros H Hstaff. apply postOrders_persisted in H.
  destruct H as (session & ot & total & tid & bmap & s2 & Hpo & _ & _ & _ & _ & _ & Hl).
  apply persistOrder_rows in Hpo. destruct Hpo as (_ & _ & _ & _ & Hl' & _).
  rewrite Hstaff in Hl, Hl'. now rewrite Hl', Hl.
Qed.

Lemma postOrders_rate_limited (sv : Server) (r : OrderRequest) :
  deviceRejected r = false -> rateLimited r (store sv) = true ->
  postOrders sv r
  = (Failed RateLimitExceeded,
     {| store := afterPurge r (store sv); recentRequests := recentRequests sv |}).
Proof.
  intros Hdev Hrate. unfold postOrders. cbv zeta.
  change (negb (isStaffRequest r)
          && (String.eqb (deviceIdOf r) "" || String.eqb (deviceIdOf r) "unknown"
              || negb (uuidRegex (deviceIdOf r)))) with (deviceRejected r).
  rewrite Hdev.
  change (if isStaffRequest r then store sv else purgeLimits (now r) (store sv))
    with (afterPurge r (store sv)).
  change (negb (isStaffRequest r) && (3 <=? orderCount r (afterPurge r (store sv)))%nat)
    with (rateLimited r (store sv)).
  now rewrite Hrate.
Qed.


End AdmissionEffects.

(** X11.  An order placed at the staff console is approved in the
    transaction that creates it: the ledger receives one deduction row per
    ingredient the order uses, every stock goes down by the amount the order
    requires, no notification and no rate-limit row is written, and a later
    [POST /orders/:id/approve] is refused with AlreadyApproved. *)
Theorem staff_order_auto_approved (sv sv' : Server) (r : OrderRequest) (orderId : Z) :
  Admission.postOrders sv r = (Created201 orderId, sv') ->
  Admission.isStaffRequest r = true ->
  stock_transactions (store sv')
  = stock_transactions (store sv)
    ++ map (fun kq => Orders.deductionRow orderId (fst kq) (snd kq))
         (StockLedger.ingredientUsage (store sv') orderId)
  /\ (forall i, (Orders.stockOf (store sv') i
                 == Orders.stockOf (store sv) i
                    - StockLedger.required
                        (StockLedger.ingredientUsage (store sv') orderId) i)%Q)
  /\ notifications (store sv') = notifications (store sv)
  /\ device_order_limits (store sv') = device_order_limits (store sv)
  /\ (forall u, Orders.unauthorised (store sv') u = false ->
                Orders.approve (store sv') u orderId = (Failed AlreadyApproved, store sv')).
Proof.
  intros H Hstaff. apply postOrders_persisted in H.
  destruct H as (session & ot & total & tid & bmap & s2 & Hpo
                 & Ho & _ & Hn & Hi & Ht & Hl).
  apply persistOrder_rows in Hpo.
  destruct Hpo as (Hid & Hrow & _ & _ & Hl' & Hs & _).
  destruct (Hs Hstaff) as (Hn' & Ht' & Hstock). rewrite Hstaff in Hl, Hl', Hrow.
  split; [now rewrite Ht', Ht|]. split.
  { intros i. rewrite Hstock, (stockOf_ingredients s2 (store sv) i Hi).
    reflexivity. }
  split; [now rewrite Hn', Hn|]. split; [now rewrite Hl', app_nil_r, Hl|].
  intros u Hu.
  eapply approve_already_approved;
    [exact Hu | rewrite Hid; apply nextId_pos | | | ].
  - unfold Orders.selectOrder. rewrite Hrow, filter_app.
    rewrite selectOrder_fresh by (rewrite Hid; apply nextId_fresh).
    cbn. rewrite Z.eqb_refl. reflexivity.
  - reflexivity.
  - discriminate.
Qed.

Lemma staff_order_auto_approved_witness :
  stock_transactions (store (snd (Admission.postOrders Sample.server
                                    SampleRequests.staffOrder)))
  = stock_transactions (store Sample.server)
    ++ map (fun kq => Orders.deductionRow 3 (fst kq) (snd kq))
         (StockLedger.ingredientUsage
            (store (snd (Admission.postOrders Sample.server SampleRequests.staffOrder))) 3)
  /\ (forall i, (Orders.stockOf
                   (store (snd (Admission.postOrders Sample.server
                                  SampleRequests.staffOrder))) i
                 == Orders.stockOf (store Sample.server) i
                    - StockLedger.required
                        (StockLedger.ingredientUsage
                           (store (snd (Admission.postOrders Sample.server
                                          SampleRequests.staffOrder))) 3) i)%Q)
  /\ notifications (store (snd (Admission.postOrders Sample.server
                                  SampleRequests.staffOrder)))
     = notifications (store Sample.server)
  /\ device_order_limits (store (snd (Admission.postOrders Sample.server
                                        SampleRequests.staffOrder)))
     = device_order_limits (store Sample.server)
  /\ (forall u,
        Orders.unauthorised
          (store (snd (Admission.postOrders Sample.server SampleRequests.staffOrder))) u
        = false ->
        Orders.approve
          (store (snd (Admission.postOrders Sample.server SampleRequests.staffOrder))) u 3
        = (Failed AlreadyApproved,
           store (snd (Admission.postOrders Sample.server SampleRequests.staffOrder)))).
Proof.
  apply (staff_order_auto_approved Sample.server
           (snd (Admission.postOrders Sample.server SampleRequests.staffOrder))
           SampleRequests.staffOrder 3).
  - vm_compute. reflexivity.
  - reflexivity.
Defined.

(** X12.  An order placed by a guest changes neither the stock nor the
    ledger; it adds one notification, which refers to the new order, and one
    rate-limit row per distinct fingerprint of the request, after the rows
    older than an hour have been purged. *)
Theorem guest_order_awaits_approval (sv sv' : Server) (r : OrderRequest) (orderId : Z) :
  Admission.postOrders sv r = (Created201 orderId, sv') ->
  Admission.isStaffRequest r = false ->
  ingredients (store sv') = ingredients (store sv)
  /\ stock_transactions (store sv') = stock_transactions (store sv)
  /\ (exists n, notifications (store sv') = notifications (store sv) ++ [n]
                /\ n_reference_id n = orderId)
  /\ device_order_limits (store sv')
     = device_order_limits (Admission.purgeLimits (now r) (store sv))
       ++ Router.limitRows r.
Proof.
  intros H Hstaff.
  pose proof (postOrders_limits _ _ _ _ H Hstaff) as Hlim.
  apply postOrders_persisted in H.
  destruct H as (session & ot & total & tid & bmap & s2 & Hpo
                 & _ & _ & Hn & Hi & Ht & _).
  apply persistOrder_rows in Hpo.
  destruct Hpo as (_ & _ & _ & _ & _ & _ & Hg).
  destruct (Hg Hstaff) as (Hi' & Ht' & n & Hn' & Href).
  split; [now rewrite Hi', Hi|]. split; [now rewrite Ht', Ht|].
  split; [|exact Hlim].
  exists n. split; [now rewrite Hn', Hn | exact Href].
Qed.

Lemma guest_order_awaits_approval_witness :
  ingredients (store (snd (Admission.postOrders Sample.server Sample.breakfastOrder)))
  = ingredients (store Sample.server)
  /\ stock_transactions (store (snd (Admission.postOrders Sample.server
                                       Sample.breakfastOrder)))
     = stock_transactions (store Sample.server)
  /\ (exists n,
        notifications (store (snd (Admission.postOrders Sample.server
                                     Sample.breakfastOrder)))
        = notifications (store Sample.server) ++ [n]
        /\ n_reference_id n = 3)
  /\ device_order_limits (store (snd (Admission.postOrders Sample.server
                                        Sample.breakfastOrder)))
     = device_order_limits (Admission.purgeLimits (now Sample.breakfastOrder)
                              (store Sample.server))
       ++ Router.limitRows Sample.breakfastOrder.
Proof.
  apply (guest_order_awaits_approval Sample.server
           (snd (Admission.postOrders Sample.server Sample.breakfastOrder))
           Sample.breakfastOrder 3).
  - vm_compute. reflexivity.
  - reflexivity.
Defined.

(** X13.  A guest whose device and network fingerprints differ books two
    rate-limit rows per admitted order, and the limit counts rows: after two
    orders admitted within an hour, the third request of the same device from
    the same network within that hour is refused with RateLimitExceeded (429),
    leaving nothing behind but the purge. *)
Theorem third_guest_order_refused (sv sv1 sv2 : Server) (r1 r2 r3 : OrderRequest)
    (id1 id2 : Z) :
  Admission.isStaffRequest r1 = false -> Admission.isStaffRequest r2 = false ->
  Admission.isStaffRequest r3 = false ->
  deviceFingerprint r1 <> ipFingerprint r1 ->
  deviceFingerprint r2 = deviceFingerprint r1 -> ipFingerprint r2 = ipFingerprint r1 ->
  deviceFingerprint r3 = deviceFingerprint r1 -> ipFingerprint r3 = ipFingerprint r1 ->
  Admission.deviceIdOf r3 = Admission.deviceIdOf r1 ->
  now r1 <= now r2 -> now r2 <= now r3 -> now r3 <= now r1 + 3600 ->
  Admission.postOrders sv r1 = (Created201 id1, sv1) ->
  Admission.postOrders sv1 r2 = (Created201 id2, sv2) ->
  Admission.postOrders sv2 r3
  = (Failed RateLimitExceeded,
     {| store := Admission.purgeLimits (now r3) (store sv2);
        recentRequests := recentRequests sv2 |}).
Proof.
  intros Hs1 Hs2 Hs3 Hne Hd2 Hi2 Hd3 Hi3 Hdev T12 T23 T31 H1 H2.
  assert (Hdev1 : Router.deviceRejected r1 = false).
  { destruct (postOrders_guard _ _ _ _ H1)
      as [(E & _)|[(E & _)|[(E & _)|[(E & _)|(E & _)]]]];
      try discriminate; exact E. }
  assert (Hdev3 : Router.deviceRejected r3 = false).
  { unfold Router.deviceRejected in *. rewrite Hs1 in Hdev1.
    rewrite Hs3, Hdev. exact Hdev1. }
  pose proof (postOrders_limits _ _ _ _ H1 Hs1) as L1.
  pose proof (postOrders_limits _ _ _ _ H2 Hs2) as L2.
  replace (Admission.purgeLimits (now r3) (store sv2))
    with (Router.afterPurge r3 (store sv2))
    by (unfold Router.afterPurge; now rewrite Hs3).
  apply postOrders_rate_limited; [exact Hdev3|].
  unfold Router.rateLimited, Router.afterPurge. rewrite Hs3. cbn [negb andb].
  apply Nat.leb_le. unfold Admission.orderCount, Admission.purgeLimits.
  cbn [device_order_limits with_device_order_limits].
  rewrite L2. unfold Admission.purgeLimits at 1.
  cbn [device_order_limits with_device_order_limits].
  rewrite L1.
  rewrite !filter_app, !length_app.
  rewrite (limitRows_kept r1 (now r2)) by lia.
  rewrite (limitRows_kept r1 (now r3)) by lia.
  rewrite (limitRows_kept r2 (now r3)) by lia.
  rewrite (limitRows_counted r1 r3) by (assumption || lia).
  rewrite (limitRows_counted r2 r3) by (congruence || lia).
  rewrite (length_limitRows r1 Hne).
  rewrite (length_limitRows r2) by congruence.
  lia.
Qed.

(** Breakfast at 500 and again at 600, then a table order at 1500: the
    third request is refused. *)
Lemma third_guest_order_refused_witness :
  Admission.postOrders
    (snd (Admission.postOrders (snd (Admission.postOrders Sample.server
                                       Sample.breakfastOrder))
            SampleRequests.breakfastOrderAgain))
    SampleRequests.tableOrder
  = (Failed RateLimitExceeded,
     {| store := Admission.purgeLimits (now SampleRequests.tableOrder)
                   (store (snd (Admission.postOrders
                                  (snd (Admission.postOrders Sample.server
                                          Sample.breakfastOrder))
                                  SampleRequests.breakfastOrderAgain)));
        recentRequests :=
          recentRequests (snd (Admission.postOrders
                                 (snd (Admission.postOrders Sample.server
                                         Sample.breakfastOrder))
                                 SampleRequests.breakfastOrderAgain)) |}).
Proof.
  apply (third_guest_order_refused Sample.server
           (snd (Admission.postOrders Sample.server Sample.breakfastOrder))
           (snd (Admission.postOrders
                   (snd (Admission.postOrders Sample.server Sample.breakfastOrder))
                   SampleRequests.breakfastOrderAgain))
           Sample.breakfastOrder SampleRequests.breakfastOrderAgain
           SampleRequests.tableOrder 3 4).
  - vm_compute. reflexivity.
  - vm_compute. reflexivity.
  - vm_compute. reflexivity.
  - vm_compute. discriminate.
  - vm_compute. reflexivity.
  - vm_compute. reflexivity.
  - vm_compute. reflexivity.
  - vm_compute. reflexivity.
  - vm_compute. reflexivity.
  - vm_compute. discriminate.
  - vm_compute. discriminate.
  - vm_compute. discriminate.
  - vm_compute. reflexivity.
  - vm_compute. reflexivity.
Defined.



(** ** Tables and breakfast prices *)

Section TableAndPriceFacts.
Import StockLedger Orders Pricing Admission Router.

Lemma find_app_some {A : Type} (p : A -> bool) (l1 l2 : list A) (x : A) :
  find p l1 = Some x -> find p (l1 ++ l2) = Some x.
Proof.
  induction l1 as [|a l1 IH]; simpl; [discriminate|].
  destruct (p a); [trivial | exact IH].
Qed.

Lemma find_app_none {A : Type} (p : A -> bool) (l1 l2 : list A) :
  find p l1 = None -> find p (l1 ++ l2) = find p l2.
Proof.
  induction l1 as [|a l1 IH]; simpl; [reflexivity|].
  destruct (p a); [discriminate | exact IH].
Qed.

Lemma find_none {A : Type} (p : A -> bool) (l : list A) :
  (forall x, In x l -> p x = false) -> find p l = None.
Proof.
  induction l as [|a l IH]; intros H; simpl; [reflexivity|].
  rewrite (H a) by now left. apply IH. intros x Hx. apply H. now right.
Qed.

Lemma In_mapModify (m : list BreakfastEntry) (b : Z) (f : BreakfastEntry -> BreakfastEntry)
    (e : BreakfastEntry) :
  In e (mapModify m b f) -> In e m \/ exists e0, In e0 m /\ e = f e0.
Proof.
  induction m as [|x m IH]; simpl; [intros []|].
  destruct (be_breakfast_id x =? b); simpl.
  - intros [<-|H]; [right; exists x; auto | left; auto].
  - intros [<-|H]; [left; auto|].
    destruct (IH H) as [H'|(e0 & H' & ->)]; [left; auto | right; exists e0; auto].
Qed.

(** One accepted breakfast line: what it is charged and how it is merged. *)
Lemma verifyBreakfast_price (s : Store) (m m' : list BreakfastEntry) (t t' : Q)
    (item : BreakfastCartItem) :
  verifyBreakfast s (m, t) item = inr (m', t') ->
  m' = coalesce m item (chargedPrice s item)
  /\ t' = (t + chargedPrice s item * inject_Z (bi_quantity item))%Q
  /\ (expectedBreakfastPrice s item <= chargedPrice s item)%Q
  /\ (bi_unit_price item <= chargedPrice s item)%Q
  /\ (chargedPrice s item <= bi_unit_price item + (1 # 100))%Q.
Proof.
  unfold verifyBreakfast, chargedPrice, expectedBreakfastPrice.
  destruct (bi_breakfast_id item <=? 0); [discriminate|].
  destruct (bi_quantity item <=? 0); [discriminate|].
  destruct (Qle_bool (bi_unit_price item) 0); [discriminate|].
  destruct (selectBreakfast s (bi_breakfast_id item)) as [|b bs]; [discriminate|].
  destruct (negb (b_availability b)); [discriminate|].
  destruct (checkOptionGroups s (bi_breakfast_id item) (bi_option_ids item)) as [e|p];
    [discriminate|].
  destruct (Js.lt (bi_unit_price item + (1 # 100)) (b_price b + p)) eqn:Hlow;
    [discriminate|].
  apply lt_false_le in Hlow.
  assert (Hcent : (bi_unit_price item <= bi_unit_price item + (1 # 100))%Q).
  { rewrite <- (Qplus_0_r (bi_unit_price item)) at 1.
    apply Qplus_le_r. discriminate. }
  destruct (Js.lt (b_price b + p) (bi_unit_price item)) eqn:Hhigh;
    intros H; inversion H; subst; clear H.
  - apply lt_true_lt in Hhigh. repeat split.
    + now apply Qlt_le_weak.
    + apply Qle_refl.
    + exact Hcent.
  - apply lt_false_le in Hhigh. repeat split.
    + apply Qle_refl.
    + exact Hhigh.
    + exact Hlow.
Qed.

Lemma coalesce_price (s : Store) (pre : list BreakfastCartItem) (m : list BreakfastEntry)
    (item : BreakfastCartItem) :
  pricedByFirstLine s pre m ->
  pricedByFirstLine s (pre ++ [item]) (coalesce m item (chargedPrice s item)).
Proof.
  intros (Hkeys & Hprice). unfold coalesce.
  set (b := bi_breakfast_id item).
  set (fresh := {| be_breakfast_id := b; be_quantity := 0;
                   be_unit_price := chargedPrice s item; be_option_ids := [] |}).
  set (m1 := if negb (mapHas m b) then m ++ [fresh] else m).
  assert (Hm1 : (forall x, In x (map be_breakfast_id m) -> In x (map be_breakfast_id m1))
                /\ In b (map be_breakfast_id m1)
                /\ (forall e, In e m1 ->
                      exists l,
                        find (fun l => bi_breakfast_id l =? be_breakfast_id e) (pre ++ [item])
                        = Some l
                        /\ be_unit_price e = chargedPrice s l)).
  { assert (Hold : forall e, In e m ->
              exists l,
                find (fun l => bi_breakfast_id l =? be_breakfast_id e) (pre ++ [item]) = Some l
                /\ be_unit_price e = chargedPrice s l).
    { intros e He. destruct (Hprice e He) as (l & Hl & Hp).
      exists l. split; [now apply find_app_some | exact Hp]. }
    subst m1. destruct (mapHas m b) eqn:Hhas; cbn [negb].
    - split; [auto|]. split; [now apply mapHas_In | exact Hold].
    - split; [intros x Hx; rewrite map_app; apply in_or_app; now left|].
      split; [rewrite map_app; apply in_or_app; right; now left|].
      intros e He. apply in_app_or in He. destruct He as [He|[<-|[]]]; [now apply Hold|].
      exists item. split; [|reflexivity]. cbn [be_breakfast_id fresh].
      rewrite find_app_none.
      + cbn. fold b. now rewrite Z.eqb_refl.
      + apply find_none. intros x Hx.
        destruct (bi_breakfast_id x =? b) eqn:E; [|reflexivity].
        apply Z.eqb_eq in E. exfalso.
        assert (Hin : In b (map be_breakfast_id m)).
        { apply Hkeys. rewrite <- E. now apply in_map. }
        apply mapHas_In in Hin. congruence. }
  destruct Hm1 as (Hsub & Hb & Hp1). split.
  - intros x Hx. rewrite keys_mapModify by reflexivity.
    rewrite map_app in Hx. apply in_app_or in Hx.
    destruct Hx as [Hx|[<-|[]]]; [apply Hsub, Hkeys, Hx | exact Hb].
  - intros e He. apply In_mapModify in He.
    destruct He as [He|(e0 & He0 & ->)]; [now apply Hp1|].
    exact (Hp1 e0 He0).
Qed.

Lemma verifyBreakfasts_prices (s : Store) (lines pre : list BreakfastCartItem)
    (m m' : list BreakfastEntry) (t t' : Q) :
  verifyBreakfasts s lines (m, t) = inr (m', t') ->
  pricedByFirstLine s pre m ->
  (t' == t + sumQ (map (fun l => chargedPrice s l * inject_Z (bi_quantity l)) lines))%Q
  /\ Forall (fun l => (expectedBreakfastPrice s l <= chargedPrice s l)%Q
                      /\ (bi_unit_price l <= chargedPrice s l)%Q
                      /\ (chargedPrice s l <= bi_unit_price l + (1 # 100))%Q) lines
  /\ pricedByFirstLine s (pre ++ lines) m'.
Proof.
  revert pre m t. induction lines as [|item lines IH]; intros pre m t H Hinv;
    cbn [verifyBreakfasts] in H.
  - inversion H; subst. rewrite app_nil_r. cbn. split; [ring|]. split; [constructor|assumption].
  - destruct (verifyBreakfast s (m, t) item) as [e|[m1 t1]] eqn:Hv; [discriminate|].
    apply verifyBreakfast_price in Hv.
    destruct Hv as (-> & -> & Hb1 & Hb2 & Hb3).
    destruct (IH (pre ++ [item]) _ _ H (coalesce_price s pre m item Hinv))
      as (Ht & Hall & Hinv').
    split; [|split].
    + rewrite Ht. cbn [map sumQ fold_right].
      change (fold_right Qplus 0%Q
                (map (fun l => (chargedPrice s l * inject_Z (bi_quantity l))%Q) lines))
        with (sumQ (map (fun l => (chargedPrice s l * inject_Z (bi_quantity l))%Q) lines)).
      ring.
    + constructor; [repeat split; assumption | exact Hall].
    + now rewrite <- app_assoc in Hinv'.
Qed.

Lemma Forall2_In_left {A B : Type} (R : A -> B -> Prop) (l1 : list A) (l2 : list B)
    (a : A) :
  Forall2 R l1 l2 -> In a l1 -> exists b, In b l2 /\ R a b.
Proof.
  induction 1 as [|x y l1 l2 Hxy Hrest IH]; intros Hin; [destruct Hin|].
  destruct Hin as [<-|Hin].
  - exists y. split; [now left | exact Hxy].
  - destruct (IH Hin) as (b & Hb & Hab). exists b. split; [now right | exact Hab].
Qed.

End TableAndPriceFacts.

(** X15.  An admitted [local] order names a table by its id or by its table
    number; the first table row that matches either way is taken, it is not
    reserved, the order row refers to that row's id, and a table row with
    that id is [occupied] once the order is stored. *)
Theorem local_order_takes_table (sv sv' : Server) (r : OrderRequest) (orderId : Z) :
  Admission.postOrders sv r = (Created201 orderId, sv') ->
  order_type r = Some local ->
  exists tid t,
    table_id r = Some tid /\ tid <> 0
    /\ hd_error (filter (fun t => (t_id t =? tid) || (t_table_number t =? tid))
                   (tables (store sv))) = Some t
    /\ t_status t <> reserved
    /\ (exists row, In row (orders (store sv')) /\ o_id row = orderId
                    /\ o_table_id row = Some (t_id t))
    /\ (exists t', In t' (tables (store sv')) /\ t_id t' = t_id t
                   /\ t_status t' = occupied).
Proof.
  intros H Hlocal. apply postOrders_created in H.
  destruct H as (session & ot & afterItems & bmap & total & s2 & tid' & total'
                 & _ & Hot & Htruthy & _ & _ & Hrt & _ & _ & Hpo).
  rewrite Hlocal in Hot. inversion Hot; subst ot. specialize (Htruthy eq_refl).
  destruct (table_id r) as [tid|] eqn:Htid; [|discriminate].
  assert (Hnz : tid <> 0).
  { intros ->. discriminate. }
  exists tid.
  unfold Admission.resolveTable in Hrt. rewrite Hlocal, Htid, Htruthy in Hrt.
  replace (tables (Router.afterPurge r (store sv))) with (tables (store sv)) in Hrt
    by (unfold Router.afterPurge; now destruct (Admission.isStaffRequest r)).
  destruct (filter (fun t => (t_id t =? tid) || (t_table_number t =? tid))
              (tables (store sv))) as [|rec recs] eqn:Hf; [discriminate|].
  assert (Hin : In rec (tables (store sv))).
  { assert (Hin : In rec (rec :: recs)) by now left.
    rewrite <- Hf in Hin. now apply filter_In in Hin. }
  apply persistOrder_rows in Hpo.
  destruct Hpo as (_ & Hrow & _ & Htab & _).
  exists rec. split; [reflexivity|]. split; [exact Hnz|]. split; [reflexivity|].
  assert (Hgoal : forall tables2,
            tables s2 = tables2 -> tid' = Some (t_id rec) ->
            (exists t', In t' tables2 /\ t_id t' = t_id rec /\ t_status t' = occupied) ->
            t_status rec <> reserved ->
            t_status rec <> reserved
            /\ (exists row, In row (orders (store sv')) /\ o_id row = orderId
                            /\ o_table_id row = Some (t_id rec))
            /\ (exists t', In t' (tables (store sv')) /\ t_id t' = t_id rec
                           /\ t_status t' = occupied)).
  { intros tables2 Ht2 -> Hocc Hres. split; [exact Hres|]. split.
    - eexists. split; [rewrite Hrow; apply in_or_app; right; now left|].
      split; reflexivity.
    - now rewrite Htab, Ht2. }
  destruct (t_status rec) eqn:Hst; [| |discriminate]; inversion Hrt; subst s2 tid'.
  - (* available: marked occupied *)
    eapply Hgoal; [reflexivity | reflexivity | | discriminate].
    exists {| t_id := t_id rec; t_table_number := t_table_number rec; t_status := occupied |}.
    split; [|split; reflexivity]. cbn.
    unfold Admission.markOccupied.
    replace (tables (Router.afterPurge r (store sv))) with (tables (store sv))
      by (unfold Router.afterPurge; now destruct (Admission.isStaffRequest r)).
    apply in_map_iff. exists rec. split; [now rewrite Z.eqb_refl | exact Hin].
  - (* occupied already *)
    eapply Hgoal; [reflexivity | reflexivity | | discriminate].
    exists rec. split; [|split; [reflexivity | exact Hst]].
    replace (tables (Router.afterPurge r (store sv))) with (tables (store sv))
      by (unfold Router.afterPurge; now destruct (Admission.isStaffRequest r)).
    exact Hin.
Qed.

Lemma local_order_takes_table_witness :
  exists tid t,
    table_id SampleRequests.tableOrder = Some tid /\ tid <> 0
    /\ hd_error (filter (fun t => (t_id t =? tid) || (t_table_number t =? tid))
                   (tables (store Sample.server))) = Some t
    /\ t_status t <> reserved
    /\ (exists row,
          In row (orders (store (snd (Admission.postOrders Sample.server
                                        SampleRequests.tableOrder))))
          /\ o_id row = 3 /\ o_table_id row = Some (t_id t))
    /\ (exists t',
          In t' (tables (store (snd (Admission.postOrders Sample.server
                                       SampleRequests.tableOrder))))
          /\ t_id t' = t_id t /\ t_status t' = occupied).
Proof.
  apply (local_order_takes_table Sample.server
           (snd (Admission.postOrders Sample.server SampleRequests.tableOrder))
           SampleRequests.tableOrder 3).
  - vm_compute. reflexivity.
  - reflexivity.
Defined.

(** X16.  In an admitted order every breakfast line is charged at the
    catalogue price of the breakfast plus its selected options, or at the
    unit price the client sent when that is higher: never below either.  The
    breakfast loop adds that price times the quantity to the running total
    for every line, while the [order_items] row of a breakfast stores the
    price charged for the first line of that breakfast. *)
Theorem breakfast_lines_charged (sv sv' : Server) (r : OrderRequest) (orderId : Z) :
  Admission.postOrders sv r = (Created201 orderId, sv') ->
  exists afterItems breakfastMap total itemRows rows,
    Pricing.verifyItems (Router.afterPurge r (store sv)) (items r) 0 = inr afterItems
    /\ Pricing.verifyBreakfasts (Router.afterPurge r (store sv)) (breakfastItems r)
         ([], afterItems) = inr (breakfastMap, total)
    /\ (total == afterItems
                 + StockLedger.sumQ
                     (map (fun l => Router.chargedPrice (Router.afterPurge r (store sv)) l
                                    * inject_Z (bi_quantity l))
                        (breakfastItems r)))%Q
    /\ (forall l, In l (breakfastItems r) ->
          (Router.expectedBreakfastPrice (Router.afterPurge r (store sv)) l
           <= Router.chargedPrice (Router.afterPurge r (store sv)) l)%Q
          /\ (bi_unit_price l <= Router.chargedPrice (Router.afterPurge r (store sv)) l)%Q)
    /\ order_items (store sv') = (order_items (store sv) ++ itemRows) ++ rows
    /\ List.length itemRows = List.length (items r)
    /\ List.length rows = List.length breakfastMap
    /\ (forall oi, In oi rows ->
          oi_order_id oi = orderId
          /\ exists b l,
               oi_breakfast_id oi = Some b
               /\ find (fun l => bi_breakfast_id l =? b) (breakfastItems r) = Some l
               /\ oi_unit_price oi
                  = Router.chargedPrice (Router.afterPurge r (store sv)) l).
Proof.
  intros H. apply postOrders_created in H.
  destruct H as (session & ot & afterItems & bmap & total & s2 & tid & total'
                 & _ & _ & _ & Hvi & Hvb & Hrt & _ & _ & Hpo).
  destruct (verifyBreakfasts_prices _ _ [] [] bmap afterItems total Hvb)
    as (Ht & Hall & _ & Hp).
  { split; [intros b [] | intros e []]. }
  apply persistOrder_created in Hpo.
  destruct Hpo as (_ & (itemRows & rows & Hoi & Hitems & Hrows & _) & _).
  assert (Hoi2 : order_items s2 = order_items (store sv)).
  { apply beforeTransaction_frame in Hrt. apply Hrt. }
  exists afterItems, bmap, total, itemRows, rows.
  split; [exact Hvi|]. split; [exact Hvb|]. split; [exact Ht|]. split.
  { intros l Hl. rewrite Forall_forall in Hall. destruct (Hall l Hl) as (H1 & H2 & _).
    split; assumption. }
  split; [now rewrite Hoi, Hoi2|].
  split; [exact (Forall2_length Hitems)|].
  split; [exact (Forall2_length Hrows)|].
  intros oi Hin.
  destruct (Forall2_In_left _ _ _ _ Hrows Hin) as (e & He & Hid & _ & Hb & _ & Hprice).
  split; [exact Hid|].
  destruct (Hp e He) as (l & Hfind & Hl).
  exists (be_breakfast_id e), l. split; [exact Hb|]. split; [exact Hfind|].
  now rewrite Hprice.
Qed.

(** Breakfast 1 on two cart lines of [Sample.breakfastOrder]. *)
Lemma breakfast_lines_charged_witness :
  exists afterItems breakfastMap total itemRows rows,
    Pricing.verifyItems (Router.afterPurge Sample.breakfastOrder (store Sample.server))
      (items Sample.breakfastOrder) 0 = inr afterItems
    /\ Pricing.verifyBreakfasts
         (Router.afterPurge Sample.breakfastOrder (store Sample.server))
         (breakfastItems Sample.breakfastOrder) ([], afterItems)
       = inr (breakfastMap, total)
    /\ (total == afterItems
                 + StockLedger.sumQ
                     (map (fun l =>
                             Router.chargedPrice
                               (Router.afterPurge Sample.breakfastOrder (store Sample.server)) l
                             * inject_Z (bi_quantity l))
                        (breakfastItems Sample.breakfastOrder)))%Q
    /\ (forall l, In l (breakfastItems Sample.breakfastOrder) ->
          (Router.expectedBreakfastPrice
             (Router.afterPurge Sample.breakfastOrder (store Sample.server)) l
           <= Router.chargedPrice
                (Router.afterPurge Sample.breakfastOrder (store Sample.server)) l)%Q
          /\ (bi_unit_price l
              <= Router.chargedPrice
                   (Router.afterPurge Sample.breakfastOrder (store Sample.server)) l)%Q)
    /\ order_items (store (snd (Admission.postOrders Sample.server Sample.breakfastOrder)))
       = (order_items (store Sample.server) ++ itemRows) ++ rows
    /\ List.length itemRows = List.length (items Sample.breakfastOrder)
    /\ List.length rows = List.length breakfastMap
    /\ (forall oi, In oi rows ->
          oi_order_id oi = 3
          /\ exists b l,
               oi_breakfast_id oi = Some b
               /\ find (fun l => bi_breakfast_id l =? b)
                    (breakfastItems Sample.breakfastOrder) = Some l
               /\ oi_unit_price oi
                  = Router.chargedPrice
                      (Router.afterPurge Sample.breakfastOrder (store Sample.server)) l).
Proof.
  apply (breakfast_lines_charged Sample.server
           (snd (Admission.postOrders Sample.server Sample.breakfastOrder))
           Sample.breakfastOrder 3).
  vm_compute. reflexivity.
Defined.

(** ** Cancellation and the history of the store *)

(** X17.  For an authorised caller and an order that exists and is not yet
    cancelled, cancellation succeeds unless stock restoration was asked for
    an approved order and either a restoration is already in the ledger, or
    a deduction is in the ledger and an ingredient the order requires has no
    row.  Without [restoreStock], or on an order that is not approved, it
    always succeeds. *)
Theorem cancel_succeeds_iff (s : Store) (u : option RequestUser) (orderId : Z)
    (restoreStock : bool) (order : Order) (rest : list Order) :
  Orders.unauthorised s u = false -> 0 < orderId ->
  Orders.selectOrder s orderId = order :: rest ->
  o_status order <> cancelled ->
  (exists s', Orders.cancel s u orderId restoreStock = (Ok200 "Order cancelled", s'))
  <-> (restoreStock && o_approved order = true ->
       Orders.hasRestoration s orderId = false
       /\ (Orders.hasDeduction s orderId = true ->
           forall i, In i (StockLedger.keys (StockLedger.ingredientUsage s orderId)) ->
                     Orders.selectIngredient s i <> [])).
Proof.
  intros Hu Hid Hsel Hst.
  assert (Hst' : status_eqb (o_status order) cancelled = false)
    by (destruct (o_status order); try reflexivity; contradiction).
  unfold Orders.cancel. rewrite Hu. apply Z.leb_gt in Hid. rewrite Hid.
  cbv zeta. change (work (beginTransaction s)) with s. rewrite Hsel, Hst'.
  destruct (restoreStock && o_approved order) eqn:Hra.
  - destruct (Orders.hasRestoration s orderId) eqn:Hr.
    + split; [intros (s' & H); discriminate|].
      intros H. destruct (H eq_refl) as (H' & _). discriminate.
    + destruct (Orders.hasDeduction s orderId) eqn:Hd; cbn [negb].
      * destruct (Orders.restoreStockLoop orderId (StockLedger.ingredientUsage s orderId)
                    (beginTransaction s)) as [e|c'] eqn:Hloop.
        -- split; [intros (s' & H); discriminate|].
           intros H. destruct (H eq_refl) as (_ & Hall). specialize (Hall eq_refl).
           destruct (restoreStockLoop_ok orderId (StockLedger.ingredientUsage s orderId)
                       (beginTransaction s)) as (c' & Hc' & _);
             [apply NoDup_keys_ingredientUsage | exact Hall | congruence].
        -- split; [|intros _; eauto].
           intros _ _. split; [reflexivity|]. intros _.
           apply restoreStockLoop_inv in Hloop; [|apply NoDup_keys_ingredientUsage].
           apply Hloop.
      * split; [|intros _; eauto].
        intros _ _. split; [reflexivity | discriminate].
  - split; [intros _; discriminate | intros _; eauto].
Qed.

(** Order 1 of [Sample.approved1] is approved and deducted, nothing has been
    restored and both ingredients exist: cancelling it with restoration
    succeeds. *)
Lemma cancel_succeeds_iff_witness :
  exists s', Orders.cancel Sample.approved1 Sample.admin 1 true
             = (Ok200 "Order cancelled", s').
Proof.
  apply (cancel_succeeds_iff Sample.approved1 Sample.admin 1 true
           (Orders.setApproval true preparing (Sample.order 1 18)) []).
  - vm_compute. reflexivity.
  - reflexivity.
  - vm_compute. reflexivity.
  - discriminate.
  - intros _. split; [vm_compute; reflexivity|].
    intros _ i Hi. vm_compute in Hi. destruct Hi as [<-|[]]. discriminate.
Defined.

Section HistoryFacts.
Import StockLedger Orders Pricing Admission Router.

Lemma erase_updateOrder (orderId : Z) (a : bool) (st : OrderStatus) (l : list Order) :
  map (setApproval false pending)
    (map (fun o => if o_id o =? orderId then setApproval a st o else o) l)
  = map (setApproval false pending) l.
Proof.
  rewrite map_map. apply map_ext. intros o. now destruct (o_id o =? orderId).
Qed.

(** One request leaves the order rows as they are up to [approved] and
    [status], and adds at most one row. *)
Lemma perform_orders (sv : Server) (c : Call) :
  exists extra,
    map (setApproval false pending) (orders (store (snd (perform sv c))))
    = map (setApproval false pending) (orders (store sv)) ++ extra.
Proof.
  assert (Hsame : forall s', orders s' = orders (store sv) ->
            exists extra,
              map (setApproval false pending) (orders s')
              = map (setApproval false pending) (orders (store sv)) ++ extra).
  { intros s' ->. exists []. now rewrite app_nil_r. }
  assert (Hupd : forall orderId a st w, orders w = orders (store sv) ->
            exists extra,
              map (setApproval false pending) (orders (updateOrder orderId a st w))
              = map (setApproval false pending) (orders (store sv)) ++ extra).
  { intros orderId a st w Hw. exists []. rewrite app_nil_r. unfold updateOrder.
    cbn [orders with_orders]. now rewrite erase_updateOrder, Hw. }
  destruct c as [r | u orderId approved | u orderId | u orderId restoreStock]; simpl.
  - destruct (postOrders sv r) as [resp sv'] eqn:Hpost. simpl.
    destruct resp as [msg|orderId|e].
    + destruct (postOrders_outcome _ _ _ _ Hpost)
        as [(e & He) | (orderId & ? & ? & ? & ? & ? & ? & ? & ? & He & _)]; discriminate.
    + apply postOrders_persisted in Hpost.
      destruct Hpost as (session & ot & total & tid & bmap & s2 & Hpo & Ho & _).
      apply persistOrder_rows in Hpo. destruct Hpo as (_ & Hrow & _).
      eexists. rewrite Hrow, map_app, Ho. reflexivity.
    + apply Hsame. apply postOrders_failed_store in Hpost. cbv zeta in Hpost.
      destruct Hpost as [H|[H|(_ & s3 & tid & Ht & H)]]; rewrite H.
      * reflexivity.
      * now destruct (isStaffRequest r).
      * apply beforeTransaction_frame in Ht. apply Ht.
  - unfold putOrder.
    destruct (unauthorised (store sv) u); [now apply Hsame|].
    destruct (orderId <=? 0); [now apply Hsame|].
    destruct (negb (approved =? 1) && negb (approved =? 0)); [now apply Hsame|].
    destruct (selectOrder (store sv) orderId); [now apply Hsame | now apply Hupd].
  - destruct (approve_cases (store sv) u orderId) as [(e & ->)|(s1 & H)];
      [now apply Hsame|].
    rewrite H. simpl.
    apply approve_ok_inv in H.
    destruct H as (order & rest & c1 & _ & _ & _ & _ & _ & Hded & ->).
    apply Hupd.
    apply deductStock_ok in Hded; [|apply NoDup_keys_ingredientUsage].
    destruct Hded as (_ & Hsame1 & _). apply sameButStock_fields in Hsame1.
    apply Hsame1.
  - destruct (cancel (store sv) u orderId restoreStock) as [resp s'] eqn:Hc. simpl.
    apply cancel_cases in Hc.
    destruct Hc as [(e & _ & ->) | (order & rest & _ & _ & _ & _ & _ &
                      [(_ & ->) | (_ & _ & _ & _ & c' & Hloop & ->)])];
      [now apply Hsame | now apply Hupd |].
    apply Hupd.
    apply restoreStockLoop_inv in Hloop; [|apply NoDup_keys_ingredientUsage].
    destruct Hloop as (Hsame1 & _). apply sameButStock_fields in Hsame1.
    apply Hsame1.
Qed.

End HistoryFacts.

(** X18.  The history is append-only.  Over any sequence of requests, no
    ledger row is removed or changed and the rows that are added belong to
    orders of the store (if the earlier ones did); no order row is removed,
    and nothing of an order row changes but [approved] and [status]. *)
Theorem history_append_only (sv : Server) (calls : list Router.Call) :
  (exists rows,
      stock_transactions (store (Router.performAll sv calls))
      = stock_transactions (store sv) ++ rows)
  /\ (exists extra,
        map (Orders.setApproval false pending)
          (orders (store (Router.performAll sv calls)))
        = map (Orders.setApproval false pending) (orders (store sv)) ++ extra)
  /\ (Router.ledgerRefersToOrders (store sv) ->
      Router.ledgerRefersToOrders (store (Router.performAll sv calls))).
Proof.
  split; [|split].
  - apply (performAll_invariant
             (fun s => exists rows,
                         stock_transactions s = stock_transactions (store sv) ++ rows)).
    + intros sv1 c (rows & Hrows).
      destruct (perform_effect sv1 c) as (rows1 & Htx & _).
      exists (rows ++ rows1). now rewrite Htx, Hrows, app_assoc.
    + exists []. now rewrite app_nil_r.
  - apply (performAll_invariant
             (fun s => exists extra,
                         map (Orders.setApproval false pending) (orders s)
                         = map (Orders.setApproval false pending) (orders (store sv))
                           ++ extra)).
    + intros sv1 c (extra & Hextra).
      destruct (perform_orders sv1 c) as (extra1 & Ho).
      exists (extra ++ extra1). now rewrite Ho, Hextra, app_assoc.
    + exists []. now rewrite app_nil_r.
  - apply (performAll_invariant Router.ledgerRefersToOrders).
    intros sv1 c. apply perform_refers.
Qed.

(** ** Staff requests and the admission checks *)

Section StaffFacts.
Import StockLedger Orders Pricing Admission Router.

Lemma verifyItems_error (s : Store) (l : list CartItem) (t : Q) (e : Error) :
  verifyItems s l t = inl e -> admissionError e = false.
Proof.
  revert t. induction l as [|item l IH]; intros t; cbn [verifyItems]; [discriminate|].
  destruct (verifyItem s t item) as [e1|t1] eqn:Hv; [|apply IH].
  intros H. inversion H; subst e1. clear H. revert Hv.
  unfold verifyItem. cbv zeta.
  destruct (ci_item_id item <=? 0); [now inversion 1|].
  destruct (ci_quantity item <=? 0); [now inversion 1|].
  destruct (Qle_bool (ci_unit_price item) 0); [now inversion 1|].
  destruct (selectMenuItem s (ci_item_id item)) as [|m ms]; [now inversion 1|].
  destruct (negb (mi_availability m)); [now inversion 1|].
  destruct (supplementIdsOf item) as [|x xs].
  - destruct (Js.differs _ _); [now inversion 1 | discriminate].
  - destruct (negb _); [now inversion 1|].
    destruct (Js.differs _ _); [now inversion 1 | discriminate].
Qed.

Lemma checkOptionGroups_error (s : Store) (b : Z) (ids : option (list Z)) (e : Error) :
  checkOptionGroups s b ids = inl e -> admissionError e = false.
Proof.
  unfold checkOptionGroups. cbv zeta.
  repeat match goal with
         | |- context [match ?x with _ => _ end] => destruct x
         end;
    try discriminate; now inversion 1.
Qed.

Lemma verifyBreakfasts_error (s : Store) (l : list BreakfastCartItem)
    (acc : list BreakfastEntry * Q) (e : Error) :
  verifyBreakfasts s l acc = inl e -> admissionError e = false.
Proof.
  revert acc. induction l as [|item l IH]; intros acc; cbn [verifyBreakfasts];
    [discriminate|].
  destruct (verifyBreakfast s acc item) as [e1|acc1] eqn:Hv; [|apply IH].
  intros H. inversion H; subst e1. clear H. revert Hv.
  unfold verifyBreakfast. destruct acc as [m t]. cbv zeta.
  destruct (bi_breakfast_id item <=? 0); [now inversion 1|].
  destruct (bi_quantity item <=? 0); [now inversion 1|].
  destruct (Qle_bool (bi_unit_price item) 0); [now inversion 1|].
  destruct (selectBreakfast s (bi_breakfast_id item)) as [|b bs]; [now inversion 1|].
  destruct (negb (b_availability b)); [now inversion 1|].
  destruct (checkOptionGroups s (bi_breakfast_id item) (bi_option_ids item)) as [e1|p] eqn:Hc.
  - inversion 1; subst. eapply checkOptionGroups_error; eassumption.
  - destruct (Js.lt _ _); [now inversion 1 | discriminate].
Qed.

Lemma resolveTable_error (s : Store) (r : OrderRequest) (e : Error) :
  resolveTable s r = inl e -> admissionError e = false.
Proof.
  unfold resolveTable.
  repeat match goal with
         | |- context [match ?x with _ => _ end] => destruct x
         end;
    try discriminate; now inversion 1.
Qed.

Lemma late_error (e : Error) : afterTableStage e = true -> admissionError e = false.
Proof. now destruct e. Qed.

(** The device and rate-limit rejections come from the two admission checks
    only, and these are skipped for the staff console. *)
Lemma postOrders_admission_error (sv sv' : Server) (r : OrderRequest) (e : Error) :
  postOrders sv r = (Failed e, sv') ->
  admissionError e = true -> isStaffRequest r = false.
Proof.
  unfold postOrders. cbv zeta.
  destruct (isStaffRequest r) eqn:Hstaff; [|reflexivity].
  cbn [negb andb].
  destruct (sessionId r) as [session|]; [|now inversion 1].
  destruct (blank (Some session)); [now inversion 1|].
  destruct (existsb _ (recentRequests sv)); [now inversion 1|].
  assert (Hrest : forall ot,
    (if match ot with local => negb (Js.truthy (table_id r)) | _ => false end
     then (Failed TableIdRequired,
           {| store := store sv; recentRequests := recentRequests sv ++ [orderHash r] |})
     else if match ot with delivery => blank (delivery_address r) | _ => false end
     then (Failed DeliveryAddressRequired,
           {| store := store sv; recentRequests := recentRequests sv ++ [orderHash r] |})
     else
       match verifyItems (store sv) (items r) 0 with
       | inl e0 => (Failed e0,
                    {| store := store sv;
                       recentRequests := recentRequests sv ++ [orderHash r] |})
       | inr afterItems =>
           match verifyBreakfasts (store sv) (breakfastItems r) ([], afterItems) with
           | inl e0 => (Failed e0,
                        {| store := store sv;
                           recentRequests := recentRequests sv ++ [orderHash r] |})
           | inr (breakfastMap, calculatedTotal) =>
               match resolveTable (store sv) r with
               | inl e0 => (Failed e0,
                            {| store := store sv;
                               recentRequests := recentRequests sv ++ [orderHash r] |})
               | inr (s2, effectiveTableId) =>
                   match applyPromotion s2 (now r) (promotion_id r) (items r)
                           (breakfastItems r) calculatedTotal with
                   | inl e0 => (Failed e0,
                                {| store := s2;
                                   recentRequests := recentRequests sv ++ [orderHash r] |})
                   | inr calculatedTotal0 =>
                       if Js.differs (total_price r) calculatedTotal0
                       then (Failed (TotalPriceMismatch calculatedTotal0 (total_price r)),
                             {| store := s2;
                                recentRequests := recentRequests sv ++ [orderHash r] |})
                       else
                         let '(response, s3) :=
                           persistOrder s2 r session ot calculatedTotal0
                             effectiveTableId breakfastMap in
                         (response,
                          {| store := s3;
                             recentRequests := recentRequests sv ++ [orderHash r] |})
                   end
               end
           end
       end) = (Failed e, sv') ->
    admissionError e = true -> true = false).
  { intros ot.
    destruct (match ot with local => _ | _ => false end); [now inversion 1|].
    destruct (match ot with delivery => _ | _ => false end); [now inversion 1|].
    destruct (verifyItems (store sv) (items r) 0) as [e0|afterItems] eqn:Hvi.
    { inversion 1; subst. apply verifyItems_error in Hvi. congruence. }
    destruct (verifyBreakfasts (store sv) (breakfastItems r) ([], afterItems))
      as [e0|[bmap total]] eqn:Hvb.
    { inversion 1; subst. apply verifyBreakfasts_error in Hvb. congruence. }
    destruct (resolveTable (store sv) r) as [e0|[s2 tid]] eqn:Ht.
    { inversion 1; subst. apply resolveTable_error in Ht. congruence. }
    destruct (applyPromotion s2 (now r) (promotion_id r) (items r) (breakfastItems r) total)
      as [e0|total'] eqn:Hp.
    { inversion 1; subst. apply applyPromotion_error in Hp. now subst. }
    destruct (Js.differs (total_price r) total'); [now inversion 1|].
    destruct (persistOrder s2 r session ot total' tid bmap) as [resp s3] eqn:Hpo.
    inversion 1; subst. apply persistOrder_failed in Hpo.
    destruct Hpo as (_ & Hlate). apply late_error in Hlate. congruence. }
  destruct (items r) as [|i il], (breakfastItems r) as [|b bl],
           (order_type r) as [ot|];
    try (now inversion 1); apply Hrest.
Qed.

Lemma postOrders_staff_limits (sv sv' : Server) (r : OrderRequest) (resp : Response) :
  postOrders sv r = (resp, sv') -> isStaffRequest r = true ->
  device_order_limits (store sv') = device_order_limits (store sv).
Proof.
  intros H Hstaff. destruct resp as [msg|orderId|e].
  - destruct (postOrders_outcome _ _ _ _ H)
      as [(e & He) | (orderId & ? & ? & ? & ? & ? & ? & ? & ? & He & _)]; discriminate.
  - apply postOrders_persisted in H.
    destruct H as (session & ot & total & tid & bmap & s2 & Hpo & _ & _ & _ & _ & _ & Hl).
    apply persistOrder_rows in Hpo. destruct Hpo as (_ & _ & _ & _ & Hl' & _).
    rewrite Hstaff in Hl, Hl'. now rewrite Hl', app_nil_r, Hl.
  - apply postOrders_failed_store in H. cbv zeta in H. rewrite Hstaff in H.
    destruct H as [->|[->|(_ & s2 & tid & Ht & ->)]]; try reflexivity.
    apply resolveTable_frame in Ht. apply Ht.
Qed.

End StaffFacts.

(** X19.  A request from the staff console (an admin or server user with
    source "staff-console") is never refused for its device id or for the
    rate limit, however many limit rows match it, and never changes
    [device_order_limits]: it neither purges nor books rows. *)
Theorem staff_requests_bypass_admission (sv sv' : Server) (r : OrderRequest)
    (resp : Response) :
  Admission.postOrders sv r = (resp, sv') ->
  Admission.isStaffRequest r = true ->
  resp <> Failed InvalidDeviceId /\ resp <> Failed RateLimitExceeded
  /\ device_order_limits (store sv') = device_order_limits (store sv).
Proof.
  intros H Hstaff.
  assert (Hno : forall e, resp = Failed e -> Router.admissionError e = false).
  { intros e ->. destruct (Router.admissionError e) eqn:E; [|reflexivity].
    pose proof (postOrders_admission_error _ _ _ _ H E). congruence. }
  split; [|split].
  - intros E. specialize (Hno _ E). discriminate.
  - intros E. specialize (Hno _ E). discriminate.
  - eapply postOrders_staff_limits; eassumption.
Qed.

Lemma staff_requests_bypass_admission_witness :
  fst (Admission.postOrders Sample.server SampleRequests.staffOrder)
  <> Failed InvalidDeviceId
  /\ fst (Admission.postOrders Sample.server SampleRequests.staffOrder)
     <> Failed RateLimitExceeded
  /\ device_order_limits
       (store (snd (Admission.postOrders Sample.server SampleRequests.staffOrder)))
     = device_order_limits (store Sample.server).
Proof.
  apply (staff_requests_bypass_admission Sample.server
           (snd (Admission.postOrders Sample.server SampleRequests.staffOrder))
           SampleRequests.staffOrder
           (fst (Admission.postOrders Sample.server SampleRequests.staffOrder))).
  - vm_compute. reflexivity.
  - vm_compute. reflexivity.
Defined.

(** * Restoration on cancellation *)

Section RestorationClaim.
Import StockLedger Orders Router.

Lemma Qopp_opp (q : Q) : Qopp (Qopp q) = q.
Proof. destruct q as [n d]. unfold Qopp. simpl. now rewrite Z.opp_involutive. Qed.

(** The restoration loop stops only at a required ingredient without a row,
    the first one in map order. *)
Lemma restoreStockLoop_error (orderId : Z) (usage : UsageMap) (c : Connection) (e : Error) :
  NoDup (keys usage) ->
  restoreStockLoop orderId usage c = inl e ->
  exists j, In j (keys usage) /\ selectIngredient (work c) j = []
            /\ e = IngredientNotFoundDuringRestoration j.
Proof.
  revert c. induction usage as [|[k q] usage IH]; intros c Hnd; simpl; [discriminate|].
  inversion Hnd as [|? ? Hnin Hnd']; subst.
  destruct (selectIngredient (work c) k) as [|row rows] eqn:Hsel.
  - intros H. inversion H; subst. exists k. auto.
  - intros H. destruct (IH _ Hnd' H) as (j & Hj & Hnone & ->).
    exists j. split; [now right|]. split; [|reflexivity].
    assert (Hne : k <> j) by (intros ->; contradiction).
    simpl in Hnone. now rewrite selectIngredient_after_write in Hnone.
Qed.

(** Cancellation with restoration when a required ingredient has lost its
    row. *)
Lemma cancel_missing_ingredient (s : Store) (u : option RequestUser) (orderId : Z)
    (order : Order) (rest : list Order) (i : Z) :
  unauthorised s u = false -> 0 < orderId ->
  selectOrder s orderId = order :: rest ->
  o_status order <> cancelled -> o_approved order = true ->
  hasRestoration s orderId = false ->
  hasDeduction s orderId = true ->
  In i (keys (ingredientUsage s orderId)) -> selectIngredient s i = [] ->
  exists j,
    In j (keys (ingredientUsage s orderId)) /\ selectIngredient s j = []
    /\ cancel s u orderId true = (Failed (IngredientNotFoundDuringRestoration j), s).
Proof.
  intros Hu Hid Hsel Hst Ha Hr Hd Hi Hnone.
  assert (Hc : status_eqb (o_status order) cancelled = false)
    by (destruct (o_status order); try reflexivity; contradiction).
  destruct (restoreStockLoop orderId (ingredientUsage s orderId) (beginTransaction s))
    as [e|c'] eqn:Hloop.
  - pose proof Hloop as Hloop'.
    apply restoreStockLoop_error in Hloop'; [|apply NoDup_keys_ingredientUsage].
    destruct Hloop' as (j & Hj & Hjnone & ->). exists j.
    split; [exact Hj|]. split; [exact Hjnone|].
    unfold cancel. rewrite Hu. apply Z.leb_gt in Hid. rewrite Hid.
    cbv zeta. change (work (beginTransaction s)) with s.
    rewrite Hsel, Ha, Hr, Hd, Hc. cbn [andb negb].
    now rewrite Hloop.
  - apply restoreStockLoop_inv in Hloop; [|apply NoDup_keys_ingredientUsage].
    destruct Hloop as (_ & _ & _ & Hall). exfalso. exact (Hall i Hi Hnone).
Qed.

End RestorationClaim.

(** C3 (as amended).  On an approved, not cancelled order with a deduction
    row and no restoration row, cancellation with [restoreStock = true]
    recomputes the requirement map from the order's items and the
    consumption tables as they are now.  When every ingredient of that map
    has a row, the cancellation succeeds, adds to every stock exactly the
    amount of the map, appends one [addition] row per ingredient of the map
    with reason "Order cancellation stock restoration", and sets the order to
    [cancelled], not approved; these are the quantities originally deducted
    when the deduction rows of the ledger are those of the map, in
    particular right after the approval, where every stock returns to its
    value before the approval.  When an ingredient of the map has no row,
    the cancellation is refused with IngredientNotFoundDuringRestoration and
    nothing changes.  A further attempt is refused and changes nothing: with
    AlreadyCancelled while the order is cancelled (in particular right after
    the first cancellation), with AlreadyRestored once the order is approved
    and not cancelled again. *)
Theorem C3_restoration (s : Store) (u : option RequestUser) (orderId : Z)
    (order : Order) (rest : list Order) :
  Orders.unauthorised s u = false -> 0 < orderId ->
  Orders.selectOrder s orderId = order :: rest ->
  (o_status order <> cancelled -> o_approved order = true ->
   Orders.hasRestoration s orderId = false -> Orders.hasDeduction s orderId = true ->
   ((forall i, In i (StockLedger.keys (StockLedger.ingredientUsage s orderId)) ->
               Orders.selectIngredient s i <> []) ->
    exists s',
      Orders.cancel s u orderId true = (Ok200 "Order cancelled", s')
      /\ stock_transactions s'
         = stock_transactions s
           ++ map (fun kq => Orders.restorationRow orderId (fst kq) (snd kq))
                (StockLedger.ingredientUsage s orderId)
      /\ (forall i, (Orders.stockOf s' i
                     == Orders.stockOf s i
                        + StockLedger.required (StockLedger.ingredientUsage s orderId) i)%Q)
      /\ Orders.selectOrder s' orderId
         = map (Orders.setApproval false cancelled) (order :: rest)
      /\ Orders.cancel s' u orderId true = (Failed AlreadyCancelled, s')
      /\ (Router.deductionsOf s orderId
          = map (fun kq => Orders.deductionRow orderId (fst kq) (snd kq))
              (StockLedger.ingredientUsage s orderId) ->
          stock_transactions s'
          = stock_transactions s
            ++ map (fun t => Orders.restorationRow orderId (st_ingredient_id t)
                               (- st_quantity t)%Q)
                 (Router.deductionsOf s orderId)))
   /\ (forall i, In i (StockLedger.keys (StockLedger.ingredientUsage s orderId)) ->
                 Orders.selectIngredient s i = [] ->
        exists j,
          In j (StockLedger.keys (StockLedger.ingredientUsage s orderId))
          /\ Orders.selectIngredient s j = []
          /\ Orders.cancel s u orderId true
             = (Failed (IngredientNotFoundDuringRestoration j), s)))
  /\ (forall msg s1,
        Orders.approve s u orderId = (Ok200 msg, s1) ->
        Orders.hasRestoration s orderId = false ->
        exists s2,
          Orders.cancel s1 u orderId true = (Ok200 "Order cancelled", s2)
          /\ (forall i, (Orders.stockOf s2 i == Orders.stockOf s i)%Q)
          /\ Orders.cancel s2 u orderId true = (Failed AlreadyCancelled, s2))
  /\ (o_status order = cancelled ->
      Orders.cancel s u orderId true = (Failed AlreadyCancelled, s))
  /\ (o_status order <> cancelled -> o_approved order = true ->
      Orders.hasRestoration s orderId = true ->
      Orders.cancel s u orderId true = (Failed AlreadyRestored, s)).
Proof.
  intros Hu Hid Hsel. split; [|split; [|split]].
  - intros Hst Ha Hr Hd. split.
    + intros Hall.
      destruct (cancel_restores s u orderId order rest)
        as (s' & Hc & Htx & Hstock & Hsel' & Husers);
        try assumption.
      exists s'. split; [exact Hc|]. split; [exact Htx|]. split; [exact Hstock|].
      split; [exact Hsel'|]. split.
      * eapply cancel_already_cancelled; try eassumption.
        -- rewrite <- Hu. now apply unauthorised_users.
        -- reflexivity.
      * intros Hded. rewrite Htx, Hded, map_map. f_equal.
        apply map_ext. intros [k q]. cbn. now rewrite Qopp_opp.
    + intros i Hi Hnone.
      eapply cancel_missing_ingredient; eassumption.
  - intros msg s1 Happ Hr.
    destruct (approve_cancel_roundtrip _ _ _ _ _ Happ Hr)
      as (s2 & Hc & Hstock & _ & (o & os & Ho & Hst & _) & Hu2).
    exists s2. split; [exact Hc|]. split; [exact Hstock|].
    eapply cancel_already_cancelled; eassumption.
  - intros Hst. eapply cancel_already_cancelled; eauto.
  - intros Hst Ha Hr. eapply cancel_already_restored; eauto.
Qed.

Lemma C3_restoration_witness :
  (exists s',
     Orders.cancel Sample.approved1 Sample.admin 1 true = (Ok200 "Order cancelled", s')
     /\ stock_transactions s'
        = stock_transactions Sample.approved1
          ++ map (fun kq => Orders.restorationRow 1 (fst kq) (snd kq))
               (StockLedger.ingredientUsage Sample.approved1 1)
     /\ (forall i, (Orders.stockOf s' i
                    == Orders.stockOf Sample.approved1 i
                       + StockLedger.required
                           (StockLedger.ingredientUsage Sample.approved1 1) i)%Q)
     /\ Orders.selectOrder s' 1
        = map (Orders.setApproval false cancelled)
            [Orders.setApproval true preparing (Sample.order 1 18)]
     /\ Orders.cancel s' Sample.admin 1 true = (Failed AlreadyCancelled, s')
     /\ (Router.deductionsOf Sample.approved1 1
         = map (fun kq => Orders.deductionRow 1 (fst kq) (snd kq))
             (StockLedger.ingredientUsage Sample.approved1 1) ->
         stock_transactions s'
         = stock_transactions Sample.approved1
           ++ map (fun t => Orders.restorationRow 1 (st_ingredient_id t)
                              (- st_quantity t)%Q)
                (Router.deductionsOf Sample.approved1 1)))
  /\ Orders.cancel Sample.reapproved1 Sample.admin 1 true
     = (Failed AlreadyRestored, Sample.reapproved1).
Proof.
  split.
  - destruct (C3_restoration Sample.approved1 Sample.admin 1
                (Orders.setApproval true preparing (Sample.order 1 18)) [])
      as (H & _); [reflexivity | reflexivity | reflexivity |].
    destruct H as (H & _); [discriminate | reflexivity | reflexivity | reflexivity |].
    apply H.
    intros i Hi. vm_compute in Hi. destruct Hi as [<-|[]]. discriminate.
  - destruct (C3_restoration Sample.reapproved1 Sample.admin 1
                (Orders.setApproval true preparing (Sample.order 1 18)) [])
      as (_ & _ & _ & H); [reflexivity | reflexivity | reflexivity |].
    apply H; [discriminate | reflexivity | reflexivity].
Defined.

(** C3 as the specification words it fails in three ways.  The plain
    repetition: cancelling with restoration right after that succeeded is
    refused with AlreadyCancelled, not AlreadyRestored, and the order is and
    stays cancelled.  A changed recipe: two units of coffee were deducted for
    order 1 (three are left of five); the recipe of the espresso is then set
    to three units, and the cancellation restores six, leaving nine.  A
    deleted ingredient: with the coffee row gone the cancellation is refused
    and the order stays approved. *)
Lemma C3_restoration_counterexample :
  (fst (Orders.cancel Sample.approved1 Sample.admin 1 true) = Ok200 "Order cancelled"
   /\ Orders.cancel Sample.cancelled1 Sample.admin 1 true
      = (Failed AlreadyCancelled, Sample.cancelled1)
   /\ fst (Orders.cancel Sample.cancelled1 Sample.admin 1 true) <> Failed AlreadyRestored
   /\ map o_status (Orders.selectOrder Sample.cancelled1 1) = [cancelled])
  /\ (Router.deductionsOf SampleRequests.recipeChanged 1 = [Orders.deductionRow 1 1 2]
      /\ (Orders.stockOf SampleRequests.recipeChanged 1 == 3)%Q
      /\ fst (Orders.cancel SampleRequests.recipeChanged Sample.admin 1 true)
         = Ok200 "Order cancelled"
      /\ Router.restorationsOf
           (snd (Orders.cancel SampleRequests.recipeChanged Sample.admin 1 true)) 1
         = [Orders.restorationRow 1 1 6]
      /\ (Orders.stockOf
            (snd (Orders.cancel SampleRequests.recipeChanged Sample.admin 1 true)) 1
          == 9)%Q)
  /\ (Orders.hasDeduction SampleRequests.coffeeDeleted 1 = true
      /\ Orders.cancel SampleRequests.coffeeDeleted Sample.admin 1 true
         = (Failed (IngredientNotFoundDuringRestoration 1), SampleRequests.coffeeDeleted)
      /\ map o_approved (Orders.selectOrder SampleRequests.coffeeDeleted 1) = [true]).
Proof.
  split; [|split].
  - split; [vm_compute; reflexivity|]. split; [vm_compute; reflexivity|].
    split; [vm_compute; discriminate | vm_compute; reflexivity].
  - split; [vm_compute; reflexivity|]. split; [vm_compute; reflexivity|].
    split; [vm_compute; reflexivity|]. split; vm_compute; reflexivity.
  - split; [vm_compute; reflexivity|]. split; vm_compute; reflexivity.
Qed.

(** * The menu-line price check on binary64 *)

Section MenuLineDouble.
Import Pricing PricingDouble.



End MenuLineDouble.



Section MenuLineExamples.
Import PrimFloat.


End MenuLineExamples.
